(** * The registry build scripts of coderabbit-shadcn-registry

    A shallow embedding of the three Node scripts

    - [scripts/build-bundles.js]        (module [Bundles]),
    - [scripts/build-flat-registry.js]  (module [Flat]),
    - the post-build URL transformer    (module [PostBuild]),

    over a small model of the JavaScript values that [JSON.parse] yields and
    of the file system calls the scripts make, followed by the properties of
    the scripts that the specification states. *)

From Stdlib Require Import Ascii String.
From stdpp Require Import base tactics option list gmap strings pretty.

Set Warnings "-register-all".

Local Open Scope stdpp_scope.

(** ** JavaScript values *)

(** The values of a parsed JSON text, and [undefined].  A string is the
    sequence of its UTF-8 bytes: the scripts only test prefixes against ASCII
    literals and concatenate.  A number is kept as its decimal rendering
    ([Number::toString]); the scripts only test numbers for truthiness and
    print them.  A number need not be finite: [JSON.parse] reads a literal
    that is too large, such as [1e999], as [Infinity].  The properties of an
    object are listed in the order [OrdinaryOwnPropertyKeys] yields them. *)
Inductive value : Type :=
| JUndefined
| JNull
| JBool (b : bool)
| JNum (repr : string)
| JStr (s : string)
| JArr (elems : list value)
| JObj (props : list (string * value)).

(** What ends a computation early: the exceptions the scripts can meet, and
    [process.exit(code)], which is no exception (no handler catches it) but
    leaves the script the same way. *)
Inductive exn : Type :=
| TypeError
| SyntaxError
| SystemError (code : string)
| ProcessExit (status : Z).

Inductive result (A : Type) : Type :=
| Ok (a : A)
| Throw (e : exn).
Arguments Ok {A} a.
Arguments Throw {A} e.

Global Instance result_ret : MRet result := λ A a, Ok a.
Global Instance result_bind : MBind result := λ A B f m,
  match m with Ok a => f a | Throw e => Throw e end.
Global Instance result_fmap : FMap result := λ A B f m,
  match m with Ok a => Ok (f a) | Throw e => Throw e end.

Definition is_ok {A} (r : result A) : bool :=
  match r with Ok _ => true | Throw _ => false end.

(** [ToBoolean]. *)
Definition truthy (v : value) : bool :=
  match v with
  | JUndefined | JNull => false
  | JBool b => b
  | JNum r => negb (String.eqb r "0" || String.eqb r "NaN")
  | JStr s => negb (String.eqb s "")
  | JArr _ | JObj _ => true
  end.

Definition Array_isArray (v : value) : bool :=
  match v with JArr _ => true | _ => false end.

Fixpoint assoc (k : string) (ps : list (string * value)) : option value :=
  match ps with
  | [] => None
  | (k', v) :: ps => if String.eqb k' k then Some v else assoc k ps
  end.

(** [v.k] for the property names the scripts read ([registryDependencies],
    [items], [name], [files], [type], [path], [title], [meta], [backend]):
    none of them is an index, [length] or a property of a prototype, so only
    an object can have one. Reading a property of [null] or [undefined]
    throws. *)
Definition get (k : string) (v : value) : result value :=
  match v with
  | JUndefined | JNull => Throw TypeError
  | JObj ps => Ok (default JUndefined (assoc k ps))
  | _ => Ok JUndefined
  end.

(** *** Property order *)

Definition digit_value (c : ascii) : option N :=
  let n := N_of_ascii c in
  if ((48 <=? n) && (n <=? 57))%N then Some (n - 48)%N else None.

Fixpoint digits_value (acc : N) (s : string) : option N :=
  match s with
  | EmptyString => Some acc
  | String c s => d ← digit_value c; digits_value (10 * acc + d)%N s
  end.

(** The array index a property key denotes, if it is a canonical numeric
    string below 2^32 - 1. *)
Definition array_index (k : string) : option N :=
  match k with
  | EmptyString => None
  | String "0" EmptyString => Some 0%N
  | String "0" _ => None
  | _ => n ← digits_value 0 k; if (n <? 4294967295)%N then Some n else None
  end.

(** Does a new property [k] come before the existing property [k']?  Index
    keys come first, in ascending order; other keys follow in the order of
    their creation. *)
Definition key_before (k k' : string) : bool :=
  match array_index k, array_index k' with
  | Some n, Some n' => (n <? n')%N
  | Some _, None => true
  | None, _ => false
  end.

Fixpoint replace_prop (k : string) (v : value) (ps : list (string * value))
  : list (string * value) :=
  match ps with
  | [] => []
  | (k', v') :: ps =>
      if String.eqb k' k then (k', v) :: ps else (k', v') :: replace_prop k v ps
  end.

Fixpoint add_prop (k : string) (v : value) (ps : list (string * value))
  : list (string * value) :=
  match ps with
  | [] => [(k, v)]
  | (k', v') :: ps =>
      if key_before k k' then (k, v) :: (k', v') :: ps
      else (k', v') :: add_prop k v ps
  end.

(** [o.k = v], and a property [k: v] of an object literal: an existing
    property keeps its place. *)
Definition set_prop (k : string) (v : value) (ps : list (string * value))
  : list (string * value) :=
  match assoc k ps with
  | Some _ => replace_prop k v ps
  | None => add_prop k v ps
  end.

Fixpoint string_units (s : string) : list value :=
  match s with
  | EmptyString => []
  | String c s => JStr (String c EmptyString) :: string_units s
  end.

(** The own enumerable properties that a spread [...v] or a rest pattern
    copies: those of an object, the elements of an array and the characters
    of a string by index (the bytes stand for them: exact for ASCII text),
    nothing for the other values. *)
Definition own_props (v : value) : list (string * value) :=
  match v with
  | JObj ps => ps
  | JArr es => imap (λ i e, (pretty (N.of_nat i), e)) es
  | JStr s => imap (λ i e, (pretty (N.of_nat i), e)) (string_units s)
  | _ => []
  end.

(** [{ ...base, ...v }]: the properties of [v] are defined one by one. *)
Definition spread_into (base : list (string * value)) (v : value)
  : list (string * value) :=
  foldl (λ acc kv, set_prop kv.1 kv.2 acc) base (own_props v).

(** *** [JSON.stringify] *)

Definition dquote : ascii := "034"%char.
Definition backslash : ascii := "092"%char.

Definition hex_digit (n : N) : ascii :=
  ascii_of_N (if (n <? 10)%N then 48 + n else 87 + n)%N.

(** [QuoteJSONString], one code unit. *)
Definition escape_unit (c : ascii) : string :=
  let n := N_of_ascii c in
  if (n =? 8)%N then String backslash "b"
  else if (n =? 9)%N then String backslash "t"
  else if (n =? 10)%N then String backslash "n"
  else if (n =? 12)%N then String backslash "f"
  else if (n =? 13)%N then String backslash "r"
  else if (n =? 34)%N then String backslash (String dquote "")
  else if (n =? 92)%N then String backslash (String backslash "")
  else if (n <? 32)%N then
    String backslash
      (String "u" (String "0" (String "0"
        (String (hex_digit (n / 16)) (String (hex_digit (n mod 16)) "")))))
  else String c "".

Fixpoint escape_units (s : string) : string :=
  match s with
  | EmptyString => ""
  | String c s => escape_unit c +:+ escape_units s
  end.

Definition quote (s : string) : string :=
  String dquote (escape_units s +:+ String dquote "").

(** Is the number that renders as [r] finite? *)
Definition finite (r : string) : bool :=
  negb (String.eqb r "Infinity" || String.eqb r "-Infinity" || String.eqb r "NaN").

(** [JSON.stringify(v)] without indentation; [None] is [undefined]. A number
    that is not finite is printed as [null], an [undefined] element of an
    array is printed as [null], a property whose value is [undefined] is
    left out. *)
Fixpoint JSON_stringify (v : value) : option string :=
  match v with
  | JUndefined => None
  | JNull => Some "null"
  | JBool b => Some (if b then "true" else "false")
  | JNum r => Some (if finite r then r else "null")
  | JStr s => Some (quote s)
  | JArr es =>
      Some ("[" +:+
            String.concat ","
              (map (λ e, default "null" (JSON_stringify e)) es) +:+ "]")
  | JObj ps =>
      Some ("{" +:+
            String.concat ","
              (omap (λ '(k, e), t ← JSON_stringify e;
                                Some (quote k +:+ ":" +:+ t)) ps) +:+ "}")
  end.

(** What [JSON.parse] reads back from [JSON.stringify(v, null, 2)]. *)
Fixpoint to_json (v : value) : value :=
  match v with
  | JNum r => if finite r then v else JNull
  | JArr es =>
      JArr (map (λ e, match e with JUndefined => JNull | _ => to_json e end) es)
  | JObj ps =>
      JObj (omap (λ '(k, e), match e with
                             | JUndefined => None
                             | _ => Some (k, to_json e)
                             end) ps)
  | _ => v
  end.

(** [`${v}`]: an object prints as [[object Object]] unless a property of its
    own hides [toString] (after [JSON.parse] never a function); an array
    prints its elements joined by commas, [null] and [undefined] as nothing. *)
Fixpoint to_string (v : value) : result string :=
  match v with
  | JUndefined => Ok "undefined"
  | JNull => Ok "null"
  | JBool b => Ok (if b then "true" else "false")
  | JNum r => Ok r
  | JStr s => Ok s
  | JArr es =>
      String.concat "," <$>
        mapM (λ e, match e with
                   | JUndefined | JNull => Ok ""
                   | _ => to_string e
                   end) es
  | JObj ps =>
      match assoc "toString" ps with
      | Some _ => Throw TypeError
      | None => Ok "[object Object]"
      end
  end.

(** [v.length]. *)
Definition get_length (v : value) : result value :=
  match v with
  | JUndefined | JNull => Throw TypeError
  | JArr es => Ok (JNum (pretty (N.of_nat (length es))))
  | JStr s => Ok (JNum (pretty (N.of_nat (String.length s))))
  | JObj ps => Ok (default JUndefined (assoc "length" ps))
  | _ => Ok JUndefined
  end.

(** ** Paths ([path.join] and [path.dirname] of POSIX) *)

Fixpoint segments (s : string) : list string :=
  match s with
  | EmptyString => [""]
  | String c s =>
      if Ascii.eqb c "/" then "" :: segments s
      else match segments s with
           | seg :: segs => String c seg :: segs
           | [] => [String c ""]
           end
  end.

(** [normalizeString]: [res] is the stack of the segments kept so far. *)
Fixpoint normalize_segments (allowAboveRoot : bool) (segs res : list string)
  : list string :=
  match segs with
  | [] => rev res
  | seg :: segs =>
      if String.eqb seg "" || String.eqb seg "." then
        normalize_segments allowAboveRoot segs res
      else if String.eqb seg ".." then
        match res with
        | top :: below =>
            if String.eqb top ".." then
              normalize_segments allowAboveRoot segs
                (if allowAboveRoot then ".." :: res else res)
            else normalize_segments allowAboveRoot segs below
        | [] =>
            normalize_segments allowAboveRoot segs
              (if allowAboveRoot then [".."] else [])
        end
      else normalize_segments allowAboveRoot segs (seg :: res)
  end.

Definition ends_with_slash (p : string) : bool :=
  match rev (list_ascii_of_string p) with
  | c :: _ => Ascii.eqb c "/"
  | [] => false
  end.

Definition path_normalize (p : string) : string :=
  if String.eqb p "" then "."
  else
    let isAbsolute := String.prefix "/" p in
    let trailingSeparator := ends_with_slash p in
    let body :=
      String.concat "/" (normalize_segments (negb isAbsolute) (segments p) []) in
    if String.eqb body "" then
      if isAbsolute then "/" else if trailingSeparator then "./" else "."
    else
      (if isAbsolute then "/" else "") +:+ body +:+
      (if trailingSeparator then "/" else "").

(** [path.join(a, b)] of two strings. *)
Definition path_join (a b : string) : string :=
  if String.eqb a "" then
    if String.eqb b "" then "." else path_normalize b
  else if String.eqb b "" then path_normalize a
  else path_normalize (a +:+ "/" +:+ b).

Fixpoint drop_slashes (cs : list ascii) : list ascii :=
  match cs with
  | c :: cs' => if Ascii.eqb c "/" then drop_slashes cs' else cs
  | [] => []
  end.

Fixpoint drop_segment (cs : list ascii) : list ascii :=
  match cs with
  | c :: cs' => if Ascii.eqb c "/" then cs else drop_segment cs'
  | [] => []
  end.

(** [path.dirname(p)]: the scan runs from the end of [p] down to its second
    character, over the trailing separators and then over the last segment. *)
Definition path_dirname (p : string) : string :=
  match p with
  | EmptyString => "."
  | String c0 rest =>
      let hasRoot := Ascii.eqb c0 "/" in
      match drop_segment (drop_slashes (rev (list_ascii_of_string rest))) with
      | [] => if hasRoot then "/" else "."
      | _ :: before =>
          match before with
          | [] => if hasRoot then "//" else String c0 ""
          | _ => String c0 (string_of_list_ascii (rev before))
          end
      end
  end.

(** [s.endsWith(suffix)]. *)
Definition endsWith (suffix s : string) : bool :=
  String.prefix (string_of_list_ascii (rev (list_ascii_of_string suffix)))
                (string_of_list_ascii (rev (list_ascii_of_string s))).

Example path_join_ex1 : path_join "public/r" "lib/../x//y.ts" = "public/r/x/y.ts".
Proof. vm_compute. reflexivity. Qed.
Example path_join_ex2 : path_join "public/r" "../../../a/" = "../a/".
Proof. vm_compute. reflexivity. Qed.
Example path_dirname_ex1 : path_dirname "public/r/lib/foo.ts" = "public/r/lib".
Proof. vm_compute. reflexivity. Qed.
Example path_dirname_ex2 : path_dirname "foo.ts" = "." ∧ path_dirname "/a" = "/" ∧ path_dirname "a/b/" = "a" ∧ path_dirname "//a" = "//" ∧ path_dirname "a//b" = "a/".
Proof. vm_compute. auto. Qed.
Example to_string_ex : to_string (JArr [JNum "1"; JNull; JArr [JStr "a"; JStr "b"]; JObj []]) = Ok "1,,a,b,[object Object]".
Proof. vm_compute. reflexivity. Qed.

(** ** The file system and the effects of a script *)

(** The content of a regular file: a text that [JSON.parse] accepts, given
    by the value it yields, or any other text. *)
Inductive fdata : Type :=
| Json (v : value)
| Text (t : string).

(** Paths are compared as the strings the calls receive.  A path in
    [unreadable] (in [unwritable]) stands for any reason why reading it
    (writing, copying to or creating it) fails when the script tries. *)
Record filesystem : Type := mk_filesystem {
  files : gmap string fdata;
  dirs : gset string;
  unreadable : gset string;
  unwritable : gset string;
}.

(** The directory tree that [readdirSync(dir, { withFileTypes: true })]
    lists: an entry that is no directory, or a directory with its own
    listing ([None] when listing it throws). *)
Inductive dirent : Type :=
| DFile (name : string)
| DDir (name : string) (entries : option (list dirent)).

(** What a script prints, line by line; decorative lines are left out. *)
Inductive message : Type :=
| FailedToReadRegistry (e : exn)
| NoItemsFound
| ProcessingItems (n : nat)
| ItemMissingName
| SourceFileNotFound (sourcePath : string)
| ItemWritten (name : string)
| ItemType (type : string)
| ItemFiles (filesCopied : nat)
| FlatSummary (items files : nat)
| ProcessingBundles (n : nat)
| BundleWritten (backend : string)
| BundleTitle (title : string)
| BundleBackend (label : string)
| BundleDependencies (count : string)
| BundleSummary (n : nat)
| BuildFailed (e : exn)
| ErrorProcessing (filePath : string) (e : exn)
| FileTransformed (filePath : string)
| TransformedTotal (n : nat).

(** What a script does to the world, in order. *)
Inductive event : Type :=
| Mkdir (dir : string)
| WriteFile (path : string) (data : fdata)
| CopyFile (src dest : string)
| Console (m : message).

Record outcome (A : Type) : Type := mk_outcome {
  returned : result A;
  disk : filesystem;
  emitted : list event;
}.
Arguments mk_outcome {A} _ _ _.
Arguments returned {A} _.
Arguments disk {A} _.
Arguments emitted {A} _.

(** A computation runs on a file system and leaves an outcome. *)
Definition M (A : Type) : Type := filesystem → outcome A.

Global Instance M_ret : MRet M := λ A a fs, mk_outcome (Ok a) fs [].
Global Instance M_bind : MBind M := λ A B f m fs,
  let o := m fs in
  match returned o with
  | Ok a =>
      let o' := f a (disk o) in
      mk_outcome (returned o') (disk o') (emitted o ++ emitted o')
  | Throw e => mk_outcome (Throw e) (disk o) (emitted o)
  end.

Definition lift {A} (r : result A) : M A := λ fs, mk_outcome r fs [].
Definition emit (e : event) : M unit := λ fs, mk_outcome (Ok tt) fs [e].
Definition console (m : message) : M unit := emit (Console m).
Definition process_exit {A} (status : Z) : M A := lift (Throw (ProcessExit status)).

(** [try { body } catch (error) { handler }]. *)
Definition try_catch {A} (body : M A) (handler : exn → M A) : M A := λ fs,
  let o := body fs in
  match returned o with
  | Ok _ | Throw (ProcessExit _) => o
  | Throw e =>
      let o' := handler e (disk o) in
      mk_outcome (returned o') (disk o') (emitted o ++ emitted o')
  end.

(** [for (const x of xs) { s = body(s, x) }]. *)
Fixpoint for_of {A S} (body : S → A → M S) (xs : list A) (s : S) : M S :=
  match xs with
  | [] => mret s
  | x :: xs => s' ← body s x; for_of body xs s'
  end.

(** The status a script leaves: 0 when it runs to its end, the argument of
    [process.exit], 1 for an exception nobody caught. *)
Definition exit_status {A} (r : result A) : Z :=
  match r with
  | Ok _ => 0
  | Throw (ProcessExit status) => status
  | Throw _ => 1
  end.

(** *** The calls of [fs] *)

Definition fs_existsSync (p : string) : M bool := λ fs,
  mk_outcome
    (Ok (bool_decide (is_Some (files fs !! p)) || bool_decide (p ∈ dirs fs)))
    fs [].

Definition read_file (p : string) (fs : filesystem) : result fdata :=
  if bool_decide (p ∈ unreadable fs) then Throw (SystemError "EACCES")
  else match files fs !! p with
       | Some d => Ok d
       | None =>
           Throw (SystemError
                    (if bool_decide (p ∈ dirs fs) then "EISDIR" else "ENOENT"))
       end.

Definition fs_readFileSync (p : string) : M fdata := λ fs,
  mk_outcome (read_file p fs) fs [].

Definition store (p : string) (d : fdata) (fs : filesystem) : filesystem :=
  mk_filesystem (<[p := d]> (files fs)) (dirs fs) (unreadable fs) (unwritable fs).

Definition fs_writeFileSync (p : string) (d : fdata) : M unit := λ fs,
  if bool_decide (p ∈ unwritable fs) then
    mk_outcome (Throw (SystemError "EACCES")) fs []
  else mk_outcome (Ok tt) (store p d fs) [WriteFile p d].

(** The directories [mkdirSync(p, { recursive: true })] makes sure of. *)
Fixpoint dir_chain (above : string) (segs : list string) : list string :=
  match segs with
  | [] => []
  | seg :: segs =>
      let here := if String.eqb above "" then seg else above +:+ "/" +:+ seg in
      here :: dir_chain here segs
  end.

Definition fs_mkdirSync (p : string) : M unit := λ fs,
  if bool_decide (p ∈ unwritable fs) then
    mk_outcome (Throw (SystemError "EACCES")) fs []
  else
    mk_outcome (Ok tt)
      (mk_filesystem (files fs) (list_to_set (dir_chain "" (segments p)) ∪ dirs fs)
                     (unreadable fs) (unwritable fs))
      [Mkdir p].

Definition fs_copyFileSync (src dest : string) : M unit := λ fs,
  match read_file src fs with
  | Throw e => mk_outcome (Throw e) fs []
  | Ok d =>
      if bool_decide (dest ∈ unwritable fs) then
        mk_outcome (Throw (SystemError "EACCES")) fs []
      else mk_outcome (Ok tt) (store dest d fs) [CopyFile src dest]
  end.

(** [JSON.parse(content)]. *)
Definition JSON_parse (content : fdata) : result value :=
  match content with
  | Json v => Ok v
  | Text _ => Throw SyntaxError
  end.

(** [fs.writeFileSync(p, JSON.stringify(v, null, 2), 'utf-8')]: the file
    then holds a text that parses to [to_json v]. *)
Definition write_json (p : string) (v : value) : M unit :=
  match v with
  | JUndefined => lift (Throw TypeError)
  | _ => fs_writeFileSync p (Json (to_json v))
  end.

(** [ensureDir], the same in both builders. *)
Definition ensureDir (dir : string) : M unit :=
  there ← fs_existsSync dir;
  if there : bool then mret tt else fs_mkdirSync dir.

(** Running a script. *)
Definition run {A} (script : M A) (fs : filesystem) : Z * filesystem * list event :=
  let o := script fs in (exit_status (returned o), disk o, emitted o).

(** ** The dependency rewriters *)

Definition REGISTRY_BASE_URL : string :=
  "https://raw.githubusercontent.com/RMNCLDYO/coderabbit-shadcn-registry/main/public/r".

Definition OUTPUT_DIR : string := "public/r".

(** [dep.startsWith(p)]: only a string has the method. *)
Definition startsWith (p : string) (dep : value) : result bool :=
  match dep with
  | JStr s => Ok (String.prefix p s)
  | _ => Throw TypeError
  end.

(** The template literal [`${REGISTRY_BASE_URL}/${dep}.json`]. *)
Definition registry_url (dep : value) : result value :=
  s ← to_string dep;
  Ok (JStr (REGISTRY_BASE_URL +:+ "/" +:+ s +:+ ".json")).

(** The elements of an array. *)
Definition array_elements (v : value) : list value :=
  match v with JArr es => es | _ => [] end.

Definition dq : string := String dquote "".

(** ** [scripts/build-bundles.js] *)

Module Bundles.

(** [deps.map(...)] on anything but an array throws: no other value has a
    callable [map]. *)
Definition transformRegistryDependencies (deps : value) : result value :=
  match deps with
  | JArr es =>
      JArr <$> mapM (λ dep,
        custom ← startsWith "coderabbit-" dep;
        if custom : bool then registry_url dep else Ok dep) es
  | _ => Throw TypeError
  end.

Definition localstorage : value :=
  JObj
    [("name", JStr "coderabbit");
     ("type", JStr "registry:block");
     ("title", JStr "CodeRabbit with LocalStorage");
     ("author", JStr "Ray <hi@rmncldyo.com>");
     ("description", JStr "Complete CodeRabbit integration with browser localStorage persistence. Includes types, API client, storage adapter, React hook, form component, and branding. Perfect for browser-based applications, prototyping, and testing. Reports persist across page reloads.");
     ("dependencies", JArr [JStr "react"; JStr "lucide-react"]);
     ("registryDependencies", JArr
       [JStr "button";
        JStr "input";
        JStr "label";
        JStr "select";
        JStr "textarea";
        JStr "coderabbit-types";
        JStr "coderabbit-client";
        JStr "coderabbit-storage-adapter";
        JStr "coderabbit-storage-localstorage";
        JStr "coderabbit-react";
        JStr "coderabbit-form";
        JStr "coderabbit-branding"]);
     ("envVars", JObj [("CODERABBIT_API_KEY", JStr "")]);
     ("meta", JObj
       [("source", JStr "https://github.com/RMNCLDYO/coderabbit-shadcn-registry");
        ("license", JStr "MIT");
        ("backend", JStr "localStorage")]);
     ("docs", JStr "Get CODERABBIT_API_KEY from https://app.coderabbit.ai/settings/api-keys (requires Pro plan). No database setup required. Data persists in browser localStorage across page reloads (~5-10MB limit). Perfect for prototyping and client-side apps. Use LocalStorageAdapter in your useCodeRabbit hook.");
     ("categories", JArr [JStr "complete"; JStr "browser"; JStr "developer-tools"])].

Definition convex : value :=
  JObj
    [("name", JStr "coderabbit");
     ("type", JStr "registry:block");
     ("title", JStr "CodeRabbit with Convex");
     ("author", JStr "Ray <hi@rmncldyo.com>");
     ("description", JStr "Complete CodeRabbit integration with Convex real-time database. Includes types, API client, storage adapter, schema, React hook, form component, and branding. Perfect for production applications with real-time sync and auth support.");
     ("dependencies", JArr [JStr "react"; JStr "lucide-react"; JStr "convex"]);
     ("registryDependencies", JArr
       [JStr "button";
        JStr "input";
        JStr "label";
        JStr "select";
        JStr "textarea";
        JStr "coderabbit-types";
        JStr "coderabbit-client";
        JStr "coderabbit-storage-adapter";
        JStr "coderabbit-storage-convex";
        JStr "coderabbit-react";
        JStr "coderabbit-form";
        JStr "coderabbit-branding"]);
     ("envVars", JObj
       [("CODERABBIT_API_KEY", JStr "");
        ("CONVEX_DEPLOYMENT", JStr "");
        ("CONVEX_URL", JStr "");
        ("CONVEX_SITE_URL", JStr "")]);
     ("meta", JObj
       [("source", JStr "https://github.com/RMNCLDYO/coderabbit-shadcn-registry");
        ("license", JStr "MIT");
        ("backend", JStr "Convex")]);
     ("docs", JStr ("Get CODERABBIT_API_KEY from https://app.coderabbit.ai/settings/api-keys (requires Pro plan). Run " +:+ dq +:+ "npx convex dev" +:+ dq +:+ " to automatically populate CONVEX_DEPLOYMENT and CONVEX_URL in your .env.local. CONVEX_SITE_URL is optional (only needed for HTTP actions). Import coderabbitReportsTable in your convex/schema.ts and add as " +:+ dq +:+ "coderabbit_reports" +:+ dq +:+ " table."));
     ("categories", JArr
       [JStr "complete";
        JStr "database";
        JStr "real-time";
        JStr "developer-tools"])].

Definition supabase : value :=
  JObj
    [("name", JStr "coderabbit");
     ("type", JStr "registry:block");
     ("title", JStr "CodeRabbit with Supabase");
     ("author", JStr "Ray <hi@rmncldyo.com>");
     ("description", JStr "Complete CodeRabbit integration with Supabase (PostgreSQL). Includes types, API client, storage adapter with Row Level Security, React hook, form component, and branding. Perfect for apps with authentication and real-time features.");
     ("dependencies", JArr [JStr "react"; JStr "lucide-react"; JStr "@supabase/supabase-js"]);
     ("registryDependencies", JArr
       [JStr "button";
        JStr "input";
        JStr "label";
        JStr "select";
        JStr "textarea";
        JStr "coderabbit-types";
        JStr "coderabbit-client";
        JStr "coderabbit-storage-adapter";
        JStr "coderabbit-storage-supabase";
        JStr "coderabbit-react";
        JStr "coderabbit-form";
        JStr "coderabbit-branding"]);
     ("envVars", JObj
       [("CODERABBIT_API_KEY", JStr "");
        ("SUPABASE_URL", JStr "");
        ("SUPABASE_ANON_KEY", JStr "")]);
     ("meta", JObj
       [("source", JStr "https://github.com/RMNCLDYO/coderabbit-shadcn-registry");
        ("license", JStr "MIT");
        ("backend", JStr "Supabase")]);
     ("docs", JStr ("Get CODERABBIT_API_KEY from https://app.coderabbit.ai/settings/api-keys (requires Pro plan). Get SUPABASE_URL and SUPABASE_ANON_KEY from your Supabase dashboard: Project Settings → API. Or run " +:+ dq +:+ "npx supabase init && npx supabase start" +:+ dq +:+ " for local development. Run the SQL schema from storage-supabase.ts to create the coderabbit_reports table with RLS policies."));
     ("categories", JArr [JStr "complete"; JStr "database"; JStr "developer-tools"])].

Definition postgres : value :=
  JObj
    [("name", JStr "coderabbit");
     ("type", JStr "registry:block");
     ("title", JStr "CodeRabbit with PostgreSQL");
     ("author", JStr "Ray <hi@rmncldyo.com>");
     ("description", JStr "Complete CodeRabbit integration with PostgreSQL. Includes types, API client, storage adapter with connection pooling, React hook, form component, and branding. Works with Neon, Vercel Postgres, Railway, AWS RDS, Google Cloud SQL, etc.");
     ("dependencies", JArr [JStr "react"; JStr "lucide-react"; JStr "pg"]);
     ("devDependencies", JArr [JStr "@types/pg"]);
     ("registryDependencies", JArr
       [JStr "button";
        JStr "input";
        JStr "label";
        JStr "select";
        JStr "textarea";
        JStr "coderabbit-types";
        JStr "coderabbit-client";
        JStr "coderabbit-storage-adapter";
        JStr "coderabbit-storage-postgres";
        JStr "coderabbit-react";
        JStr "coderabbit-form";
        JStr "coderabbit-branding"]);
     ("envVars", JObj
       [("CODERABBIT_API_KEY", JStr "");
        ("POSTGRES_HOST", JStr "");
        ("POSTGRES_PORT", JStr "5432");
        ("POSTGRES_DATABASE", JStr "");
        ("POSTGRES_USER", JStr "");
        ("POSTGRES_PASSWORD", JStr "")]);
     ("meta", JObj
       [("source", JStr "https://github.com/RMNCLDYO/coderabbit-shadcn-registry");
        ("license", JStr "MIT");
        ("backend", JStr "PostgreSQL")]);
     ("docs", JStr ("Get CODERABBIT_API_KEY from https://app.coderabbit.ai/settings/api-keys (requires Pro plan). Get connection details from your provider dashboard (Neon, Vercel Postgres, Railway, AWS RDS). For local dev: " +:+ dq +:+ "docker run -e POSTGRES_PASSWORD=password -p 5432:5432 postgres" +:+ dq +:+ ". Run the SQL schema from storage-postgres.ts to create the coderabbit_reports table."));
     ("categories", JArr [JStr "complete"; JStr "database"; JStr "developer-tools"])].

Definition mysql : value :=
  JObj
    [("name", JStr "coderabbit");
     ("type", JStr "registry:block");
     ("title", JStr "CodeRabbit with MySQL");
     ("author", JStr "Ray <hi@rmncldyo.com>");
     ("description", JStr "Complete CodeRabbit integration with MySQL/MariaDB. Includes types, API client, storage adapter with connection pooling, React hook, form component, and branding. Works with PlanetScale, AWS RDS, Google Cloud SQL, Azure, etc.");
     ("dependencies", JArr [JStr "react"; JStr "lucide-react"; JStr "mysql2"]);
     ("devDependencies", JArr [JStr "@types/mysql2"]);
     ("registryDependencies", JArr
       [JStr "button";
        JStr "input";
        JStr "label";
        JStr "select";
        JStr "textarea";
        JStr "coderabbit-types";
        JStr "coderabbit-client";
        JStr "coderabbit-storage-adapter";
        JStr "coderabbit-storage-mysql";
        JStr "coderabbit-react";
        JStr "coderabbit-form";
        JStr "coderabbit-branding"]);
     ("envVars", JObj
       [("CODERABBIT_API_KEY", JStr "");
        ("MYSQL_HOST", JStr "");
        ("MYSQL_PORT", JStr "3306");
        ("MYSQL_DATABASE", JStr "");
        ("MYSQL_USER", JStr "");
        ("MYSQL_PASSWORD", JStr "")]);
     ("meta", JObj
       [("source", JStr "https://github.com/RMNCLDYO/coderabbit-shadcn-registry");
        ("license", JStr "MIT");
        ("backend", JStr "MySQL")]);
     ("docs", JStr ("Get CODERABBIT_API_KEY from https://app.coderabbit.ai/settings/api-keys (requires Pro plan). Get connection details from your provider dashboard (PlanetScale, AWS RDS, Google Cloud SQL). For local dev: " +:+ dq +:+ "docker run -e MYSQL_ROOT_PASSWORD=password -p 3306:3306 mysql" +:+ dq +:+ ". Run the SQL schema from storage-mysql.ts to create the coderabbit_reports table."));
     ("categories", JArr [JStr "complete"; JStr "database"; JStr "developer-tools"])].

Definition BUNDLES : list (string * value) :=
  [("localstorage", localstorage);
   ("convex", convex);
   ("supabase", supabase);
   ("postgres", postgres);
   ("mysql", mysql)].

Definition Object_keys (o : list (string * value)) : list string := o.*1.

Definition generateBundleJSON (bundleConfig : value) : result value :=
  deps ← get "registryDependencies" bundleConfig;
  deps' ← transformRegistryDependencies deps;
  Ok (JObj (set_prop "registryDependencies" deps'
              (spread_into
                 [("$schema", JStr "https://ui.shadcn.com/schema/registry-item.json")]
                 bundleConfig))).

Definition createBundleRegistry (backend : string) (items : list value)
  : result value :=
  transformedItems ← mapM (λ item,
    deps ← get "registryDependencies" item;
    deps' ← transformRegistryDependencies deps;
    Ok (JObj (set_prop "registryDependencies" deps' (spread_into [] item))))
    items;
  Ok (JObj [("$schema", JStr "https://ui.shadcn.com/schema/registry.json");
            ("name", JStr "coderabbit");
            ("homepage", JStr "https://github.com/RMNCLDYO/coderabbit-shadcn-registry");
            ("items", JArr transformedItems)]).

(** The body of the loop of [buildBundles]. *)
Definition buildBundle (backend : string) : M unit :=
  let bundleConfig := default JUndefined (assoc backend BUNDLES) in
  let bundleDir := path_join OUTPUT_DIR backend in
  ensureDir bundleDir;;
  bundleJSON ← lift (generateBundleJSON bundleConfig);
  write_json (path_join bundleDir "coderabbit.json") bundleJSON;;
  registryJSON ← lift (createBundleRegistry backend [bundleConfig]);
  write_json (path_join bundleDir "registry.json") registryJSON;;
  console (BundleWritten backend);;
  title ← lift (t ← get "title" bundleConfig; to_string t);
  console (BundleTitle title);;
  label ← lift (meta ← get "meta" bundleConfig;
                b ← get "backend" meta; to_string b);
  console (BundleBackend label);;
  count ← lift (deps ← get "registryDependencies" bundleConfig;
                n ← get_length deps; to_string n);
  console (BundleDependencies count).

Definition buildBundles : M unit :=
  let backends := Object_keys BUNDLES in
  console (ProcessingBundles (length backends));;
  for_of (λ _ backend, buildBundle backend) backends tt;;
  console (BundleSummary (length backends)).

(** The script: [try { buildBundles() } catch (error) { ... exit(1) }]. *)
Definition main : M unit :=
  try_catch buildBundles
    (λ error, console (BuildFailed error);; process_exit 1).

End Bundles.

(** ** [scripts/build-flat-registry.js] *)

Module Flat.

Definition REGISTRY_FILE : string := "registry.json".

Definition transformRegistryDependencies (deps : value) : result value :=
  if negb (truthy deps) || negb (Array_isArray deps) then Ok deps
  else
    JArr <$> mapM (λ dep,
      custom ← startsWith "coderabbit-" dep;
      if custom : bool then registry_url dep else Ok dep) (array_elements deps).

Definition readRegistryConfig : M value :=
  try_catch
    (content ← fs_readFileSync REGISTRY_FILE; lift (JSON_parse content))
    (λ error, console (FailedToReadRegistry error);; process_exit 1).

Definition copyFile (src dest : string) : M unit :=
  ensureDir (path_dirname dest);;
  fs_copyFileSync src dest.

(** [const { content, ...fileWithoutContent } = file]. *)
Definition without_content (file : value) : result value :=
  match file with
  | JUndefined | JNull => Throw TypeError
  | _ => Ok (JObj (filter (λ kv, kv.1 ≠ "content") (own_props file)))
  end.

Definition generateItemJSON (item : value) : result value :=
  let cleanItem :=
    spread_into
      [("$schema", JStr "https://ui.shadcn.com/schema/registry-item.json")]
      item in
  let deps := default JUndefined (assoc "registryDependencies" cleanItem) in
  cleanItem ←
    (if truthy deps then
       deps' ← transformRegistryDependencies deps;
       Ok (set_prop "registryDependencies" deps' cleanItem)
     else Ok cleanItem);
  let files := default JUndefined (assoc "files" cleanItem) in
  cleanItem ←
    (if truthy files && Array_isArray files then
       files' ← mapM without_content (array_elements files);
       Ok (set_prop "files" (JArr files') cleanItem)
     else Ok cleanItem);
  Ok (JObj cleanItem).

(** [path.join] checks that its arguments are strings. *)
Definition validateString (p : value) : result string :=
  match p with
  | JStr s => Ok s
  | _ => Throw TypeError
  end.

(** [None] is the [undefined] that the early [return] yields. *)
Definition copySourceFiles (item : value) : M (option nat) :=
  files ← lift (get "files" item);
  if negb (truthy files) || negb (Array_isArray files) then mret None
  else
    copiedCount ← for_of (λ copiedCount file,
      p ← lift (get "path" file);
      sourcePath ← lift (validateString p);
      let destPath := path_join OUTPUT_DIR sourcePath in
      there ← fs_existsSync sourcePath;
      if there : bool then
        copyFile sourcePath destPath;; mret (S copiedCount)
      else
        console (SourceFileNotFound sourcePath);; mret copiedCount)
      (array_elements files) 0;
    mret (Some copiedCount).

(** An entry of [itemStats]. *)
Record stat : Type := mk_stat {
  stat_name : value;
  stat_type : value;
  stat_files : nat;
}.

(** The body of the loop over [registry.items]; the state is
    [totalFiles] and [itemStats]. *)
Definition processItem (st : nat * list stat) (item : value)
  : M (nat * list stat) :=
  name ← lift (get "name" item);
  if negb (truthy name) then
    console ItemMissingName;; mret st
  else
    itemJSON ← lift (generateItemJSON item);
    fileName ← lift (to_string name);
    write_json (path_join OUTPUT_DIR (fileName +:+ ".json")) itemJSON;;
    filesCopied ← copySourceFiles item;
    type ← lift (get "type" item);
    console (ItemWritten fileName);;
    typeName ← lift (to_string type);
    console (ItemType typeName);;
    (if bool_decide (default 0 filesCopied ≠ 0)
     then console (ItemFiles (default 0 filesCopied)) else mret tt);;
    mret (st.1 + default 0 filesCopied,
          st.2 ++ [mk_stat name type (default 0 filesCopied)]).

(** An item of the consolidated index. *)
Definition index_item (item : value) : result value :=
  deps ← get "registryDependencies" item;
  deps' ← transformRegistryDependencies deps;
  Ok (JObj (set_prop "registryDependencies" deps' (spread_into [] item))).

(** What [buildFlatRegistry] does once it has read the descriptor. *)
Definition buildFrom (registry : value) : M unit :=
  items ← lift (get "items" registry);
  if negb (truthy items) || negb (Array_isArray items) then
    console NoItemsFound;; process_exit 1
  else
    ensureDir OUTPUT_DIR;;
    console (ProcessingItems (length (array_elements items)));;
    st ← for_of processItem (array_elements items) (0, []);
    transformedItems ← lift (mapM index_item (array_elements items));
    write_json (path_join OUTPUT_DIR "registry.json")
      (JObj (set_prop "items" (JArr transformedItems)
               (spread_into [] registry)));;
    console (FlatSummary (length st.2) st.1).

Definition buildFlatRegistry : M unit :=
  registry ← readRegistryConfig;
  buildFrom registry.

Definition main : M unit :=
  try_catch buildFlatRegistry
    (λ error, console (BuildFailed error);; process_exit 1).

End Flat.

(** ** The post-build URL transformer *)

Module PostBuild.

Definition transformDeps (deps : value) : result value :=
  if negb (truthy deps) || negb (Array_isArray deps) then Ok deps
  else
    JArr <$> mapM (λ dep,
      http ← startsWith "http://" dep;
      url ← (if http : bool then Ok true else startsWith "https://" dep);
      if url : bool then Ok dep
      else
        custom ← startsWith "coderabbit-" dep;
        if custom : bool then registry_url dep else Ok dep) (array_elements deps).

(** [JSON.stringify(a) !== JSON.stringify(b)]. *)
Definition stringify_differs (a b : value) : bool :=
  bool_decide (JSON_stringify a ≠ JSON_stringify b).

(** [data.k = v]; reached with an object only. *)
Definition assign (k : string) (v : value) (data : value) : value :=
  match data with
  | JObj ps => JObj (set_prop k v ps)
  | _ => data
  end.

(** The callback of [data.items.map]: the new item, and whether it set
    [modified]. *)
Definition transformItem (item : value) : result (value * bool) :=
  deps ← get "registryDependencies" item;
  if truthy deps then
    transformed ← transformDeps deps;
    if stringify_differs transformed deps then
      Ok (JObj (set_prop "registryDependencies" transformed
                  (spread_into [] item)), true)
    else Ok (item, false)
  else Ok (item, false).

(** The body of [processFile] between [JSON.parse] and the test of
    [modified]: the data as it then is, and [modified]. *)
Definition transformData (data : value) : result (value * bool) :=
  deps ← get "registryDependencies" data;
  st ← (if truthy deps then
          transformed ← transformDeps deps;
          if stringify_differs transformed deps then
            Ok (assign "registryDependencies" transformed data, true)
          else Ok (data, false)
        else Ok (data, false));
  items ← get "items" st.1;
  if truthy items && Array_isArray items then
    items' ← mapM transformItem (array_elements items);
    Ok (assign "items" (JArr items'.*1) st.1,
        st.2 || existsb snd items')
  else Ok st.

Definition processFile (filePath : string) : M bool :=
  try_catch
    (content ← fs_readFileSync filePath;
     data ← lift (JSON_parse content);
     st ← lift (transformData data);
     if st.2 : bool then
       write_json filePath st.1;; mret true
     else mret false)
    (λ error, console (ErrorProcessing filePath error);; mret false).

(** The loop of [findJsonFiles]: the files each entry adds, in order; the
    first listing that throws ends it. *)
Definition collect {A} (f : A → result (list string))
  : list A → result (list string) :=
  fix go entries :=
    match entries with
    | [] => Ok []
    | entry :: entries =>
        match f entry with
        | Ok found =>
            match go entries with
            | Ok more => Ok (found ++ more)
            | Throw e => Throw e
            end
        | Throw e => Throw e
        end
    end.

(** The body of that loop for one entry of [dir]; a directory other than
    [registry] is searched by [findJsonFiles(fullPath)]. *)
Fixpoint visit (dir : string) (entry : dirent) : result (list string) :=
  match entry with
  | DDir name sub =>
      if negb (String.eqb name "registry") then
        match sub with
        | Some below => collect (visit (path_join dir name)) below
        | None => Throw (SystemError "EACCES")
        end
      else Ok []
  | DFile name =>
      if endsWith ".json" name then Ok [path_join dir name] else Ok []
  end.

Definition findJsonFiles (dir : string) (listing : option (list dirent))
  : result (list string) :=
  match listing with
  | Some entries => collect (visit dir) entries
  | None => Throw (SystemError "ENOENT")
  end.

(** The body of the loop of the script over the files found.
    [FileTransformed] prints the file relative to [OUTPUT_DIR]. *)
Definition scan_step (transformedCount : nat) (file : string) : M nat :=
  changed ← processFile file;
  if changed : bool then
    console (FileTransformed file);; mret (S transformedCount)
  else mret transformedCount.

Definition scan (jsonFiles : list string) (transformedCount : nat) : M nat :=
  for_of scan_step jsonFiles transformedCount.

(** The script; [tree] is what [readdirSync] lists at [OUTPUT_DIR]. *)
Definition main (tree : option (list dirent)) : M unit :=
  jsonFiles ← lift (findJsonFiles OUTPUT_DIR tree);
  transformedCount ← scan jsonFiles 0;
  console (TransformedTotal transformedCount).

End PostBuild.

(** * Properties *)

(** ** The result monad and lists *)

Lemma mapM_cons {A B} (f : A → result B) x l :
  mapM f (x :: l) = y ← f x; k ← mapM f l; Ok (y :: k).
Proof. reflexivity. Qed.

Lemma mapM_ext_result {A B} (f g : A → result B) l :
  (∀ x, f x = g x) → mapM f l = mapM g l.
Proof.
  intros Hfg. induction l as [|x l IH]; [reflexivity|].
  rewrite !mapM_cons, Hfg, IH. reflexivity.
Qed.

Lemma mapM_pure {A B} (f : A → result B) (g : A → B) l :
  (∀ x, x ∈ l → f x = Ok (g x)) → mapM f l = Ok (g <$> l).
Proof.
  induction l as [|x l IH]; intros Hf; [reflexivity|].
  rewrite mapM_cons, Hf by left. cbn.
  rewrite IH by (intros; apply Hf; by right). reflexivity.
Qed.

Lemma mapM_length {A B} (f : A → result B) l k :
  mapM f l = Ok k → length k = length l.
Proof.
  revert k. induction l as [|x l IH]; intros k.
  - intros [= <-]. reflexivity.
  - rewrite mapM_cons. destruct (f x) as [y|]; [|discriminate]. cbn.
    destruct (mapM f l) as [k'|]; [|discriminate]. cbn.
    intros [= <-]. cbn. f_equal. by apply IH.
Qed.

Lemma mapM_lookup {A B} (f : A → result B) l k i x :
  mapM f l = Ok k → l !! i = Some x → ∃ y, k !! i = Some y ∧ f x = Ok y.
Proof.
  revert k i. induction l as [|a l IH]; intros k i; [by intros _ ?|].
  rewrite mapM_cons. destruct (f a) as [y|] eqn:Hy; [|discriminate]. cbn.
  destruct (mapM f l) as [k'|]; [|discriminate]. cbn.
  intros [= <-]. destruct i as [|i]; intros Hx; simplify_eq/=.
  - eauto.
  - by eapply IH.
Qed.

(** ** The rewriting of one identifier *)

(** The identifier that the rewriters of the two builders put in the place
    of [d]. *)
Definition rewritten (d : string) : string :=
  if String.prefix "coderabbit-" d
  then REGISTRY_BASE_URL +:+ "/" +:+ d +:+ ".json"
  else d.

Lemma prefix_cons a s1 b s2 :
  String.prefix (String a s1) (String b s2)
  = if ascii_dec a b then String.prefix s1 s2 else false.
Proof. reflexivity. Qed.

(** An identifier in URL form does not carry the internal prefix. *)
Lemma url_not_custom d :
  String.prefix "http://" d = true ∨ String.prefix "https://" d = true →
  String.prefix "coderabbit-" d = false.
Proof.
  destruct d as [|c d]; [reflexivity|]. rewrite !prefix_cons.
  destruct (ascii_dec "c" c) as [<-|]; [|reflexivity].
  destruct (ascii_dec "h" "c") as [Hc|]; [discriminate Hc|].
  intros [?|?]; discriminate.
Qed.

(** What [rewritten] yields is in URL form. *)
Lemma rewritten_custom_is_url d :
  String.prefix "coderabbit-" d = true →
  String.prefix "https://" (rewritten d) = true.
Proof. unfold rewritten. intros ->. reflexivity. Qed.

Lemma builder_callback_string d :
  (custom ← startsWith "coderabbit-" (JStr d);
   if custom : bool then registry_url (JStr d) else Ok (JStr d))
  = Ok (JStr (rewritten d)).
Proof.
  unfold rewritten. cbn [startsWith mbind result_bind].
  destruct (String.prefix "coderabbit-" d); reflexivity.
Qed.

Lemma transformer_callback_string d :
  (http ← startsWith "http://" (JStr d);
   url ← (if http : bool then Ok true else startsWith "https://" (JStr d));
   if url : bool then Ok (JStr d)
   else
     custom ← startsWith "coderabbit-" (JStr d);
     if custom : bool then registry_url (JStr d) else Ok (JStr d))
  = Ok (JStr (rewritten d)).
Proof.
  unfold rewritten. cbn [startsWith mbind result_bind].
  destruct (String.prefix "http://" d) eqn:Hh; cbn [mbind result_bind].
  { rewrite url_not_custom by auto. reflexivity. }
  destruct (String.prefix "https://" d) eqn:Hs; cbn [mbind result_bind].
  { rewrite url_not_custom by auto. reflexivity. }
  destruct (String.prefix "coderabbit-" d); reflexivity.
Qed.

(** On an array of strings, the three rewriters map [rewritten]. *)
Lemma bundles_rewriter_strings ds :
  Bundles.transformRegistryDependencies (JArr (JStr <$> ds))
  = Ok (JArr (JStr <$> (rewritten <$> ds))).
Proof.
  unfold Bundles.transformRegistryDependencies.
  erewrite mapM_pure with (g := λ v, JStr (rewritten (default "" (match v with JStr s => Some s | _ => None end)))).
  - cbn. do 2 f_equal. rewrite <- !list_fmap_compose. reflexivity.
  - intros x [d [-> _]]%list_elem_of_fmap. apply builder_callback_string.
Qed.

Lemma flat_rewriter_strings ds :
  Flat.transformRegistryDependencies (JArr (JStr <$> ds))
  = Ok (JArr (JStr <$> (rewritten <$> ds))).
Proof. apply bundles_rewriter_strings. Qed.

Lemma transformer_rewriter_strings ds :
  PostBuild.transformDeps (JArr (JStr <$> ds))
  = Ok (JArr (JStr <$> (rewritten <$> ds))).
Proof.
  unfold PostBuild.transformDeps. cbn [truthy Array_isArray negb orb array_elements].
  erewrite mapM_pure with (g := λ v, JStr (rewritten (default "" (match v with JStr s => Some s | _ => None end)))).
  - cbn. do 2 f_equal. rewrite <- !list_fmap_compose. reflexivity.
  - intros x [d [-> _]]%list_elem_of_fmap. apply transformer_callback_string.
Qed.

(** C1. For every list of dependency identifiers, each of the three
    rewriters returns a list of the same length in which, position by
    position, an identifier with the prefix [coderabbit-] has become the
    base URL, a slash, the identifier and [.json], an identifier that starts
    with [http://] or [https://] is unchanged, and every other identifier is
    unchanged. *)
Theorem rewriter_elementwise (ds : list string) :
  ∃ out : list string,
    Bundles.transformRegistryDependencies (JArr (JStr <$> ds))
      = Ok (JArr (JStr <$> out)) ∧
    Flat.transformRegistryDependencies (JArr (JStr <$> ds))
      = Ok (JArr (JStr <$> out)) ∧
    PostBuild.transformDeps (JArr (JStr <$> ds)) = Ok (JArr (JStr <$> out)) ∧
    length out = length ds ∧
    ∀ (i : nat) (d : string), ds !! i = Some d →
      ∃ r, out !! i = Some r ∧
        (String.prefix "coderabbit-" d = true →
         r = "https://raw.githubusercontent.com/RMNCLDYO/coderabbit-shadcn-registry/main/public/r/"
               +:+ d +:+ ".json") ∧
        (String.prefix "http://" d = true ∨ String.prefix "https://" d = true →
         r = d) ∧
        (String.prefix "coderabbit-" d = false → r = d).
Proof.
  exists (rewritten <$> ds).
  split; [apply bundles_rewriter_strings|].
  split; [apply flat_rewriter_strings|].
  split; [apply transformer_rewriter_strings|].
  split; [apply length_fmap|].
  intros i d Hd. exists (rewritten d).
  split; [by rewrite list_lookup_fmap, Hd|].
  unfold rewritten. repeat split.
  - intros ->. reflexivity.
  - intros Hurl. by rewrite (url_not_custom d Hurl).
  - intros ->. reflexivity.
Qed.

(** ** Inputs that are no sequence *)

Lemma guarded_rewriters_not_array v :
  Array_isArray v = false →
  Flat.transformRegistryDependencies v = Ok v ∧ PostBuild.transformDeps v = Ok v.
Proof.
  intros Hv. unfold Flat.transformRegistryDependencies, PostBuild.transformDeps.
  rewrite Hv, orb_true_r. done.
Qed.

Lemma bundles_rewriter_not_array v :
  Array_isArray v = false →
  Bundles.transformRegistryDependencies v = Throw TypeError.
Proof. by destruct v. Qed.

(** C4, as the code has it. For every input that is absent or no sequence,
    the rewriters of the Flat Registry Builder and of the Post-Build URL
    Transformer return the input unchanged and raise nothing; the rewriter
    of the Bundle Registry Builder has no such guard and raises a type error
    on such an input, and the builder only applies it to the arrays of its
    fixed table. *)
Theorem rewriter_non_sequence (v : value) :
  Array_isArray v = false →
  Flat.transformRegistryDependencies v = Ok v ∧
  PostBuild.transformDeps v = Ok v ∧
  Bundles.transformRegistryDependencies v = Throw TypeError ∧
  Forall (λ entry, ∃ es, get "registryDependencies" entry.2 = Ok (JArr es))
         Bundles.BUNDLES.
Proof.
  intros Hv. destruct (guarded_rewriters_not_array v Hv) as [Hf Hp].
  split; [exact Hf|]. split; [exact Hp|].
  split; [by apply bundles_rewriter_not_array|].
  repeat constructor; eexists; reflexivity.
Qed.

Lemma rewriter_non_sequence_witness :
  Array_isArray JUndefined = false ∧
  Flat.transformRegistryDependencies JUndefined = Ok JUndefined.
Proof.
  split; [reflexivity|].
  exact (proj1 (rewriter_non_sequence JUndefined eq_refl)).
Defined.

(** The rewriter of the Bundle Registry Builder is no defensive no-op: on
    [undefined] it raises. *)
Lemma bundles_rewriter_raises_on_undefined :
  Array_isArray JUndefined = false ∧
  Bundles.transformRegistryDependencies JUndefined = Throw TypeError ∧
  Bundles.transformRegistryDependencies JUndefined ≠ Ok JUndefined.
Proof. split; [reflexivity|]. split; [reflexivity|]. discriminate. Qed.

(** ** The two guarded rewriters agree *)

(** C10. The rewriter of the Flat Registry Builder and the rewriter of the
    Post-Build URL Transformer return the same result on every input, a list
    or not, because no identifier that starts with [http://] or [https://]
    starts with [coderabbit-]. *)
Theorem flat_rewriter_equals_transformer :
  (∀ v : value, Flat.transformRegistryDependencies v = PostBuild.transformDeps v) ∧
  (∀ d : string,
     String.prefix "http://" d = true ∨ String.prefix "https://" d = true →
     String.prefix "coderabbit-" d = false).
Proof.
  split; [|exact url_not_custom].
  intros v. unfold Flat.transformRegistryDependencies, PostBuild.transformDeps.
  destruct (negb (truthy v) || negb (Array_isArray v)); [reflexivity|].
  f_equal. apply mapM_ext_result. intros dep.
  destruct dep as [| | | |d| |]; try reflexivity.
  etrans; [apply builder_callback_string|].
  symmetry. apply transformer_callback_string.
Qed.

(** ** Properties of objects *)

Lemma assoc_replace_prop k k' v ps :
  is_Some (assoc k' ps) →
  assoc k (replace_prop k' v ps) = if String.eqb k' k then Some v else assoc k ps.
Proof.
  induction ps as [|[k0 v0] ps IH]; cbn; [by intros [? ?]|].
  destruct (String.eqb k0 k') eqn:E0; cbn.
  - intros _. apply String.eqb_eq in E0 as ->.
    destruct (String.eqb k' k); reflexivity.
  - intros Hk'. destruct (String.eqb k0 k) eqn:E1; [|by apply IH].
    apply String.eqb_eq in E1 as ->.
    rewrite String.eqb_sym, E0. reflexivity.
Qed.

Lemma assoc_add_prop k k' v ps :
  assoc k' ps = None →
  assoc k (add_prop k' v ps) = if String.eqb k' k then Some v else assoc k ps.
Proof.
  induction ps as [|[k0 v0] ps IH]; cbn; [reflexivity|].
  destruct (String.eqb k0 k') eqn:E0; [discriminate|]. intros Hk'.
  destruct (key_before k' k0); cbn; [reflexivity|].
  destruct (String.eqb k0 k) eqn:E1; [|by apply IH].
  apply String.eqb_eq in E1 as ->.
  rewrite String.eqb_sym, E0. reflexivity.
Qed.

(** Reading a property after [o.k' = v]. *)
Lemma assoc_set_prop k k' v ps :
  assoc k (set_prop k' v ps) = if String.eqb k' k then Some v else assoc k ps.
Proof.
  unfold set_prop. destruct (assoc k' ps) eqn:E.
  - by apply assoc_replace_prop.
  - by apply assoc_add_prop.
Qed.

Lemma assoc_None_not_in k ps : assoc k ps = None ↔ k ∉ ps.*1.
Proof.
  induction ps as [|[k0 v0] ps IH]; cbn.
  - split; [intros _; apply not_elem_of_nil|done].
  - rewrite not_elem_of_cons. destruct (String.eqb k0 k) eqn:E.
    + apply String.eqb_eq in E as ->. split; [done|]. intros [Hk _]. by destruct Hk.
    + apply String.eqb_neq in E. rewrite IH.
      split; [intros ?; split; [by intros ->|done] | by intros [_ ?]].
Qed.

(** Reading a property of [{ ...base, ...o }], the keys of [o] distinct. *)
Lemma assoc_foldl_set_prop k base ps :
  NoDup ps.*1 →
  assoc k (foldl (λ acc kv, set_prop kv.1 kv.2 acc) base ps)
  = match assoc k ps with Some v => Some v | None => assoc k base end.
Proof.
  revert base. induction ps as [|[k0 v0] ps IH]; intros base Hnd; [reflexivity|].
  cbn in Hnd. apply NoDup_cons in Hnd as [Hk0 Hnd]. cbn.
  rewrite IH by done. rewrite assoc_set_prop.
  destruct (String.eqb k0 k) eqn:E; [|reflexivity].
  apply String.eqb_eq in E as ->.
  by apply assoc_None_not_in in Hk0 as ->.
Qed.

Lemma assoc_filter_key k k' ps :
  assoc k (filter (λ kv : string * value, kv.1 ≠ k') ps)
  = if String.eqb k' k then None else assoc k ps.
Proof.
  induction ps as [|[k0 v0] ps IH]; [by destruct (String.eqb k' k)|].
  rewrite filter_cons. cbn. destruct (decide (k0 ≠ k')) as [Hne|Heq]; cbn.
  - destruct (String.eqb k0 k) eqn:E; [|exact IH].
    apply String.eqb_eq in E as ->.
    apply not_eq_sym, String.eqb_neq in Hne. by rewrite Hne.
  - apply dec_stable in Heq as ->. rewrite IH.
    by destruct (String.eqb k' k).
Qed.

(** [o.k = v] with the value that [o.k] has leaves [o] as it is. *)
Lemma set_prop_same k v ps : assoc k ps = Some v → set_prop k v ps = ps.
Proof.
  intros H. unfold set_prop. rewrite H.
  induction ps as [|[k0 v0] ps IH]; [done|]. cbn in *.
  destruct (String.eqb k0 k); [by simplify_eq|]. f_equal. by apply IH.
Qed.

(** ** The per-item descriptor of the Flat Registry Builder *)

Lemma get_array_inv k v es :
  get k v = Ok (JArr es) → ∃ ps, v = JObj ps ∧ assoc k ps = Some (JArr es).
Proof.
  destruct v as [| | | | | |ps]; try discriminate. cbn.
  destruct (assoc k ps) as [w|] eqn:E; [|discriminate]. cbn. intros [= ->]. eauto.
Qed.

Lemma without_content_Ok f y :
  Flat.without_content f = Ok y →
  y = JObj (filter (λ kv, kv.1 ≠ "content") (own_props f)).
Proof. destruct f; cbn; by intros [= <-]. Qed.

(** C2. The per-item descriptor that [generateItemJSON] produces for an
    item with a list of files has a list of files of the same length, in
    which every entry is the input entry without its [content] key, whether
    the input entry had one or not: a key other than [content] has the value
    it had, in the order it had. *)
Theorem generateItemJSON_strips_content (item out : value) (fs : list value) :
  NoDup (own_props item).*1 →
  get "files" item = Ok (JArr fs) →
  Flat.generateItemJSON item = Ok out →
  ∃ fs' : list value,
    get "files" out = Ok (JArr fs') ∧
    length fs' = length fs ∧
    ∀ (i : nat) (f : value), fs !! i = Some f →
      ∃ ps' : list (string * value),
        fs' !! i = Some (JObj ps') ∧
        ps' = filter (λ kv, kv.1 ≠ "content") (own_props f) ∧
        assoc "content" ps' = None ∧
        ∀ k : string, k ≠ "content" → assoc k ps' = assoc k (own_props f).
Proof.
  intros Hnd [ps [-> Hfiles]]%get_array_inv. cbn in Hnd.
  unfold Flat.generateItemJSON, spread_into. cbn [own_props].
  set (c0 := foldl _ _ ps).
  assert (Hc0 : assoc "files" c0 = Some (JArr fs)).
  { unfold c0. by rewrite assoc_foldl_set_prop, Hfiles. }
  set (step1 := if truthy _ then _ else _).
  destruct step1 as [c1|] eqn:Hstep1; [|discriminate]. cbn [mbind result_bind].
  assert (Hc1 : assoc "files" c1 = Some (JArr fs)).
  { unfold step1 in Hstep1. destruct (truthy _); [|by simplify_eq].
    destruct (Flat.transformRegistryDependencies _); [|discriminate].
    cbn in Hstep1. injection Hstep1 as <-. by rewrite assoc_set_prop. }
  rewrite Hc1. simpl.
  destruct (mapM Flat.without_content fs) as [fs'|] eqn:Hmap; [|discriminate].
  simpl. intros [= <-]. exists fs'. simpl. rewrite assoc_set_prop. simpl.
  split; [reflexivity|]. split; [by eapply mapM_length|].
  intros i f Hf.
  destruct (mapM_lookup _ _ _ _ _ Hmap Hf) as [y [Hy ->%without_content_Ok]].
  eexists. split; [exact Hy|]. split; [reflexivity|].
  split; [by rewrite assoc_filter_key|].
  intros k Hk. rewrite assoc_filter_key.
  apply not_eq_sym, String.eqb_neq in Hk. by rewrite Hk.
Qed.

(** The example of the specification: one file with a content. *)
Lemma generateItemJSON_strips_content_witness :
  ∃ fs' : list value,
    get "files"
      (JObj [("$schema", JStr "https://ui.shadcn.com/schema/registry-item.json");
             ("name", JStr "coderabbit-form");
             ("files", JArr [JObj [("path", JStr "lib/foo.ts");
                                   ("type", JStr "registry:lib")]])])
    = Ok (JArr fs') ∧
    length fs' = 1 ∧
    ∀ (i : nat) (f : value),
      [JObj [("path", JStr "lib/foo.ts"); ("content", JStr "export const x=1");
             ("type", JStr "registry:lib")]] !! i = Some f →
      ∃ ps' : list (string * value),
        fs' !! i = Some (JObj ps') ∧
        ps' = filter (λ kv, kv.1 ≠ "content") (own_props f) ∧
        assoc "content" ps' = None ∧
        ∀ k : string, k ≠ "content" → assoc k ps' = assoc k (own_props f).
Proof.
  apply (generateItemJSON_strips_content
           (JObj [("name", JStr "coderabbit-form");
                  ("files", JArr [JObj [("path", JStr "lib/foo.ts");
                                        ("content", JStr "export const x=1");
                                        ("type", JStr "registry:lib")]])])
           (JObj [("$schema", JStr "https://ui.shadcn.com/schema/registry-item.json");
                  ("name", JStr "coderabbit-form");
                  ("files", JArr [JObj [("path", JStr "lib/foo.ts");
                                        ("type", JStr "registry:lib")]])])
           [JObj [("path", JStr "lib/foo.ts"); ("content", JStr "export const x=1");
                  ("type", JStr "registry:lib")]]).
  - compute_done.
  - reflexivity.
  - reflexivity.
Defined.

(** ** [JSON.stringify] tells arrays of strings apart *)

Definition hex_value (c : ascii) : N :=
  let n := N_of_ascii c in if (n <? 58)%N then (n - 48)%N else (n - 87)%N.

(** Reads back the code unit that [escape_unit] printed at the head of a
    text; a text that starts with a quote has none. *)
Definition unescape_unit (s : string) : option (ascii * string) :=
  match s with
  | EmptyString => None
  | String c r =>
      if Ascii.eqb c backslash then
        match r with
        | String e r' =>
            if Ascii.eqb e "b" then Some ("008"%char, r')
            else if Ascii.eqb e "t" then Some ("009"%char, r')
            else if Ascii.eqb e "n" then Some ("010"%char, r')
            else if Ascii.eqb e "f" then Some ("012"%char, r')
            else if Ascii.eqb e "r" then Some ("013"%char, r')
            else if Ascii.eqb e dquote then Some (dquote, r')
            else if Ascii.eqb e backslash then Some (backslash, r')
            else
              match r' with
              | String _ (String _ (String h (String l r''))) =>
                  Some (ascii_of_N (16 * hex_value h + hex_value l), r'')
              | _ => None
              end
        | EmptyString => None
        end
      else if Ascii.eqb c dquote then None
      else Some (c, r)
  end.

Lemma unescape_escape_unit c r :
  unescape_unit (escape_unit c +:+ r) = Some (c, r).
Proof. destruct c as [[] [] [] [] [] [] [] []]; reflexivity. Qed.

Lemma string_app_assoc (a b c : string) : (a +:+ b) +:+ c = a +:+ (b +:+ c).
Proof.
  induction a as [|x a IH]; [reflexivity|].
  exact (f_equal (String x) IH).
Qed.

Lemma escape_units_inj s1 s2 r1 r2 :
  escape_units s1 +:+ String dquote r1 = escape_units s2 +:+ String dquote r2 →
  s1 = s2 ∧ r1 = r2.
Proof.
  revert s2. induction s1 as [|c1 s1 IH]; intros [|c2 s2]; cbn [escape_units].
  - intros [= ->]. done.
  - rewrite string_app_assoc. intros H. apply (f_equal unescape_unit) in H.
    rewrite unescape_escape_unit in H. discriminate H.
  - rewrite string_app_assoc. intros H. apply (f_equal unescape_unit) in H.
    rewrite unescape_escape_unit in H. discriminate H.
  - rewrite !string_app_assoc. intros H. apply (f_equal unescape_unit) in H.
    rewrite !unescape_escape_unit in H. injection H as -> H.
    destruct (IH _ H) as [-> ->]. done.
Qed.

Lemma quote_inj s1 s2 r1 r2 :
  quote s1 +:+ r1 = quote s2 +:+ r2 → s1 = s2 ∧ r1 = r2.
Proof.
  change (String dquote ((escape_units s1 +:+ String dquote "") +:+ r1)
          = String dquote ((escape_units s2 +:+ String dquote "") +:+ r2)
          → s1 = s2 ∧ r1 = r2).
  intros [= H]. rewrite !string_app_assoc in H. by apply escape_units_inj.
Qed.

Lemma concat_quotes_cons s l r :
  String.concat "," (quote s :: (quote <$> l)) +:+ r
  = quote s +:+ match l with
                | [] => r
                | _ => "," +:+ String.concat "," (quote <$> l) +:+ r
                end.
Proof.
  destruct l as [|s' l]; [reflexivity|].
  change (String.concat "," (quote s :: (quote <$> s' :: l)))
    with (quote s +:+ "," +:+ String.concat "," (quote <$> s' :: l)).
  by rewrite !string_app_assoc.
Qed.

Lemma concat_quotes_inj l1 l2 :
  String.concat "," (quote <$> l1) +:+ "]" = String.concat "," (quote <$> l2) +:+ "]" →
  l1 = l2.
Proof.
  revert l2. induction l1 as [|s1 l1 IH]; intros [|s2 l2]; [done|..].
  - rewrite fmap_cons, concat_quotes_cons. discriminate.
  - rewrite fmap_cons, concat_quotes_cons. discriminate.
  - rewrite !fmap_cons, !concat_quotes_cons.
    intros [-> H]%quote_inj. f_equal.
    destruct l1 as [|a l1], l2 as [|b l2]; [done|..].
    + rewrite fmap_cons, concat_quotes_cons in H. discriminate H.
    + rewrite fmap_cons, concat_quotes_cons in H. discriminate H.
    + apply IH. by injection H.
Qed.

(** On arrays of strings, equal texts mean equal arrays. *)
Lemma stringify_strings_inj l1 l2 :
  JSON_stringify (JArr (JStr <$> l1)) = JSON_stringify (JArr (JStr <$> l2)) →
  l1 = l2.
Proof.
  cbn [JSON_stringify]. rewrite <- !list_fmap_compose.
  intros [= H]. by apply concat_quotes_inj.
Qed.

(** ** Values that [JSON.parse] yields *)

(** No [undefined] inside, and the keys of every object distinct. *)
Fixpoint is_json (v : value) : bool :=
  match v with
  | JUndefined => false
  | JArr es => forallb is_json es
  | JObj ps =>
      bool_decide (NoDup ps.*1) && forallb (λ '(_, e), is_json e) ps
  | _ => true
  end.

Lemma value_nested_ind (P : value → Prop) :
  P JUndefined → P JNull → (∀ b, P (JBool b)) → (∀ r, P (JNum r)) →
  (∀ s, P (JStr s)) →
  (∀ es, Forall P es → P (JArr es)) →
  (∀ ps, Forall (λ kv, P kv.2) ps → P (JObj ps)) →
  ∀ v, P v.
Proof.
  intros Hu Hn Hb Hr Hs Ha Ho. fix IH 1.
  intros [| |b|r|s|es|ps];
    [exact Hu|exact Hn|apply Hb|apply Hr|apply Hs|apply Ha|apply Ho].
  - revert es. fix IHes 1. intros [|e es]; constructor; [apply IH|apply IHes].
  - revert ps. fix IHps 1. intros [|[k e] ps]; constructor; [apply IH|apply IHps].
Qed.

Lemma is_json_array es : is_json (JArr es) = true → Forall (λ e, is_json e = true) es.
Proof. cbn. intros H. apply Forall_forall. intros e He.
  apply (proj1 (forallb_forall _ _) H). by apply list_elem_of_In. Qed.

Lemma is_json_object ps :
  is_json (JObj ps) = true →
  NoDup ps.*1 ∧ Forall (λ kv, is_json kv.2 = true) ps.
Proof.
  cbn. intros [Hnd H]%andb_prop. split; [by apply bool_decide_eq_true in Hnd|].
  apply Forall_forall. intros [k e] He.
  apply (proj1 (forallb_forall _ _) H (k, e)). by apply list_elem_of_In.
Qed.

Lemma is_json_well_keyed v : is_json v = true → NoDup (own_props v).*1.
Proof.
  destruct v as [| | | |s|es|ps]; try (intros; apply NoDup_nil_2); try discriminate.
  - intros _. cbn. rewrite fmap_imap. apply NoDup_alt.
    intros i j k. rewrite !list_lookup_imap.
    destruct (string_units s !! i), (string_units s !! j); cbn; try discriminate.
    intros [= <-] [= H]. apply (inj pretty) in H. lia.
  - intros _. cbn. rewrite fmap_imap. apply NoDup_alt.
    intros i j k. rewrite !list_lookup_imap.
    destruct (es !! i), (es !! j); cbn; try discriminate.
    intros [= <-] [= H]. apply (inj pretty) in H. lia.
  - by intros [? _]%is_json_object.
Qed.

Lemma is_json_get k v w :
  is_json v = true → get k v = Ok w → w = JUndefined ∨ is_json w = true.
Proof.
  destruct v as [| | | | | |ps]; cbn; try (intros _ [= <-]; by left); try discriminate.
  intros [_ H]%is_json_object. intros [= <-].
  destruct (assoc k ps) as [e|] eqn:E; [right|by left]. cbn.
  induction ps as [|[k0 e0] ps IH]; [discriminate|]. cbn in E.
  apply Forall_cons in H as [H0 H].
  destruct (String.eqb k0 k); [by simplify_eq|by apply IH].
Qed.

(** ** Writing a value and reading it back *)

(** A value all of whose numbers are finite. *)
Fixpoint finite_numbers (v : value) : bool :=
  match v with
  | JNum r => finite r
  | JArr es => forallb finite_numbers es
  | JObj ps => forallb (λ '(_, e), finite_numbers e) ps
  | _ => true
  end.

Lemma finite_numbers_array es :
  finite_numbers (JArr es) = true ↔ Forall (λ e, finite_numbers e = true) es.
Proof.
  cbn [finite_numbers]. induction es as [|e es IH]; cbn [forallb].
  - split; [constructor|done].
  - by rewrite andb_true_iff, Forall_cons, IH.
Qed.

Lemma finite_numbers_object ps :
  finite_numbers (JObj ps) = true ↔ Forall (λ kv, finite_numbers kv.2 = true) ps.
Proof.
  cbn [finite_numbers]. induction ps as [|[k e] ps IH]; cbn [forallb].
  - split; [constructor|done].
  - by rewrite andb_true_iff, Forall_cons, IH.
Qed.

Lemma finite_numbers_strings ds : finite_numbers (JArr (JStr <$> ds)) = true.
Proof. apply finite_numbers_array, Forall_fmap, Forall_true. done. Qed.

(** The elements of a parsed array, and the properties of a parsed object,
    are written one by one. *)
Lemma to_json_elements es :
  Forall (λ e, is_json e = true) es →
  to_json (JArr es) = JArr (to_json <$> es).
Proof.
  intros H. cbn [to_json]. f_equal.
  induction H as [|e es He H IH]; [done|]. cbn. rewrite IH. by destruct e.
Qed.

Lemma to_json_props ps :
  Forall (λ kv, is_json kv.2 = true) ps →
  to_json (JObj ps) = JObj ((λ kv, (kv.1, to_json kv.2)) <$> ps).
Proof.
  intros H. cbn [to_json]. f_equal.
  induction H as [|[k e] ps He H IH]; [done|]. cbn in *. rewrite IH.
  by destruct e.
Qed.

(** Writing and reading back a parsed value whose numbers are finite changes
    nothing. *)
Lemma to_json_id v :
  is_json v = true → finite_numbers v = true → to_json v = v.
Proof.
  induction v as [| | |r| |es IH|ps IH] using value_nested_ind; try done.
  - cbn. by intros _ ->.
  - intros H%is_json_array Hf%finite_numbers_array.
    rewrite to_json_elements by done. f_equal.
    induction es as [|e es IHes]; [done|].
    apply Forall_cons in IH as [IHe IH]. apply Forall_cons in H as [He H].
    apply Forall_cons in Hf as [Hfe Hf].
    cbn. by rewrite IHes, IHe.
  - intros [_ H]%is_json_object Hf%finite_numbers_object.
    rewrite to_json_props by done. f_equal.
    induction ps as [|[k e] ps IHps]; [done|].
    apply Forall_cons in IH as [IHe IH]. apply Forall_cons in H as [He H].
    apply Forall_cons in Hf as [Hfe Hf].
    cbn in *. by rewrite IHps, IHe.
Qed.

(** What is read back is a parsed value again, and its numbers are finite. *)
Lemma to_json_is_json v : is_json v = true → is_json (to_json v) = true.
Proof.
  induction v as [| | |r| |es IH|ps IH] using value_nested_ind; try done.
  - intros _. cbn. by destruct (finite r).
  - intros H%is_json_array. rewrite to_json_elements by done.
    cbn [is_json]. apply forallb_forall. intros x [e [<- He]]%in_map_iff.
    apply list_elem_of_In in He.
    apply (proj1 (Forall_forall _ _) IH e He).
    apply (proj1 (Forall_forall _ _) H e He).
  - intros [Hnd H]%is_json_object. rewrite to_json_props by done.
    cbn [is_json]. apply andb_true_intro. split.
    + apply bool_decide_eq_true. by rewrite <- list_fmap_compose.
    + apply forallb_forall. intros x [[k e] [<- He]]%in_map_iff.
      apply list_elem_of_In in He.
      apply (proj1 (Forall_forall _ _) IH _ He).
      apply (proj1 (Forall_forall _ _) H _ He).
Qed.

Lemma to_json_finite v : finite_numbers (to_json v) = true.
Proof.
  induction v as [| | |r| |es IH|ps IH] using value_nested_ind; try done.
  - cbn. by destruct (finite r) eqn:E; cbn.
  - apply finite_numbers_array. cbn [to_json].
    induction IH as [|e es He H IHes]; [constructor|].
    cbn [map]. constructor; [by destruct e|done].
  - apply finite_numbers_object. cbn [to_json].
    induction IH as [|[k e] ps He H IHps]; [constructor|].
    cbn [omap list_omap]. cbn in He. destruct e; cbn; try done;
      by constructor.
Qed.

(** Written twice is written once. *)
Lemma to_json_idem v : is_json v = true → to_json (to_json v) = to_json v.
Proof.
  intros H. apply to_json_id; [by apply to_json_is_json|apply to_json_finite].
Qed.

(** ** The rewriting of one [registryDependencies] field *)

Lemma rewritten_idem d : rewritten (rewritten d) = rewritten d.
Proof.
  unfold rewritten at 2 3. destruct (String.prefix "coderabbit-" d) eqn:E.
  - unfold rewritten. reflexivity.
  - unfold rewritten. by rewrite E.
Qed.

Lemma transformer_callback_strings es k :
  mapM (λ dep,
    http ← startsWith "http://" dep;
    url ← (if http : bool then Ok true else startsWith "https://" dep);
    if url : bool then Ok dep
    else
      custom ← startsWith "coderabbit-" dep;
      if custom : bool then registry_url dep else Ok dep) es = Ok k →
  ∃ ds, es = JStr <$> ds.
Proof.
  revert k. induction es as [|e es IH]; intros k; [by exists []|].
  rewrite mapM_cons. destruct e as [| | | |d| |]; try discriminate.
  rewrite transformer_callback_string. cbn [mbind result_bind].
  destruct (mapM _ es) as [k'|] eqn:E; [|discriminate]. intros _.
  destruct (IH _ eq_refl) as [ds ->]. by exists (d :: ds).
Qed.

(** What [transformDeps] returns when it returns. *)
Lemma transformDeps_Ok deps t :
  PostBuild.transformDeps deps = Ok t →
  (Array_isArray deps = false ∧ t = deps) ∨
  (∃ ds, deps = JArr (JStr <$> ds) ∧ t = JArr (JStr <$> (rewritten <$> ds))).
Proof.
  destruct (Array_isArray deps) eqn:Harr.
  - destruct deps as [| | | | |es|]; try discriminate. intros H. right.
    unfold PostBuild.transformDeps in H. cbn in H.
    destruct (mapM _ es) as [k|] eqn:E; [|discriminate].
    destruct (transformer_callback_strings _ _ E) as [ds ->]. exists ds.
    split; [reflexivity|].
    pose proof (transformer_rewriter_strings ds) as H'.
    unfold PostBuild.transformDeps in H'. cbn in H'. rewrite E in H'.
    congruence.
  - intros H. left. split; [reflexivity|].
    destruct (guarded_rewriters_not_array deps Harr) as [_ H']. congruence.
Qed.

Lemma transformDeps_idem deps t :
  PostBuild.transformDeps deps = Ok t → PostBuild.transformDeps t = Ok t.
Proof.
  intros [[Harr ->]|[ds [-> ->]]]%transformDeps_Ok.
  - by apply guarded_rewriters_not_array.
  - rewrite transformer_rewriter_strings. do 3 f_equal.
    rewrite <- list_fmap_compose. apply list_fmap_ext. intros _ d _.
    apply rewritten_idem.
Qed.

(** The comparison of the two texts is the comparison of the two values. *)
Lemma stringify_differs_iff deps t :
  PostBuild.transformDeps deps = Ok t →
  PostBuild.stringify_differs t deps = true ↔ t ≠ deps.
Proof.
  intros Ht. unfold PostBuild.stringify_differs. rewrite bool_decide_eq_true.
  split; [by intros H ->|]. intros Hne Heq. apply Hne.
  destruct (transformDeps_Ok _ _ Ht) as [[_ ->]|[ds [-> ->]]]; [done|].
  apply stringify_strings_inj in Heq. by rewrite Heq.
Qed.

(** The shape that the root and every item share: rewrite [deps], and put
    the result in place with [build] if its text differs. *)
Definition step {A} (deps : value) (orig : A) (build : value → A)
  : result (A * bool) :=
  if truthy deps then
    transformed ← PostBuild.transformDeps deps;
    if PostBuild.stringify_differs transformed deps
    then Ok (build transformed, true) else Ok (orig, false)
  else Ok (orig, false).

Lemma transformItem_step item :
  PostBuild.transformItem item
  = deps ← get "registryDependencies" item;
    step deps item
      (λ t, JObj (set_prop "registryDependencies" t (spread_into [] item))).
Proof. reflexivity. Qed.

Lemma transformData_step data :
  PostBuild.transformData data
  = deps ← get "registryDependencies" data;
    st ← step deps data (λ t, PostBuild.assign "registryDependencies" t data);
    items ← get "items" st.1;
    if truthy items && Array_isArray items then
      items' ← mapM PostBuild.transformItem (array_elements items);
      Ok (PostBuild.assign "items" (JArr items'.*1) st.1,
          st.2 || existsb snd items')
    else Ok st.
Proof. reflexivity. Qed.

Lemma step_Ok {A} deps (orig : A) build r :
  step deps orig build = Ok r →
  (r = (orig, false) ∧
   (truthy deps = false ∨ PostBuild.transformDeps deps = Ok deps)) ∨
  (∃ ds, deps = JArr (JStr <$> ds) ∧ rewritten <$> ds ≠ ds ∧
         r = (build (JArr (JStr <$> (rewritten <$> ds))), true)).
Proof.
  unfold step. destruct (truthy deps) eqn:Htr; [|intros [= <-]; auto].
  destruct (PostBuild.transformDeps deps) as [t|] eqn:Ht; [|discriminate].
  cbn [mbind result_bind].
  destruct (PostBuild.stringify_differs t deps) eqn:Hd; intros [= <-].
  - right. apply (stringify_differs_iff _ _ Ht) in Hd.
    destruct (transformDeps_Ok _ _ Ht) as [[_ ->]|[ds [-> ->]]]; [done|].
    exists ds. split; [done|]. split; [|done]. intros Heq. by rewrite Heq in Hd.
  - left. split; [done|]. right.
    destruct (transformDeps_Ok _ _ Ht) as [[_ ->]|[ds [-> ->]]]; [done|].
    unfold PostBuild.stringify_differs in Hd.
    apply bool_decide_eq_false, dec_stable, stringify_strings_inj in Hd.
    by rewrite Hd.
Qed.

(** A field that needs no rewriting needs none wherever it stands. *)
Lemma step_settled {A} deps (orig : A) build :
  truthy deps = false ∨ PostBuild.transformDeps deps = Ok deps →
  step deps orig build = Ok (orig, false).
Proof.
  unfold step. intros [->|Ht]; [done|]. rewrite Ht. cbn [mbind result_bind].
  destruct (truthy deps); [|done].
  unfold PostBuild.stringify_differs. by rewrite bool_decide_eq_false_2 by auto.
Qed.

Lemma rewritten_settled ds :
  PostBuild.transformDeps (JArr (JStr <$> (rewritten <$> ds)))
  = Ok (JArr (JStr <$> (rewritten <$> ds))).
Proof. apply (transformDeps_idem (JArr (JStr <$> ds))), transformer_rewriter_strings. Qed.

(** *** Items *)

Lemma transformItem_idem item item' m :
  PostBuild.transformItem item = Ok (item', m) →
  PostBuild.transformItem item' = Ok (item', false).
Proof.
  rewrite transformItem_step. intros H.
  destruct (get "registryDependencies" item) as [deps|] eqn:Hdeps; [|discriminate].
  cbn [mbind result_bind] in H.
  destruct (step_Ok _ _ _ _ H) as [[[= -> ->] Hs]|[ds [-> [_ [= -> ->]]]]].
  - rewrite transformItem_step, Hdeps. cbn [mbind result_bind].
    by apply step_settled.
  - rewrite transformItem_step. cbn [get]. rewrite assoc_set_prop.
    cbn [String.eqb Ascii.eqb Bool.eqb default from_option id mbind result_bind].
    apply step_settled. right. apply rewritten_settled.
Qed.

Lemma transformItem_unmodified item item' :
  PostBuild.transformItem item = Ok (item', false) → item' = item.
Proof.
  rewrite transformItem_step.
  destruct (get "registryDependencies" item) as [deps|]; [|discriminate].
  cbn [mbind result_bind]. intros H.
  destruct (step_Ok _ _ _ _ H) as [[[= ->] _]|[ds [_ [_ [=]]]]]. done.
Qed.

Lemma mapM_transformItem_idem its items' :
  mapM PostBuild.transformItem its = Ok items' →
  mapM PostBuild.transformItem items'.*1 = Ok ((λ it, (it, false)) <$> items'.*1).
Proof.
  intros H. apply mapM_pure. intros it' [[it'' m] [-> Hin]]%list_elem_of_fmap.
  apply list_elem_of_lookup in Hin as [i Hi].
  assert (∃ it, its !! i = Some it) as [it Hit].
  { apply lookup_lt_is_Some. rewrite <- (mapM_length _ _ _ H).
    by eapply lookup_lt_Some. }
  destruct (mapM_lookup _ _ _ _ _ H Hit) as [y [Hy Hidem]].
  simplify_eq. by eapply transformItem_idem.
Qed.

Lemma existsb_snd_false (l : list value) :
  existsb snd ((λ it, (it, false)) <$> l) = false.
Proof. induction l; [done|]. cbn. done. Qed.

Lemma fst_pair_false (l : list value) : ((λ it, (it, false)) <$> l).*1 = l.
Proof. rewrite <- list_fmap_compose. apply list_fmap_id. Qed.

(** *** Objects of parsed values *)

Definition json_props (ps : list (string * value)) : Prop :=
  NoDup ps.*1 ∧ Forall (λ kv, is_json kv.2 = true) ps.

Lemma is_json_object_iff ps : is_json (JObj ps) = true ↔ json_props ps.
Proof.
  split; [apply is_json_object|]. intros [Hnd H]. cbn.
  apply andb_true_intro. split; [by apply bool_decide_eq_true|].
  apply forallb_forall. intros [k e] Hin%list_elem_of_In.
  by apply (proj1 (Forall_forall _ _) H (k, e)).
Qed.

Lemma replace_prop_keys k v ps : (replace_prop k v ps).*1 = ps.*1.
Proof.
  induction ps as [|[k0 v0] ps IH]; [done|]. cbn.
  destruct (String.eqb k0 k); cbn; [done|by f_equal].
Qed.

Lemma add_prop_perm k v ps : add_prop k v ps ≡ₚ (k, v) :: ps.
Proof.
  induction ps as [|[k0 v0] ps IH]; [done|]. cbn.
  destruct (key_before k k0); [done|]. rewrite IH. apply Permutation_swap.
Qed.

Lemma replace_prop_values (P : value → Prop) k v ps :
  P v → Forall (λ kv, P kv.2) ps → Forall (λ kv, P kv.2) (replace_prop k v ps).
Proof.
  intros Hv. induction 1 as [|[k0 v0] ps H0 H IH]; [constructor|]. cbn.
  destruct (String.eqb k0 k); constructor; done.
Qed.

Lemma json_props_set k v ps :
  is_json v = true → json_props ps → json_props (set_prop k v ps).
Proof.
  intros Hv [Hnd H]. unfold set_prop. destruct (assoc k ps) eqn:E.
  - split; [by rewrite replace_prop_keys|].
    by apply (replace_prop_values (λ e, is_json e = true)).
  - split.
    + rewrite add_prop_perm. cbn. apply NoDup_cons. split; [|done].
      by apply assoc_None_not_in.
    + rewrite add_prop_perm. by constructor.
Qed.

Lemma json_props_own v : is_json v = true → json_props (own_props v).
Proof.
  intros Hv. split; [by apply is_json_well_keyed|].
  destruct v as [| | | |s|es|ps]; try constructor; cbn.
  - apply Forall_forall. intros [k e] [i [x [[= -> ->] Hx]]]%elem_of_lookup_imap. cbn.
    revert i Hx. induction s as [|c s IH]; intros [|i] Hx; simplify_eq/=; eauto.
  - apply is_json_array in Hv.
    apply Forall_forall. intros [k e] [i [x [[= -> ->] Hx]]]%elem_of_lookup_imap. cbn.
    apply (proj1 (Forall_forall _ _) Hv). by eapply list_elem_of_lookup_2.
  - by apply is_json_object in Hv as [_ ?].
Qed.

Lemma json_props_foldl base ps :
  json_props base → Forall (λ kv, is_json kv.2 = true) ps →
  json_props (foldl (λ acc kv, set_prop kv.1 kv.2 acc) base ps).
Proof.
  intros Hb H. revert base Hb.
  induction H as [|[k e] ps He H IH]; intros base Hb; [done|].
  cbn. apply IH. by apply json_props_set.
Qed.

Lemma json_props_spread base v :
  json_props base → is_json v = true → json_props (spread_into base v).
Proof.
  intros Hb Hv. apply json_props_foldl; [done|]. by apply json_props_own.
Qed.

Lemma json_props_nil : json_props [].
Proof. split; constructor. Qed.

Lemma is_json_strings ds : is_json (JArr (JStr <$> ds)) = true.
Proof. cbn. induction ds; [done|]. cbn. done. Qed.

(** Reading a property of [{ ...base, ...v, k': w }]. *)
Lemma get_set_spread k k' w base v :
  NoDup (own_props v).*1 →
  assoc k (set_prop k' w (spread_into base v))
  = if String.eqb k' k then Some w
    else match assoc k (own_props v) with
         | Some e => Some e
         | None => assoc k base
         end.
Proof.
  intros Hnd. rewrite assoc_set_prop. destruct (String.eqb k' k); [done|].
  by apply assoc_foldl_set_prop.
Qed.

(** *** What the transformer does to an item and to a document *)

Lemma transformDeps_falsy deps :
  truthy deps = false → PostBuild.transformDeps deps = Ok deps.
Proof. intros H. unfold PostBuild.transformDeps. by rewrite H. Qed.

Lemma settled_transformDeps deps :
  truthy deps = false ∨ PostBuild.transformDeps deps = Ok deps →
  PostBuild.transformDeps deps = Ok deps.
Proof. intros [H|H]; [by apply transformDeps_falsy|done]. Qed.

Local Instance JStr_inj : Inj (=) (=) JStr.
Proof. by intros ?? [=]. Qed.

Lemma transformItem_spec item item' m :
  PostBuild.transformItem item = Ok (item', m) →
  get "registryDependencies" item'
    = (get "registryDependencies" item ≫= PostBuild.transformDeps) ∧
  (NoDup (own_props item).*1 →
   ∀ k, k ≠ "registryDependencies" → get k item' = get k item) ∧
  (m = true ↔
   get "registryDependencies" item' ≠ get "registryDependencies" item) ∧
  (m = false → item' = item) ∧
  (is_json item = true → is_json item' = true).
Proof.
  rewrite transformItem_step. intros H.
  destruct (get "registryDependencies" item) as [deps|] eqn:Hdeps; [|discriminate].
  cbn [mbind result_bind] in *.
  destruct (step_Ok _ _ _ _ H) as [[[= -> ->] Hs]|[ds [-> [Hne [= -> ->]]]]].
  - rewrite Hdeps, (settled_transformDeps _ Hs). repeat split; done.
  - apply get_array_inv in Hdeps as [ps [-> Hps]].
    rewrite transformer_rewriter_strings. cbn [get].
    split; [by rewrite assoc_set_prop|].
    split.
    { intros Hnd k Hk. rewrite get_set_spread by done.
      apply not_eq_sym, String.eqb_neq in Hk. rewrite Hk. cbn.
      by destruct (assoc k ps). }
    split.
    { split; [|done]. intros _. rewrite assoc_set_prop, ?Hps. cbn.
      intros [= Heq]. by apply Hne, (inj (fmap JStr)). }
    split; [done|].
    intros Hj. apply is_json_object_iff, json_props_set; [apply is_json_strings|].
    apply json_props_spread; [apply json_props_nil|done].
Qed.

(** The parts of [transformData]. *)
Lemma transformData_Ok data data' m :
  PostBuild.transformData data = Ok (data', m) →
  ∃ deps d1 m1 items,
    get "registryDependencies" data = Ok deps ∧
    step deps data (λ t, PostBuild.assign "registryDependencies" t data)
      = Ok (d1, m1) ∧
    get "items" d1 = Ok items ∧
    ((Array_isArray items = false ∧ data' = d1 ∧ m = m1) ∨
     (∃ its items',
        items = JArr its ∧
        mapM PostBuild.transformItem its = Ok items' ∧
        data' = PostBuild.assign "items" (JArr items'.*1) d1 ∧
        m = m1 || existsb snd items')).
Proof.
  rewrite transformData_step. intros H.
  destruct (get "registryDependencies" data) as [deps|]; [|discriminate].
  cbn [mbind result_bind] in H.
  destruct (step deps data _) as [[d1 m1]|] eqn:Hstep; [|discriminate].
  cbn [mbind result_bind fst snd] in H.
  destruct (get "items" d1) as [items|] eqn:Hitems; [|discriminate].
  cbn [mbind result_bind] in H.
  exists deps, d1, m1, items. do 3 (split; [done|]).
  destruct (Array_isArray items) eqn:Harr.
  - destruct items as [| | | | |its|]; try discriminate. right. cbn in H.
    destruct (mapM PostBuild.transformItem its) as [items'|] eqn:Hmap;
      [|discriminate].
    cbn [mbind result_bind] in H. exists its, items'. by simplify_eq.
  - left. rewrite andb_false_r in H. by simplify_eq.
Qed.

(** After the root step the root field needs no further rewriting, and the
    step touches no other field. *)
Lemma root_step_spec data deps d1 m1 :
  get "registryDependencies" data = Ok deps →
  step deps data (λ t, PostBuild.assign "registryDependencies" t data)
    = Ok (d1, m1) →
  get "registryDependencies" d1 = PostBuild.transformDeps deps ∧
  (∀ k, k ≠ "registryDependencies" → get k d1 = get k data) ∧
  (m1 = true ↔
   get "registryDependencies" d1 ≠ get "registryDependencies" data) ∧
  (m1 = false → d1 = data) ∧
  (is_json data = true → is_json d1 = true).
Proof.
  intros Hdeps H.
  destruct (step_Ok _ _ _ _ H) as [[[= -> ->] Hs]|[ds [-> [Hne [= -> ->]]]]].
  - rewrite Hdeps, (settled_transformDeps _ Hs). repeat split; done.
  - apply get_array_inv in Hdeps as [ps [-> Hps]].
    rewrite transformer_rewriter_strings. cbn [get PostBuild.assign].
    split; [by rewrite assoc_set_prop|].
    split.
    { intros k Hk. rewrite assoc_set_prop.
      apply not_eq_sym, String.eqb_neq in Hk. by rewrite Hk. }
    split.
    { split; [|done]. intros _. rewrite assoc_set_prop, ?Hps. cbn.
      intros [= Heq]. by apply Hne, (inj (fmap JStr)). }
    split; [done|].
    intros Hj. apply is_json_object_iff, json_props_set; [apply is_json_strings|].
    by apply is_json_object_iff.
Qed.

Lemma step_Ok_rewrites {A} deps (orig : A) build r :
  step deps orig build = Ok r →
  ∃ t, PostBuild.transformDeps deps = Ok t ∧ PostBuild.transformDeps t = Ok t.
Proof.
  intros [[_ Hs]|[ds [-> _]]]%step_Ok.
  - exists deps. split; by apply settled_transformDeps.
  - eexists. split; [apply transformer_rewriter_strings|apply rewritten_settled].
Qed.

Lemma items_key_is_not_the_field :
  String.eqb "items" "registryDependencies" = false.
Proof. reflexivity. Qed.

(** The transformation of a document is idempotent. *)
Lemma transformData_idem data data' m :
  PostBuild.transformData data = Ok (data', m) →
  PostBuild.transformData data' = Ok (data', false).
Proof.
  intros (deps & d1 & m1 & items & Hdeps & Hstep & Hitems & Hcases)%transformData_Ok.
  destruct (root_step_spec _ _ _ _ Hdeps Hstep) as (Hrd1 & _).
  destruct (step_Ok_rewrites _ _ _ _ Hstep) as (t & Ht & Htt).
  rewrite Ht in Hrd1.
  destruct Hcases as [(Harr & -> & ->)|(its & items' & -> & Hmap & -> & ->)].
  - rewrite transformData_step, Hrd1. cbn [mbind result_bind].
    rewrite step_settled by auto. cbn [mbind result_bind fst snd].
    rewrite Hitems. cbn [mbind result_bind]. by rewrite Harr, andb_false_r.
  - apply get_array_inv in Hitems as [ps1 [-> Hps1]].
    cbn [PostBuild.assign get] in *.
    rewrite transformData_step. cbn [get].
    rewrite assoc_set_prop, items_key_is_not_the_field. cbn [get] in Hrd1.
    injection Hrd1 as ->. cbn [mbind result_bind].
    rewrite step_settled by auto. cbn [mbind result_bind fst snd get].
    rewrite assoc_set_prop, String.eqb_refl.
    cbn [default from_option id truthy Array_isArray andb array_elements mbind result_bind].
    rewrite (mapM_transformItem_idem _ _ Hmap). cbn [mbind result_bind].
    rewrite existsb_snd_false, fst_pair_false. cbn [PostBuild.assign orb].
    rewrite set_prop_same; [done|]. by rewrite assoc_set_prop, String.eqb_refl.
Qed.

Lemma mapM_transformItem_unmodified its items' :
  mapM PostBuild.transformItem its = Ok items' →
  existsb snd items' = false → items'.*1 = its.
Proof.
  revert items'. induction its as [|it its IH]; intros items'.
  - by intros [= <-].
  - rewrite mapM_cons.
    destruct (PostBuild.transformItem it) as [[it' b]|] eqn:Hit; [|discriminate].
    cbn [mbind result_bind].
    destruct (mapM PostBuild.transformItem its) as [k|]; [|discriminate].
    cbn [mbind result_bind]. intros [= <-]. cbn.
    intros [-> H]%orb_false_elim.
    apply transformItem_unmodified in Hit as ->. f_equal. by apply IH.
Qed.

Lemma mapM_transformItem_json its items' :
  Forall (λ e, is_json e = true) its →
  mapM PostBuild.transformItem its = Ok items' →
  Forall (λ e, is_json e = true) items'.*1.
Proof.
  intros Hj. revert items'. induction Hj as [|it its Hit Hj IH]; intros items'.
  - intros [= <-]. constructor.
  - rewrite mapM_cons.
    destruct (PostBuild.transformItem it) as [[it' b]|] eqn:Hit'; [|discriminate].
    cbn [mbind result_bind].
    destruct (mapM PostBuild.transformItem its) as [k|]; [|discriminate].
    cbn [mbind result_bind]. intros [= <-]. cbn. constructor; [|by apply IH].
    by apply (transformItem_spec _ _ _ Hit').
Qed.

Lemma is_json_array_intro es :
  Forall (λ e, is_json e = true) es → is_json (JArr es) = true.
Proof.
  intros H. cbn. apply forallb_forall. intros e He%list_elem_of_In.
  by apply (proj1 (Forall_forall _ _) H).
Qed.

(** What [transformData] leaves and what it changes. *)
Lemma transformData_spec data data' m :
  PostBuild.transformData data = Ok (data', m) →
  get "registryDependencies" data'
    = (get "registryDependencies" data ≫= PostBuild.transformDeps) ∧
  (∀ k, k ≠ "registryDependencies" → k ≠ "items" → get k data' = get k data) ∧
  (∀ items, get "items" data = Ok items → Array_isArray items = false →
            get "items" data' = Ok items) ∧
  (∀ its, get "items" data = Ok (JArr its) →
     ∃ items', mapM PostBuild.transformItem its = Ok items' ∧
               get "items" data' = Ok (JArr items'.*1) ∧
               (m = true ↔
                get "registryDependencies" data'
                  ≠ get "registryDependencies" data ∨
                existsb snd items' = true)) ∧
  (m = false → data' = data) ∧
  (is_json data = true → is_json data' = true).
Proof.
  intros (deps & d1 & m1 & items & Hdeps & Hstep & Hitems & Hcases)%transformData_Ok.
  destruct (root_step_spec _ _ _ _ Hdeps Hstep)
    as (Hrd1 & Hframe1 & Hm1 & Hsame1 & Hjson1).
  assert (Hitems0 : get "items" data = Ok items).
  { rewrite <- Hitems. symmetry. by apply Hframe1. }
  rewrite Hdeps in *. cbn [mbind result_bind].
  destruct Hcases as [(Harr & -> & ->)|(its & items' & -> & Hmap & -> & ->)].
  - split; [done|]. split; [by intros k Hk _; apply Hframe1|].
    split; [intros items0 H0 _; congruence|].
    split; [intros its H0; rewrite Hitems0 in H0; by simplify_eq|done].
  - pose proof Hitems as Hitems'.
    apply get_array_inv in Hitems' as [ps1 [-> Hps1]].
    cbn [PostBuild.assign].
    assert (Hrd' : get "registryDependencies"
                     (JObj (set_prop "items" (JArr items'.*1) ps1))
                   = PostBuild.transformDeps deps).
    { rewrite <- Hrd1. cbn [get].
      by rewrite assoc_set_prop, items_key_is_not_the_field. }
    split; [done|].
    split.
    { intros k Hk Hk'. rewrite <- (Hframe1 k Hk). cbn [get].
      rewrite assoc_set_prop. apply not_eq_sym, String.eqb_neq in Hk'.
      by rewrite Hk'. }
    split; [intros items0 H0 H1; rewrite Hitems0 in H0; by simplify_eq|].
    split.
    { intros its' H0. rewrite Hitems0 in H0. simplify_eq.
      exists items'. split; [done|].
      split; [cbn [get]; by rewrite assoc_set_prop, String.eqb_refl|].
      rewrite Hrd', <- Hrd1, orb_true_iff. by rewrite Hm1. }
    split.
    { intros [-> Hnone]%orb_false_elim. specialize (Hsame1 eq_refl). subst data.
      rewrite (mapM_transformItem_unmodified _ _ Hmap Hnone).
      by rewrite set_prop_same. }
    intros Hj. specialize (Hjson1 Hj).
    apply is_json_object_iff, json_props_set; [|by apply is_json_object_iff].
    apply is_json_array_intro. eapply mapM_transformItem_json; [|done].
    apply is_json_array.
    destruct (is_json_get _ _ _ Hjson1 Hitems) as [|]; [discriminate|done].
Qed.

(** *** What is written of an object *)

Lemma NoDup_set_prop k v ps : NoDup ps.*1 → NoDup (set_prop k v ps).*1.
Proof.
  intros Hnd. unfold set_prop. destruct (assoc k ps) eqn:E.
  - by rewrite replace_prop_keys.
  - rewrite add_prop_perm. cbn. apply NoDup_cons. split; [|done].
    by apply assoc_None_not_in.
Qed.

Lemma NoDup_spread base v : NoDup base.*1 → NoDup (spread_into base v).*1.
Proof.
  unfold spread_into. generalize (own_props v). intros ps. revert base.
  induction ps as [|[k e] ps IH]; intros base Hb; [done|].
  cbn. apply IH. by apply NoDup_set_prop.
Qed.

Lemma assoc_omap_json k ps :
  NoDup ps.*1 →
  default JUndefined
    (assoc k (omap (λ '(k, e), match e with
                               | JUndefined => None
                               | _ => Some (k, to_json e)
                               end) ps))
  = to_json (default JUndefined (assoc k ps)).
Proof.
  induction ps as [|[k0 e0] ps IH]; [done|]. cbn [fmap list_fmap fst].
  intros [Hk0 Hnd]%NoDup_cons. specialize (IH Hnd).
  assert (Hdrop : String.eqb k0 k = true →
            default JUndefined (assoc k (omap (λ '(k, e), match e with
                               | JUndefined => None
                               | _ => Some (k, to_json e)
                               end) ps)) = JUndefined).
  { intros ->%String.eqb_eq. rewrite IH.
    by apply assoc_None_not_in in Hk0 as ->. }
  destruct e0; cbn [omap list_omap assoc];
    destruct (String.eqb k0 k) eqn:E; auto.
Qed.

(** Reading a property of a written object. *)
Lemma get_to_json k ps :
  NoDup ps.*1 → get k (to_json (JObj ps)) = to_json <$> get k (JObj ps).
Proof.
  intros Hnd. cbn [to_json get fmap result_fmap]. f_equal.
  by apply assoc_omap_json.
Qed.

Lemma to_json_id_or_undefined v :
  v = JUndefined ∨ is_json v = true → finite_numbers v = true → to_json v = v.
Proof. intros [->|H] Hf; [done|by apply to_json_id]. Qed.

Lemma own_props_values_json v k e :
  is_json v = true → assoc k (own_props v) = Some e → is_json e = true.
Proof.
  intros [_ H]%json_props_own. induction H as [|[k0 e0] ps H0 H IH]; [done|].
  cbn. destruct (String.eqb k0 k); [by intros [= <-]|done].
Qed.

(** *** Finite numbers stay finite *)

Definition finite_props (ps : list (string * value)) : Prop :=
  Forall (λ kv, finite_numbers kv.2 = true) ps.

Lemma finite_props_set k v ps :
  finite_numbers v = true → finite_props ps → finite_props (set_prop k v ps).
Proof.
  intros Hv H. unfold finite_props, set_prop. destruct (assoc k ps).
  - by apply (replace_prop_values (λ e, finite_numbers e = true)).
  - rewrite add_prop_perm. by constructor.
Qed.

Lemma finite_props_own v : finite_numbers v = true → finite_props (own_props v).
Proof.
  intros Hv. destruct v as [| | | |s|es|ps]; try constructor.
  - apply Forall_forall. intros [k e] [i [x [[= -> ->] Hx]]]%elem_of_lookup_imap.
    cbn. revert i Hx.
    induction s as [|c s IH]; intros [|i] Hx; simplify_eq/=; eauto.
  - apply finite_numbers_array in Hv.
    apply Forall_forall. intros [k e] [i [x [[= -> ->] Hx]]]%elem_of_lookup_imap.
    cbn. apply (proj1 (Forall_forall _ _) Hv). by eapply list_elem_of_lookup_2.
  - by apply finite_numbers_object.
Qed.

Lemma finite_props_spread base v :
  finite_props base → finite_numbers v = true → finite_props (spread_into base v).
Proof.
  intros Hb Hv%finite_props_own. unfold spread_into. revert base Hb.
  induction Hv as [|[k e] ps He H IH]; intros base Hb; [done|].
  cbn. apply IH. by apply finite_props_set.
Qed.

Lemma finite_get k v w :
  finite_numbers v = true → get k v = Ok w → finite_numbers w = true.
Proof.
  destruct v as [| | | | | |ps]; cbn [get]; try (intros _ [= <-]; done);
    try discriminate.
  intros H%finite_numbers_object [= <-].
  induction H as [|[k0 e0] ps H0 H IH]; [done|]. cbn.
  by destruct (String.eqb k0 k).
Qed.

Lemma transformItem_finite item item' m :
  PostBuild.transformItem item = Ok (item', m) →
  finite_numbers item = true → finite_numbers item' = true.
Proof.
  rewrite transformItem_step. intros H Hf.
  destruct (get "registryDependencies" item) as [deps|]; [|discriminate].
  cbn [mbind result_bind] in H.
  destruct (step_Ok _ _ _ _ H) as [[[= -> ->] _]|[ds [-> [_ [= -> ->]]]]]; [done|].
  apply finite_numbers_object, finite_props_set; [apply finite_numbers_strings|].
  apply finite_props_spread; [constructor|done].
Qed.

Lemma mapM_transformItem_finite its items' :
  Forall (λ e, finite_numbers e = true) its →
  mapM PostBuild.transformItem its = Ok items' →
  Forall (λ e, finite_numbers e = true) items'.*1.
Proof.
  intros Hf. revert items'. induction Hf as [|it its Hit Hf IH]; intros items'.
  - intros [= <-]. constructor.
  - rewrite mapM_cons.
    destruct (PostBuild.transformItem it) as [[it' b]|] eqn:Hit'; [|discriminate].
    cbn [mbind result_bind].
    destruct (mapM PostBuild.transformItem its) as [k|]; [|discriminate].
    cbn [mbind result_bind]. intros [= <-]. cbn. constructor; [|by apply IH].
    by eapply transformItem_finite.
Qed.

(** The transformation of a document brings in no number. *)
Lemma transformData_finite data data' m :
  PostBuild.transformData data = Ok (data', m) →
  finite_numbers data = true → finite_numbers data' = true.
Proof.
  intros (deps & d1 & m1 & items & Hdeps & Hstep & Hitems & Hcases)%transformData_Ok
    Hf.
  assert (Hf1 : finite_numbers d1 = true).
  { destruct (step_Ok _ _ _ _ Hstep) as [[[= -> ->] _]|[ds [-> [_ [= -> ->]]]]];
      [done|].
    apply get_array_inv in Hdeps as [ps [-> _]].
    cbn [PostBuild.assign].
    apply finite_numbers_object, finite_props_set; [apply finite_numbers_strings|].
    by apply finite_numbers_object. }
  destruct Hcases as [(_ & -> & _)|(its & items' & -> & Hmap & -> & _)]; [done|].
  pose proof (finite_get _ _ _ Hf1 Hitems) as Hits.
  apply get_array_inv in Hitems as [ps1 [-> _]]. cbn [PostBuild.assign].
  apply finite_numbers_object, finite_props_set;
    [|by apply finite_numbers_object].
  apply finite_numbers_array. eapply mapM_transformItem_finite; [|done].
  by apply finite_numbers_array.
Qed.

(** ** Running the transformer on a file *)

(** A caught error: logged with the file and the error, nothing else done. *)
Definition logged (filePath : string) (e : exn) (fs : filesystem) : outcome bool :=
  mk_outcome (Ok false) fs [Console (ErrorProcessing filePath e)].

Lemma read_file_error p fs e : read_file p fs = Throw e → ∃ code, e = SystemError code.
Proof.
  unfold read_file. destruct (bool_decide _); [intros [= <-]; eauto|].
  destruct (files fs !! p); [discriminate|]. intros [= <-]. eauto.
Qed.

Lemma get_error k v e : get k v = Throw e → e = TypeError.
Proof. destruct v; cbn; congruence. Qed.

Lemma transformDeps_error deps e :
  PostBuild.transformDeps deps = Throw e → e = TypeError.
Proof.
  unfold PostBuild.transformDeps.
  destruct (negb (truthy deps) || negb (Array_isArray deps)); [discriminate|].
  destruct (mapM _ (array_elements deps)) as [k|e'] eqn:E; [discriminate|].
  cbn. intros [= <-]. revert E. generalize (array_elements deps). intros es.
  induction es as [|x es IH]; [discriminate|]. rewrite mapM_cons.
  destruct x as [| | | |d| |]; try by intros [= <-].
  rewrite transformer_callback_string. cbn [mbind result_bind].
  destruct (mapM _ es) as [k|]; [discriminate|]. cbn. intros [= <-]. by apply IH.
Qed.

Lemma step_error {A} deps (orig : A) build e :
  step deps orig build = Throw e → e = TypeError.
Proof.
  unfold step. destruct (truthy deps); [|discriminate].
  destruct (PostBuild.transformDeps deps) as [t|e'] eqn:E.
  - cbn. by destruct (PostBuild.stringify_differs t deps).
  - cbn. intros [= <-]. by eapply transformDeps_error.
Qed.

Lemma transformItem_error item e :
  PostBuild.transformItem item = Throw e → e = TypeError.
Proof.
  rewrite transformItem_step.
  destruct (get "registryDependencies" item) as [deps|e'] eqn:E; cbn.
  - apply step_error.
  - intros [= <-]. by eapply get_error.
Qed.

Lemma mapM_error {A B} (f : A → result B) l e :
  mapM f l = Throw e → ∃ x, x ∈ l ∧ f x = Throw e.
Proof.
  induction l as [|x l IH]; [discriminate|]. rewrite mapM_cons.
  destruct (f x) as [y|e'] eqn:E; cbn.
  - destruct (mapM f l) as [k|e'']; [discriminate|]. cbn. intros [= <-].
    destruct (IH eq_refl) as [x' [? ?]]. exists x'. split; [by right|done].
  - intros [= <-]. exists x. split; [by left|done].
Qed.

Lemma transformData_error data e :
  PostBuild.transformData data = Throw e → e = TypeError.
Proof.
  rewrite transformData_step.
  destruct (get "registryDependencies" data) as [deps|e'] eqn:E; cbn;
    [|intros [= <-]; by eapply get_error].
  destruct (step deps data _) as [[d1 m1]|e'] eqn:Es; cbn;
    [|intros [= <-]; by eapply step_error].
  destruct (get "items" d1) as [items|e'] eqn:Ei; cbn;
    [|intros [= <-]; by eapply get_error].
  destruct (truthy items && Array_isArray items); [|discriminate].
  destruct (mapM _ _) as [k|e'] eqn:Em; [discriminate|]. cbn. intros [= <-].
  apply mapM_error in Em as [x [_ Hx]]. by eapply transformItem_error.
Qed.

(** A modified document is an object. *)
Lemma transformData_modified_object data data' :
  PostBuild.transformData data = Ok (data', true) → ∃ ps, data' = JObj ps.
Proof.
  intros (deps & d1 & m1 & items & Hdeps & Hstep & Hitems & Hcases)%transformData_Ok.
  destruct Hcases as [(Harr & -> & <-)|(its & items' & -> & Hmap & -> & _)].
  - destruct (step_Ok _ _ _ _ Hstep) as [[[=] _]|[ds [-> [_ [= ->]]]]].
    apply get_array_inv in Hdeps as [ps [-> _]]. cbn. eauto.
  - apply get_array_inv in Hitems as [ps [-> _]]. cbn. eauto.
Qed.

(** [processFile], case by case. *)
Lemma processFile_run filePath fs :
  PostBuild.processFile filePath fs =
  match read_file filePath fs with
  | Throw e => logged filePath e fs
  | Ok (Text _) => logged filePath SyntaxError fs
  | Ok (Json data) =>
      match PostBuild.transformData data with
      | Throw e => logged filePath e fs
      | Ok (data', false) => mk_outcome (Ok false) fs []
      | Ok (data', true) =>
          if bool_decide (filePath ∈ unwritable fs) then
            logged filePath (SystemError "EACCES") fs
          else
            mk_outcome (Ok true) (store filePath (Json (to_json data')) fs)
              [WriteFile filePath (Json (to_json data'))]
      end
  end.
Proof.
  unfold PostBuild.processFile, try_catch, logged, mbind, M_bind,
    fs_readFileSync, lift.
  cbn [returned disk emitted].
  destruct (read_file filePath fs) as [[data|t]|e] eqn:Hread.
  - cbn [JSON_parse returned disk emitted].
    destruct (PostBuild.transformData data) as [[data' []]|e] eqn:Ht.
    + destruct (transformData_modified_object _ _ Ht) as [ps ->].
      cbn. unfold fs_writeFileSync.
      destruct (bool_decide (filePath ∈ unwritable fs)); reflexivity.
    + reflexivity.
    + apply transformData_error in Ht as ->. reflexivity.
  - reflexivity.
  - apply read_file_error in Hread as [code ->]. reflexivity.
Qed.

Lemma existsb_snd_lookup (l : list (value * bool)) :
  existsb snd l = true ↔ ∃ i x, l !! i = Some (x, true).
Proof.
  induction l as [|[x b] l IH]; cbn.
  - split; [discriminate|]. by intros (i & x & ?).
  - rewrite orb_true_iff, IH. split.
    + intros [->|(i & y & Hy)]; [by exists 0, x|by exists (S i), y].
    + intros ([|i] & y & Hy); simplify_eq/=; eauto.
Qed.

(** C7. When the transformer processes a parsed document, only the
    [registryDependencies] field of the root and of each element of [items]
    is rewritten (by the rewriter); every other field of the document and
    every other attribute of each item is as it was; the document counts as
    modified, and the file is written, if and only if the value of at least
    one [registryDependencies] field changed. The file is written with the
    document as [JSON.stringify] prints it: each field reads back as the
    printed field of the document, which is the document itself when all
    the numbers of the input are finite (a number that is not finite is
    printed as [null]). *)
Theorem transformer_frame (filePath : string) (fs : filesystem)
    (data data' : value) (modified : bool) :
  read_file filePath fs = Ok (Json data) →
  is_json data = true →
  PostBuild.transformData data = Ok (data', modified) →
  (* the root *)
  get "registryDependencies" data'
    = (get "registryDependencies" data ≫= PostBuild.transformDeps) ∧
  (∀ k, k ≠ "registryDependencies" → k ≠ "items" → get k data' = get k data) ∧
  (∀ items, get "items" data = Ok items → Array_isArray items = false →
            get "items" data' = Ok items) ∧
  (* the items *)
  (∀ its, get "items" data = Ok (JArr its) →
     ∃ its', get "items" data' = Ok (JArr its') ∧ length its' = length its ∧
       ∀ i it, its !! i = Some it →
         ∃ it', its' !! i = Some it' ∧
           get "registryDependencies" it'
             = (get "registryDependencies" it ≫= PostBuild.transformDeps) ∧
           ∀ k, k ≠ "registryDependencies" → get k it' = get k it) ∧
  (* modified exactly when a field changed *)
  (modified = true ↔
     get "registryDependencies" data' ≠ get "registryDependencies" data ∨
     ∃ its its' i it it',
       get "items" data = Ok (JArr its) ∧ get "items" data' = Ok (JArr its') ∧
       its !! i = Some it ∧ its' !! i = Some it' ∧
       get "registryDependencies" it' ≠ get "registryDependencies" it) ∧
  (modified = false → data' = data) ∧
  (* the comparison of the texts is the comparison of the values *)
  (∀ deps t, PostBuild.transformDeps deps = Ok t →
             PostBuild.stringify_differs t deps = true ↔ t ≠ deps) ∧
  (* written exactly when modified, as [JSON.stringify] prints the document *)
  (filePath ∉ unwritable fs →
   PostBuild.processFile filePath fs
   = mk_outcome (Ok modified)
       (if modified then store filePath (Json (to_json data')) fs else fs)
       (if modified then [WriteFile filePath (Json (to_json data'))] else [])) ∧
  (* what is read back from the file that was written *)
  (modified = true →
   is_json (to_json data') = true ∧
   ∀ k, get k (to_json data') = to_json <$> get k data') ∧
  (* printing changes nothing when the numbers are finite *)
  (finite_numbers data = true → to_json data' = data').
Proof.
  intros Hread Hjson Ht.
  destruct (transformData_spec _ _ _ Ht)
    as (Hrd & Hframe & Hitems_other & Hitems & Hsame & Hjson').
  split; [done|]. split; [done|]. split; [done|].
  assert (Hitem_spec : ∀ its items' i it,
    get "items" data = Ok (JArr its) →
    mapM PostBuild.transformItem its = Ok items' →
    its !! i = Some it →
    ∃ it' b, items' !! i = Some (it', b) ∧
             PostBuild.transformItem it = Ok (it', b) ∧
             NoDup (own_props it).*1).
  { intros its items' i it Hits Hmap Hit.
    destruct (mapM_lookup _ _ _ _ _ Hmap Hit) as [[it' b] [Hy Hit']].
    exists it', b. split; [done|]. split; [done|].
    apply is_json_well_keyed.
    destruct (is_json_get _ _ _ Hjson Hits) as [|Hj]; [discriminate|].
    apply is_json_array in Hj.
    apply (proj1 (Forall_forall _ _) Hj). by eapply list_elem_of_lookup_2. }
  split.
  { intros its Hits. destruct (Hitems its Hits) as (items' & Hmap & Hget & _).
    exists items'.*1. split; [done|].
    split; [by rewrite length_fmap; eapply mapM_length|].
    intros i it Hit.
    destruct (Hitem_spec _ _ _ _ Hits Hmap Hit) as (it' & b & Hy & Hit' & Hnd).
    exists it'. split; [by rewrite list_lookup_fmap, Hy|].
    destruct (transformItem_spec _ _ _ Hit') as (Hrd' & Hfr & _).
    split; [done|]. by apply Hfr. }
  split.
  { destruct (get "items" data) as [items|] eqn:Hget_items.
    2:{ (* the read of [items] cannot fail when the transformation succeeds *)
        apply transformData_Ok in Ht
          as (deps & d1 & m1 & items & Hdeps & Hstep & Hi & _).
        destruct (root_step_spec _ _ _ _ Hdeps Hstep) as (_ & Hfr1 & _).
        rewrite Hfr1 in Hi by done. congruence. }
    destruct (Array_isArray items) eqn:Harr.
    - destruct items as [| | | | |its|]; try discriminate.
      destruct (Hitems its eq_refl) as (items' & Hmap & Hget & Hm).
      rewrite Hm. split.
      + intros [?|Hex]; [by left|right].
        apply existsb_snd_lookup in Hex as (i & it' & Hi).
        assert (∃ it, its !! i = Some it) as [it Hit].
        { apply lookup_lt_is_Some. rewrite <- (mapM_length _ _ _ Hmap).
          by eapply lookup_lt_Some. }
        destruct (Hitem_spec _ _ _ _ eq_refl Hmap Hit) as (it'' & b & Hy & Hit' & _).
        simplify_eq. exists its, items'.*1, i, it, it'.
        do 2 (split; [done|]). split; [done|].
        split; [by rewrite list_lookup_fmap, Hi|].
        by apply (transformItem_spec _ _ _ Hit').
      + intros [?|(its0 & its' & i & it & it' & Hits0 & Hget' & Hit & Hit'' & Hne)];
          [by left|right].
        rewrite Hget in Hget'. simplify_eq.
        destruct (Hitem_spec _ _ _ _ eq_refl Hmap Hit) as (it'' & b & Hy & Hit' & _).
        rewrite list_lookup_fmap, Hy in Hit''. simplify_eq/=.
        apply existsb_snd_lookup. exists i, it'. rewrite Hy. do 2 f_equal.
        by apply (transformItem_spec _ _ _ Hit').
    - apply transformData_Ok in Ht
        as (deps & d1 & m1 & items0 & Hdeps & Hstep & Hi & Hcases).
      destruct (root_step_spec _ _ _ _ Hdeps Hstep) as (_ & Hfr1 & Hm1 & _).
      rewrite Hfr1, Hget_items in Hi by done. injection Hi as <-.
      destruct Hcases as [(_ & -> & ->)|(its & ? & Heq & _)];
        [|by rewrite Heq in Harr].
      rewrite Hm1. split; [by left|].
      intros [?|(its0 & ? & ? & ? & ? & Heq & _)]; [done|].
      injection Heq as ->. discriminate Harr. }
  split; [done|].
  split; [apply stringify_differs_iff|].
  split.
  { intros Hw. rewrite processFile_run, Hread, Ht.
    destruct modified; [|done].
    by rewrite bool_decide_eq_false_2 by done. }
  split.
  { intros ->. split; [by apply to_json_is_json, Hjson'|].
    destruct (transformData_modified_object _ _ Ht) as [ps ->].
    intros k. apply get_to_json. by apply is_json_object in Hjson' as [? _]. }
  intros Hf. apply to_json_id; [by apply Hjson'|by eapply transformData_finite].
Qed.

(** ** Running the transformer over the files found *)

(** The document that [processFile] writes to a file, if it writes. *)
Definition rewrite_for (p : string) (fs : filesystem) : option value :=
  match read_file p fs with
  | Ok (Json data) =>
      match PostBuild.transformData data with
      | Ok (data', true) =>
          if bool_decide (p ∈ unwritable fs) then None else Some data'
      | _ => None
      end
  | _ => None
  end.

(** Every document on the disk is a parsed JSON text. *)
Definition json_disk (fs : filesystem) : Prop :=
  ∀ p d, files fs !! p = Some (Json d) → is_json d = true.

Definition is_error_log (e : event) : Prop :=
  ∃ p err, e = Console (ErrorProcessing p err).

Lemma processFile_cases p fs :
  let o := PostBuild.processFile p fs in
  match rewrite_for p fs with
  | Some d' =>
      o = mk_outcome (Ok true) (store p (Json (to_json d')) fs)
            [WriteFile p (Json (to_json d'))]
  | None =>
      returned o = Ok false ∧ disk o = fs ∧ Forall is_error_log (emitted o)
  end.
Proof.
  cbv zeta. rewrite processFile_run. unfold rewrite_for, logged.
  destruct (read_file p fs) as [[data|t]|e]; cbn;
    try (repeat split; repeat constructor; by eexists _, _).
  destruct (PostBuild.transformData data) as [[data' []]|e]; cbn;
    try (repeat split; repeat constructor; by eexists _, _).
  destruct (bool_decide (p ∈ unwritable fs)); cbn;
    try (repeat split; repeat constructor; by eexists _, _).
Qed.

Lemma read_file_store_ne p q x fs :
  q ≠ p → read_file q (store p x fs) = read_file q fs.
Proof. intros Hne. unfold read_file, store. cbn. by rewrite lookup_insert_ne. Qed.

Lemma rewrite_for_store_ne p q x fs :
  q ≠ p → rewrite_for q (store p x fs) = rewrite_for q fs.
Proof. intros Hne. unfold rewrite_for. by rewrite read_file_store_ne. Qed.

Lemma read_file_json_disk p fs d :
  json_disk fs → read_file p fs = Ok (Json d) → is_json d = true.
Proof.
  intros Hj. unfold read_file. destruct (bool_decide _); [discriminate|].
  destruct (files fs !! p) as [x|] eqn:E; [|discriminate].
  intros [= ->]. by eapply Hj.
Qed.

Lemma rewrite_for_json p fs d' :
  json_disk fs → rewrite_for p fs = Some d' → is_json d' = true.
Proof.
  intros Hj. unfold rewrite_for.
  destruct (read_file p fs) as [[data|]|] eqn:Hr; try discriminate.
  destruct (PostBuild.transformData data) as [[d'' []]|] eqn:Ht; try discriminate.
  destruct (bool_decide _); [discriminate|]. intros [= ->].
  apply (transformData_spec _ _ _ Ht). by eapply read_file_json_disk.
Qed.

(** A list of dependencies that the transformer leaves as it is. *)
Definition settled (deps : value) : Prop :=
  truthy deps = false ∨ PostBuild.transformDeps deps = Ok deps.

Lemma transformItem_settled item deps :
  get "registryDependencies" item = Ok deps → settled deps →
  PostBuild.transformItem item = Ok (item, false).
Proof.
  intros Hdeps Hs. rewrite transformItem_step, Hdeps. cbn [mbind result_bind].
  by apply step_settled.
Qed.

Lemma transformData_settled data deps items :
  get "registryDependencies" data = Ok deps → settled deps →
  get "items" data = Ok items →
  Array_isArray items = false ∨
  (∃ its, items = JArr its ∧
          Forall (λ it, PostBuild.transformItem it = Ok (it, false)) its) →
  PostBuild.transformData data = Ok (data, false).
Proof.
  intros Hdeps Hs Hitems Hcases. rewrite transformData_step, Hdeps.
  cbn [mbind result_bind]. rewrite step_settled by done.
  cbn [mbind result_bind fst snd]. rewrite Hitems. cbn [mbind result_bind].
  destruct Hcases as [Harr|(its & -> & Hits)].
  - by rewrite Harr, andb_false_r.
  - cbn [truthy Array_isArray andb array_elements].
    rewrite (mapM_pure _ (λ it, (it, false)) its)
      by (intros x Hx; by apply (proj1 (Forall_forall _ _) Hits)).
    cbn [mbind result_bind]. rewrite fst_pair_false, existsb_snd_false.
    apply get_array_inv in Hitems as (ps & -> & Hps). cbn [PostBuild.assign].
    by rewrite set_prop_same.
Qed.

Lemma to_json_array v : Array_isArray (to_json v) = Array_isArray v.
Proof. destruct v as [| | |r| | |]; try done. cbn. by destruct (finite r). Qed.

Lemma settled_not_array deps : Array_isArray deps = false → settled deps.
Proof. intros H. right. by destruct (guarded_rewriters_not_array deps H). Qed.

Lemma settled_rewritten ds : settled (JArr (JStr <$> (rewritten <$> ds))).
Proof. right. apply rewritten_settled. Qed.

Lemma to_json_strings ds : to_json (JArr (JStr <$> ds)) = JArr (JStr <$> ds).
Proof. apply to_json_id; [apply is_json_strings|apply finite_numbers_strings]. Qed.

(** What is settled is still settled when it has been written and read. *)
Lemma settled_to_json deps : settled deps → settled (to_json deps).
Proof.
  intros [Hf|Ht].
  - left. destruct deps as [| | |r| | |]; try done. cbn [to_json].
    by destruct (finite r).
  - destruct (transformDeps_Ok _ _ Ht) as [[Harr _]|[ds [-> _]]].
    + apply settled_not_array. by rewrite to_json_array.
    + rewrite to_json_strings. by right.
Qed.

Lemma transformItem_unmodified_settled item :
  PostBuild.transformItem item = Ok (item, false) →
  ∃ deps, get "registryDependencies" item = Ok deps ∧ settled deps.
Proof.
  rewrite transformItem_step.
  destruct (get "registryDependencies" item) as [deps|]; [|discriminate].
  cbn [mbind result_bind]. intros H. exists deps. split; [done|].
  by destruct (step_Ok _ _ _ _ H) as [[_ Hs]|[ds [_ [_ [=]]]]].
Qed.

(** An item that the transformer leaves as it is, written and read: the
    transformer leaves it as it is, unless it fails on it. *)
Lemma transformItem_written item r :
  is_json item = true →
  PostBuild.transformItem item = Ok (item, false) →
  PostBuild.transformItem (to_json item) = Ok r → r = (to_json item, false).
Proof.
  intros Hj (deps & Hdeps & Hs)%transformItem_unmodified_settled.
  destruct item as [| |b|n|s|es|ps]; try discriminate.
  - by intros [= <-].
  - cbn [to_json]. destruct (finite n); [by intros [= <-]|discriminate].
  - by intros [= <-].
  - by intros [= <-].
  - apply is_json_object in Hj as [Hnd _].
    rewrite (transformItem_settled (to_json (JObj ps)) (to_json deps)).
    + by intros [= <-].
    + by rewrite get_to_json, Hdeps.
    + by apply settled_to_json.
Qed.

Lemma mapM_transformItem_written its items :
  Forall (λ it, is_json it = true) its →
  Forall (λ it, PostBuild.transformItem it = Ok (it, false)) its →
  mapM PostBuild.transformItem (to_json <$> its) = Ok items →
  items = (λ it, (it, false)) <$> (to_json <$> its).
Proof.
  intros Hj. revert items. induction Hj as [|it its Hit Hj IH]; intros items.
  - by intros _ [= <-].
  - intros [H0 H]%Forall_cons. rewrite fmap_cons, mapM_cons.
    destruct (PostBuild.transformItem (to_json it)) as [r|] eqn:E;
      [|discriminate].
    apply transformItem_written in E as ->; [|done..].
    cbn [mbind result_bind].
    destruct (mapM PostBuild.transformItem (to_json <$> its)) as [k|];
      [|discriminate].
    cbn [mbind result_bind]. intros [= <-]. by rewrite (IH k).
Qed.

Lemma mapM_transformItem_unmodified_all its items' :
  mapM PostBuild.transformItem its = Ok items' →
  existsb snd items' = false →
  Forall (λ it, PostBuild.transformItem it = Ok (it, false)) its.
Proof.
  revert items'. induction its as [|it its IH]; intros items'; [constructor|].
  rewrite mapM_cons.
  destruct (PostBuild.transformItem it) as [[it' b]|] eqn:Hit; [|discriminate].
  cbn [mbind result_bind].
  destruct (mapM PostBuild.transformItem its) as [k|]; [|discriminate].
  cbn [mbind result_bind]. intros [= <-]. cbn.
  intros [-> H]%orb_false_elim.
  constructor; [|by eapply IH].
  by rewrite Hit, (transformItem_unmodified _ _ Hit).
Qed.

(** A document that the transformer leaves as it is, written and read: the
    transformer leaves it as it is, unless it fails on it. *)
Lemma transformData_written ps r :
  is_json (JObj ps) = true →
  PostBuild.transformData (JObj ps) = Ok (JObj ps, false) →
  PostBuild.transformData (to_json (JObj ps)) = Ok r →
  r = (to_json (JObj ps), false).
Proof.
  intros Hj Ht.
  pose proof Hj as [Hnd _]%is_json_object.
  destruct (transformData_Ok _ _ _ Ht)
    as (deps & d1 & m1 & items & Hdeps & Hstep & Hitems & Hcases).
  assert (m1 = false ∧ d1 = JObj ps ∧ settled deps) as (-> & -> & Hs).
  { assert (m1 = false) as ->.
    { destruct Hcases as [(_ & _ & <-)|(? & ? & _ & _ & _ & Hm)]; [done|].
      symmetry in Hm. by apply orb_false_elim in Hm as [? _]. }
    by destruct (step_Ok _ _ _ _ Hstep) as [[[= ->] ?]|[ds [_ [_ [=]]]]]. }
  rewrite transformData_step, get_to_json, Hdeps by done.
  cbn [fmap result_fmap mbind result_bind].
  rewrite step_settled by (by apply settled_to_json).
  cbn [mbind result_bind fst snd].
  rewrite get_to_json, Hitems by done. cbn [fmap result_fmap mbind result_bind].
  destruct Hcases as [(Harr & _ & _)|(its & items' & -> & Hmap & _ & Hm)].
  - rewrite to_json_array, Harr, andb_false_r. by intros [= <-].
  - symmetry in Hm. apply orb_false_elim in Hm as [_ Hnone].
    assert (Hits : Forall (λ it, is_json it = true) its).
    { destruct (is_json_get _ _ _ Hj Hitems) as [|Hi]; [discriminate|].
      by apply is_json_array. }
    assert (Hget : get "items" (to_json (JObj ps)) = Ok (JArr (to_json <$> its))).
    { by rewrite get_to_json, Hitems, <- to_json_elements. }
    rewrite to_json_elements by done.
    cbn [truthy Array_isArray andb array_elements].
    destruct (mapM PostBuild.transformItem (to_json <$> its)) as [k|] eqn:E;
      [|discriminate].
    apply mapM_transformItem_written in E as ->;
      [|done|by eapply mapM_transformItem_unmodified_all].
    cbn [mbind result_bind]. rewrite fst_pair_false, existsb_snd_false.
    intros [= <-]. f_equal.
    apply get_array_inv in Hget as (qs & Hq & Hqs).
    cbn [to_json] in Hq. injection Hq as <-.
    cbn [PostBuild.assign]. by rewrite set_prop_same.
Qed.

(** Once written, a file needs no further rewriting. *)
Lemma rewrite_for_store_eq p fs d' :
  json_disk fs → rewrite_for p fs = Some d' →
  rewrite_for p (store p (Json (to_json d')) fs) = None.
Proof.
  intros Hj Hp. pose proof (rewrite_for_json _ _ _ Hj Hp) as Hd'.
  revert Hp. unfold rewrite_for.
  destruct (read_file p fs) as [[data|]|] eqn:Hr; try discriminate.
  destruct (PostBuild.transformData data) as [[d'' []]|] eqn:Ht; try discriminate.
  destruct (bool_decide _); [discriminate|]. intros [= ->].
  assert (read_file p (store p (Json (to_json d')) fs) = Ok (Json (to_json d')))
    as ->.
  { revert Hr. unfold read_file, store. cbn.
    destruct (bool_decide (p ∈ unreadable fs)); [discriminate|].
    by rewrite lookup_insert_eq. }
  destruct (transformData_modified_object _ _ Ht) as [ps ->].
  destruct (PostBuild.transformData (to_json (JObj ps))) as [r|] eqn:E; [|done].
  apply transformData_written in E as ->;
    [done|done|by apply (transformData_idem _ _ _ Ht)].
Qed.

Lemma json_disk_store p d fs :
  is_json d = true → json_disk fs → json_disk (store p (Json d) fs).
Proof.
  intros Hd Hj q x. unfold store. cbn. rewrite lookup_insert.
  case_decide; [by intros [= <-]|apply Hj].
Qed.

Lemma M_bind_eq {A B} (m : M A) (f : A → M B) fs :
  (m ≫= f) fs =
  match returned (m fs) with
  | Ok a =>
      mk_outcome (returned (f a (disk (m fs)))) (disk (f a (disk (m fs))))
        (emitted (m fs) ++ emitted (f a (disk (m fs))))
  | Throw e => mk_outcome (Throw e) (disk (m fs)) (emitted (m fs))
  end.
Proof. reflexivity. Qed.

(** One step of the loop. *)
Lemma scan_step_run p n fs :
  PostBuild.scan_step n p fs =
  match rewrite_for p fs with
  | Some d' =>
      mk_outcome (Ok (S n)) (store p (Json (to_json d')) fs)
        [WriteFile p (Json (to_json d')); Console (FileTransformed p)]
  | None => mk_outcome (Ok n) fs (emitted (PostBuild.processFile p fs))
  end.
Proof.
  pose proof (processFile_cases p fs) as H. cbv zeta in H.
  unfold PostBuild.scan_step. rewrite M_bind_eq.
  destruct (PostBuild.processFile p fs) as [r d ev].
  cbn [returned disk emitted] in *.
  destruct (rewrite_for p fs) as [d'|].
  - injection H as -> -> ->. reflexivity.
  - destruct H as (-> & -> & _). cbn. by rewrite app_nil_r.
Qed.

Lemma scan_cons p l n fs :
  PostBuild.scan (p :: l) n fs =
  match rewrite_for p fs with
  | Some d' =>
      let o' := PostBuild.scan l (S n) (store p (Json (to_json d')) fs) in
      mk_outcome (returned o') (disk o')
        (WriteFile p (Json (to_json d')) :: Console (FileTransformed p)
           :: emitted o')
  | None =>
      let o' := PostBuild.scan l n fs in
      mk_outcome (returned o') (disk o')
        (emitted (PostBuild.processFile p fs) ++ emitted o')
  end.
Proof.
  change (PostBuild.scan (p :: l) n fs)
    with ((PostBuild.scan_step n p ≫= λ s', PostBuild.scan l s') fs).
  rewrite M_bind_eq, scan_step_run.
  destruct (rewrite_for p fs) as [d'|]; reflexivity.
Qed.

Lemma scan_nil n fs : PostBuild.scan [] n fs = mk_outcome (Ok n) fs [].
Proof. reflexivity. Qed.

(** The loop ends normally, whatever happens to the files. *)
Lemma scan_returns l n fs : ∃ m, returned (PostBuild.scan l n fs) = Ok m.
Proof.
  revert n fs. induction l as [|p l IH]; intros n fs; [by exists n|].
  rewrite scan_cons. destruct (rewrite_for p fs); cbn; apply IH.
Qed.

(** After the loop no file it went over needs rewriting, and neither does a
    file that needed none before. *)
Lemma scan_settles l n fs :
  json_disk fs →
  let o := PostBuild.scan l n fs in
  json_disk (disk o) ∧
  (∀ q, q ∈ l → rewrite_for q (disk o) = None) ∧
  (∀ q, rewrite_for q fs = None → rewrite_for q (disk o) = None).
Proof.
  revert n fs. induction l as [|p l IH]; intros n fs Hj; cbv zeta.
  - rewrite scan_nil. cbn. split; [done|]. split; [|done].
    by intros q ?%elem_of_nil.
  - rewrite scan_cons. destruct (rewrite_for p fs) as [d'|] eqn:Hp; cbn.
    + assert (Hj' : json_disk (store p (Json (to_json d')) fs)).
      { apply json_disk_store; [|done].
        by eapply to_json_is_json, rewrite_for_json. }
      destruct (IH (S n) _ Hj') as (Hj'' & Hin & Hkeep).
      split; [done|]. split.
      * intros q [->|Hq]%elem_of_cons; [|by apply Hin].
        apply Hkeep. by apply rewrite_for_store_eq.
      * intros q Hq. apply Hkeep.
        destruct (decide (q = p)) as [->|Hne]; [congruence|].
        by rewrite rewrite_for_store_ne.
    + destruct (IH n _ Hj) as (Hj'' & Hin & Hkeep).
      split; [done|]. split; [|done].
      intros q [->|Hq]%elem_of_cons; [by apply Hkeep|by apply Hin].
Qed.

(** Over files that need no rewriting the loop changes nothing. *)
Lemma scan_quiet l n fs :
  (∀ q, q ∈ l → rewrite_for q fs = None) →
  let o := PostBuild.scan l n fs in
  returned o = Ok n ∧ disk o = fs ∧ Forall is_error_log (emitted o).
Proof.
  revert n. induction l as [|p l IH]; intros n Hq; cbv zeta.
  - rewrite scan_nil. by repeat split.
  - rewrite scan_cons, Hq by left. cbn.
    destruct (IH n) as (Hr & Hd & He); [intros; apply Hq; by right|].
    split; [done|]. split; [done|].
    apply Forall_app. split; [|done].
    pose proof (processFile_cases p fs) as H. cbv zeta in H.
    rewrite Hq in H by left. apply H.
Qed.

Lemma main_run tree fs :
  PostBuild.main tree fs =
  match PostBuild.findJsonFiles OUTPUT_DIR tree with
  | Throw e => mk_outcome (Throw e) fs []
  | Ok jsonFiles =>
      let o := PostBuild.scan jsonFiles 0 fs in
      match returned o with
      | Ok n =>
          mk_outcome (Ok tt) (disk o) (emitted o ++ [Console (TransformedTotal n)])
      | Throw e => mk_outcome (Throw e) (disk o) (emitted o)
      end
  end.
Proof.
  unfold PostBuild.main. rewrite M_bind_eq. unfold lift. cbn [returned disk emitted].
  destruct (PostBuild.findJsonFiles OUTPUT_DIR tree) as [jsonFiles|e]; [|done].
  rewrite M_bind_eq. cbv zeta.
  destruct (PostBuild.scan jsonFiles 0 fs) as [[n|e] d ev]; reflexivity.
Qed.

(** C3. The transformation of a document is idempotent: applied to its own
    result it yields the same document and reports it as unmodified.  Hence
    a second run of the transformer over the output of a first run leaves
    the disk as it is, writes no file and reports no file as transformed:
    it prints errors at most, and the total 0. *)
Theorem transformer_idempotent :
  (∀ data data' modified,
     PostBuild.transformData data = Ok (data', modified) →
     PostBuild.transformData data' = Ok (data', false)) ∧
  (∀ tree fs, json_disk fs →
     let first := PostBuild.main tree fs in
     let second := PostBuild.main tree (disk first) in
     returned second = returned first ∧
     disk second = disk first ∧
     Forall (λ e, is_error_log e ∨ e = Console (TransformedTotal 0))
            (emitted second)).
Proof.
  split; [exact transformData_idem|].
  intros tree fs Hj. cbv zeta. rewrite !main_run.
  destruct (PostBuild.findJsonFiles OUTPUT_DIR tree) as [jsonFiles|e]; [|done].
  cbv zeta.
  destruct (scan_returns jsonFiles 0 fs) as [n Hn].
  destruct (scan_settles jsonFiles 0 fs Hj) as (_ & Hin & _).
  rewrite Hn. cbn [disk].
  destruct (scan_quiet jsonFiles 0 _ Hin) as (Hr & Hd & He).
  rewrite Hr. cbn [returned disk emitted]. split; [done|]. split; [done|].
  apply Forall_app. split.
  - eapply Forall_impl; [exact He|]. intros; by left.
  - constructor; [by right|constructor].
Qed.

(** ** Errors during a run of the transformer *)

Lemma collect_error {A} (f : A → result (list string)) l e :
  PostBuild.collect f l = Throw e → ∃ x, x ∈ l ∧ f x = Throw e.
Proof.
  induction l as [|x l IH]; [discriminate|]. cbn.
  destruct (f x) as [found|e'] eqn:E.
  - destruct (PostBuild.collect f l) as [more|e'']; [discriminate|].
    intros [= <-]. destruct (IH eq_refl) as [x' [? ?]].
    exists x'. split; [by right|done].
  - intros [= <-]. exists x. split; [by left|done].
Qed.

Lemma dirent_nested_ind (P : dirent → Prop) :
  (∀ name, P (DFile name)) →
  (∀ name, P (DDir name None)) →
  (∀ name below, Forall P below → P (DDir name (Some below))) →
  ∀ entry, P entry.
Proof.
  intros Hf Hn Hd. fix IH 1. intros [name|name [below|]];
    [apply Hf|apply Hd|apply Hn].
  revert below. fix IHb 1. intros [|e below]; constructor; [apply IH|apply IHb].
Qed.

(** The enumeration fails with the error of a listing only. *)
Lemma visit_error entry dir e :
  PostBuild.visit dir entry = Throw e → ∃ code, e = SystemError code.
Proof.
  revert dir. induction entry as [name|name|name below IH] using dirent_nested_ind;
    intros dir; cbn.
  - by destruct (endsWith ".json" name).
  - destruct (negb (String.eqb name "registry")); [|discriminate].
    intros [= <-]. eauto.
  - destruct (negb (String.eqb name "registry")); [|discriminate].
    intros [x [Hx Hv]]%collect_error.
    by apply (proj1 (Forall_forall _ _) IH x Hx (path_join dir name)).
Qed.

Lemma findJsonFiles_error dir tree e :
  PostBuild.findJsonFiles dir tree = Throw e → ∃ code, e = SystemError code.
Proof.
  destruct tree as [entries|]; cbn; [|intros [= <-]; eauto].
  intros [x [_ Hv]]%collect_error. by eapply visit_error.
Qed.

(** What can go wrong with one file: reading it, parsing it, transforming
    the document, writing it back. *)
Inductive fails (filePath : string) (fs : filesystem) : exn → Prop :=
| fails_read e :
    read_file filePath fs = Throw e → fails filePath fs e
| fails_parse t :
    read_file filePath fs = Ok (Text t) → fails filePath fs SyntaxError
| fails_transform data e :
    read_file filePath fs = Ok (Json data) →
    PostBuild.transformData data = Throw e → fails filePath fs e
| fails_write data data' :
    read_file filePath fs = Ok (Json data) →
    PostBuild.transformData data = Ok (data', true) →
    filePath ∈ unwritable fs →
    fails filePath fs (SystemError "EACCES").

Lemma processFile_fails p fs e :
  fails p fs e → PostBuild.processFile p fs = logged p e fs.
Proof.
  rewrite processFile_run.
  intros [e' Hr|t Hr|data e' Hr Ht|data data' Hr Ht Hw]; rewrite Hr; try done.
  - by rewrite Ht.
  - rewrite Ht. by rewrite bool_decide_eq_true_2.
Qed.

Lemma fails_rewrite_for p fs e : fails p fs e → rewrite_for p fs = None.
Proof.
  unfold rewrite_for.
  intros [e' Hr|t Hr|data e' Hr Ht|data data' Hr Ht Hw]; rewrite Hr; try done.
  - by rewrite Ht.
  - rewrite Ht. by rewrite bool_decide_eq_true_2.
Qed.

Lemma scan_app l1 l2 n fs :
  PostBuild.scan (l1 ++ l2) n fs =
  let before := PostBuild.scan l1 n fs in
  match returned before with
  | Ok n1 =>
      let rest := PostBuild.scan l2 n1 (disk before) in
      mk_outcome (returned rest) (disk rest) (emitted before ++ emitted rest)
  | Throw e => mk_outcome (Throw e) (disk before) (emitted before)
  end.
Proof.
  revert n fs. induction l1 as [|p l1 IH]; intros n fs; cbv zeta.
  - change ([] ++ l2) with l2. rewrite !scan_nil. cbn [returned disk emitted app].
    by destruct (PostBuild.scan l2 n fs).
  - rewrite <- app_comm_cons, !scan_cons.
    destruct (rewrite_for p fs) as [d'|]; cbv zeta; rewrite IH; cbv zeta;
      cbn [returned disk emitted].
    + by destruct (returned (PostBuild.scan l1 _ _)).
    + destruct (returned (PostBuild.scan l1 _ _)); [|done].
      cbn [returned disk emitted]. by rewrite app_assoc.
Qed.

(** C8, as the code has it. An error on one file (reading, parsing,
    transforming, writing) is caught and logged with the file and the
    error, leaves the disk as it is and counts the file as not transformed;
    the loop goes on with the remaining files from the same state; and once
    the files are enumerated the run ends normally with status 0.  An error
    of the enumeration itself is not caught: it ends the run with status 1
    before any file is processed. *)
Theorem transformer_errors_are_local :
  (∀ p fs e, fails p fs e →
     PostBuild.processFile p fs
     = mk_outcome (Ok false) fs [Console (ErrorProcessing p e)]) ∧
  (∀ l1 p l2 n fs n1 e,
     returned (PostBuild.scan l1 n fs) = Ok n1 →
     fails p (disk (PostBuild.scan l1 n fs)) e →
     let before := PostBuild.scan l1 n fs in
     let rest := PostBuild.scan l2 n1 (disk before) in
     PostBuild.scan (l1 ++ p :: l2) n fs
     = mk_outcome (returned rest) (disk rest)
         (emitted before ++ Console (ErrorProcessing p e) :: emitted rest)) ∧
  (∀ tree jsonFiles fs,
     PostBuild.findJsonFiles OUTPUT_DIR tree = Ok jsonFiles →
     ∃ n, run (PostBuild.main tree) fs
          = (0%Z, disk (PostBuild.scan jsonFiles 0 fs),
             emitted (PostBuild.scan jsonFiles 0 fs)
               ++ [Console (TransformedTotal n)])) ∧
  (∀ tree e fs,
     PostBuild.findJsonFiles OUTPUT_DIR tree = Throw e →
     run (PostBuild.main tree) fs = (1%Z, fs, [])).
Proof.
  split; [exact processFile_fails|]. split; [|split].
  - intros l1 p l2 n fs n1 e Hn1 Hfails. cbv zeta.
    rewrite scan_app. cbv zeta. rewrite Hn1, scan_cons.
    rewrite (fails_rewrite_for _ _ _ Hfails), (processFile_fails _ _ _ Hfails).
    reflexivity.
  - intros tree jsonFiles fs Hfind. unfold run. rewrite main_run, Hfind. cbv zeta.
    destruct (scan_returns jsonFiles 0 fs) as [n Hn]. rewrite Hn. by exists n.
  - intros tree e fs Hfind. unfold run. rewrite main_run, Hfind.
    by apply findJsonFiles_error in Hfind as [code ->].
Qed.

(** A document that needs rewriting, beside a directory that cannot be
    listed. *)
Definition sample_document : value :=
  JObj [("name", JStr "coderabbit");
        ("registryDependencies", JArr [JStr "button"; JStr "coderabbit-types"]);
        ("items",
         JArr [JObj [("name", JStr "coderabbit-form");
                     ("registryDependencies",
                      JArr [JStr "coderabbit-client";
                            JStr "https://example.com/r/x.json"])];
               JObj [("name", JStr "plain")]])].

Definition sample_disk : filesystem :=
  mk_filesystem {[ "public/r/registry.json" := Json sample_document ]} ∅ ∅ ∅.

Definition sample_tree : option (list dirent) :=
  Some [DFile "registry.json"; DDir "locked" None].

(** The enumeration meets a directory that it cannot list: the run ends
    with status 1 and the file that needs rewriting is not processed. *)
Lemma enumeration_error_is_fatal :
  run (PostBuild.main sample_tree) sample_disk = (1%Z, sample_disk, []) ∧
  rewrite_for "public/r/registry.json" sample_disk ≠ None.
Proof. split; [reflexivity|]. vm_compute. discriminate. Qed.

(** The sample document after the transformation. *)
Definition sample_rewritten : value :=
  JObj [("name", JStr "coderabbit");
        ("registryDependencies",
         JArr [JStr "button";
               JStr "https://raw.githubusercontent.com/RMNCLDYO/coderabbit-shadcn-registry/main/public/r/coderabbit-types.json"]);
        ("items",
         JArr [JObj [("name", JStr "coderabbit-form");
                     ("registryDependencies",
                      JArr [JStr "https://raw.githubusercontent.com/RMNCLDYO/coderabbit-shadcn-registry/main/public/r/coderabbit-client.json";
                            JStr "https://example.com/r/x.json"])];
               JObj [("name", JStr "plain")]])].

Lemma transformer_frame_witness :
  PostBuild.processFile "public/r/registry.json" sample_disk
  = mk_outcome (Ok true)
      (store "public/r/registry.json" (Json sample_rewritten) sample_disk)
      [WriteFile "public/r/registry.json" (Json sample_rewritten)].
Proof.
  destruct (transformer_frame "public/r/registry.json" sample_disk
              sample_document sample_rewritten true)
    as (_ & _ & _ & _ & _ & _ & _ & Hwritten & _ & _).
  - vm_compute. reflexivity.
  - vm_compute. reflexivity.
  - vm_compute. reflexivity.
  - apply Hwritten. apply not_elem_of_empty.
Defined.

(** A document with a number too large for a double: [JSON.parse] reads the
    literal [1e999] as [Infinity], and [JSON.stringify] prints [Infinity] as
    [null]. *)
Definition overflow_document : value :=
  JObj [("version", JNum "Infinity");
        ("registryDependencies", JArr [JStr "coderabbit-types"])].

Definition overflow_disk : filesystem :=
  mk_filesystem {[ "public/r/registry.json" := Json overflow_document ]} ∅ ∅ ∅.

(** The transformer rewrites the dependencies of the document and writes the
    file; the field [version], which is no [registryDependencies] field, is
    [null] in the file that it wrote. *)
Lemma written_number_is_not_kept :
  is_json overflow_document = true ∧
  get "version" overflow_document = Ok (JNum "Infinity") ∧
  ∃ doc,
    files (disk (PostBuild.processFile "public/r/registry.json" overflow_disk))
      !! "public/r/registry.json" = Some (Json doc) ∧
    get "version" doc = Ok JNull.
Proof.
  split; [reflexivity|]. split; [reflexivity|].
  eexists. split; [vm_compute; reflexivity|reflexivity].
Qed.

(** ** The calls of the builders *)

(** The files that a run wrote, in order. *)
Definition written (evs : list event) : list (string * fdata) :=
  omap (λ e, match e with WriteFile p d => Some (p, d) | _ => None end) evs.

Lemma written_app evs evs' : written (evs ++ evs') = written evs ++ written evs'.
Proof. apply omap_app. Qed.

Lemma ensureDir_run dir fs :
  dir ∉ unwritable fs →
  ∃ fs' evs,
    ensureDir dir fs = mk_outcome (Ok tt) fs' evs ∧
    files fs' = files fs ∧ unreadable fs' = unreadable fs ∧
    unwritable fs' = unwritable fs ∧ dirs fs ⊆ dirs fs' ∧
    written evs = [] ∧ Forall (λ e, ∃ d, e = Mkdir d) evs.
Proof.
  intros Hw. unfold ensureDir. rewrite M_bind_eq. unfold fs_existsSync.
  cbn [returned disk emitted].
  destruct (bool_decide _ || bool_decide _).
  - exists fs, []. by repeat split.
  - unfold fs_mkdirSync. rewrite bool_decide_eq_false_2 by done.
    eexists _, _. split; [reflexivity|]. cbn.
    repeat split; try done; [set_solver|]. repeat constructor. by eexists.
Qed.

Lemma write_json_run p ps fs :
  p ∉ unwritable fs →
  write_json p (JObj ps) fs
  = mk_outcome (Ok tt) (store p (Json (to_json (JObj ps))) fs)
      [WriteFile p (Json (to_json (JObj ps)))].
Proof.
  intros Hw. unfold write_json, fs_writeFileSync.
  by rewrite bool_decide_eq_false_2.
Qed.

Lemma write_json_fails p v fs :
  p ∈ unwritable fs →
  write_json p v fs = mk_outcome (Throw (if v is JUndefined then TypeError else SystemError "EACCES")) fs [].
Proof.
  intros Hw. unfold write_json, fs_writeFileSync.
  destruct v; try done; by rewrite bool_decide_eq_true_2.
Qed.

Lemma lift_run {A} (r : result A) fs : lift r fs = mk_outcome r fs [].
Proof. reflexivity. Qed.

Lemma console_run m fs : console m fs = mk_outcome (Ok tt) fs [Console m].
Proof. reflexivity. Qed.

(** ** The Bundle Registry Builder *)

(** The two documents that the builder makes of a configuration. *)
Definition bundle_item (cfg : value) : value :=
  match Bundles.generateBundleJSON cfg with Ok v => v | Throw _ => JUndefined end.

Definition bundle_registry (backend : string) (cfg : value) : value :=
  match Bundles.createBundleRegistry backend [cfg] with
  | Ok v => v
  | Throw _ => JUndefined
  end.

Definition bundle_paths (backend : string) : string * string :=
  (path_join (path_join OUTPUT_DIR backend) "coderabbit.json",
   path_join (path_join OUTPUT_DIR backend) "registry.json").

Lemma buildBundle_run backend fs cfg item registry title label count :
  default JUndefined (assoc backend Bundles.BUNDLES) = cfg →
  Bundles.generateBundleJSON cfg = Ok (JObj item) →
  Bundles.createBundleRegistry backend [cfg] = Ok (JObj registry) →
  (t ← get "title" cfg; to_string t) = Ok title →
  (meta ← get "meta" cfg; b ← get "backend" meta; to_string b) = Ok label →
  (deps ← get "registryDependencies" cfg; n ← get_length deps; to_string n)
    = Ok count →
  unwritable fs = ∅ →
  ∃ fs' evs,
    Bundles.buildBundle backend fs = mk_outcome (Ok tt) fs' evs ∧
    unwritable fs' = ∅ ∧
    written evs = [((bundle_paths backend).1, Json (to_json (JObj item)));
                   ((bundle_paths backend).2, Json (to_json (JObj registry)))].
Proof.
  intros Hcfg Hitem Hreg Htitle Hlabel Hcount Hw.
  destruct (ensureDir_run (path_join OUTPUT_DIR backend) fs)
    as (fs1 & evs1 & Hdir & _ & _ & Hw1 & _ & Hwr1 & _).
  { rewrite Hw. apply not_elem_of_empty. }
  rewrite Hw in Hw1.
  unfold Bundles.buildBundle. rewrite Hcfg. cbv zeta.
  rewrite M_bind_eq, Hdir. cbn [returned disk emitted].
  rewrite M_bind_eq, lift_run, Hitem. cbn [returned disk emitted].
  rewrite M_bind_eq, write_json_run by (rewrite Hw1; apply not_elem_of_empty).
  cbn [returned disk emitted].
  rewrite M_bind_eq, lift_run, Hreg. cbn [returned disk emitted].
  rewrite M_bind_eq, write_json_run by (cbn; rewrite Hw1; apply not_elem_of_empty).
  cbn [returned disk emitted].
  rewrite M_bind_eq, console_run. cbn [returned disk emitted].
  rewrite M_bind_eq, lift_run, Htitle. cbn [returned disk emitted].
  rewrite M_bind_eq, console_run. cbn [returned disk emitted].
  rewrite M_bind_eq, lift_run, Hlabel. cbn [returned disk emitted].
  rewrite M_bind_eq, console_run. cbn [returned disk emitted].
  rewrite M_bind_eq, lift_run, Hcount. cbn [returned disk emitted].
  rewrite console_run. cbn [returned disk emitted].
  eexists _, _. split; [reflexivity|]. split; [done|].
  rewrite !written_app, Hwr1. reflexivity.
Qed.

Definition strings_of (es : list value) : list string :=
  omap (λ e, match e with JStr s => Some s | _ => None end) es.

Lemma rewritten_not_custom d : String.prefix "coderabbit-" (rewritten d) = false.
Proof.
  unfold rewritten. destruct (String.prefix "coderabbit-" d) eqn:E; [reflexivity|done].
Qed.

Lemma assoc_singleton_ne k k' v : k' ≠ k → assoc k [(k', v)] = None.
Proof. intros Hne%String.eqb_neq. cbn. by rewrite Hne. Qed.

(** What the builder makes of a configuration whose dependencies are
    strings. *)
Lemma bundle_item_spec cfg ds :
  NoDup (own_props cfg).*1 →
  get "registryDependencies" cfg = Ok (JArr (JStr <$> ds)) →
  Bundles.generateBundleJSON cfg = Ok (bundle_item cfg) ∧
  get "registryDependencies" (bundle_item cfg)
    = Ok (JArr (JStr <$> (rewritten <$> ds))) ∧
  (∀ k, k ≠ "registryDependencies" → k ≠ "$schema" →
        get k (bundle_item cfg) = get k cfg).
Proof.
  intros Hnd Hdeps. unfold bundle_item, Bundles.generateBundleJSON.
  rewrite Hdeps. cbn [mbind result_bind]. rewrite bundles_rewriter_strings.
  cbn [mbind result_bind]. split; [done|]. cbn [get].
  split; [by rewrite assoc_set_prop|].
  intros k Hk Hs. rewrite get_set_spread by done.
  rewrite assoc_singleton_ne by done.
  apply not_eq_sym, String.eqb_neq in Hk. rewrite Hk.
  apply get_array_inv in Hdeps as [ps [-> _]]. cbn [get own_props].
  by destruct (assoc k ps).
Qed.

Lemma bundle_registry_spec backend cfg ds :
  NoDup (own_props cfg).*1 →
  get "registryDependencies" cfg = Ok (JArr (JStr <$> ds)) →
  ∃ entry,
    Bundles.createBundleRegistry backend [cfg] = Ok (bundle_registry backend cfg) ∧
    bundle_registry backend cfg
    = JObj [("$schema", JStr "https://ui.shadcn.com/schema/registry.json");
            ("name", JStr "coderabbit");
            ("homepage", JStr "https://github.com/RMNCLDYO/coderabbit-shadcn-registry");
            ("items", JArr [entry])] ∧
    get "registryDependencies" entry = Ok (JArr (JStr <$> (rewritten <$> ds))) ∧
    (∀ k, k ≠ "registryDependencies" → get k entry = get k cfg).
Proof.
  intros Hnd Hdeps. unfold bundle_registry, Bundles.createBundleRegistry.
  rewrite mapM_cons, Hdeps. cbn [mbind result_bind].
  rewrite bundles_rewriter_strings. cbn [mbind result_bind mapM].
  eexists. split; [reflexivity|]. split; [reflexivity|]. cbn [get].
  split; [by rewrite assoc_set_prop|].
  intros k Hk. rewrite get_set_spread by done.
  apply not_eq_sym, String.eqb_neq in Hk. rewrite Hk.
  apply get_array_inv in Hdeps as [ps [-> _]]. cbn [get own_props assoc].
  by destruct (assoc k ps).
Qed.

(** The files that the builder writes for a backend. *)
Definition bundle_writes (backend : string) : list (string * fdata) :=
  let cfg := default JUndefined (assoc backend Bundles.BUNDLES) in
  [("public/r/" +:+ backend +:+ "/coderabbit.json", Json (bundle_item cfg));
   ("public/r/" +:+ backend +:+ "/registry.json",
    Json (bundle_registry backend cfg))].

Local Ltac run_bundle backend fs Hw :=
  let fs' := fresh "fs'" in
  let evs := fresh "evs" in
  let Hrun := fresh "Hrun" in
  let Hw' := fresh "Hw'" in
  let Hwr := fresh "Hwr" in
  edestruct (buildBundle_run backend fs) as (fs' & evs & Hrun & Hw' & Hwr);
    [reflexivity | vm_compute; reflexivity | vm_compute; reflexivity
    | vm_compute; reflexivity | vm_compute; reflexivity
    | vm_compute; reflexivity | exact Hw | ];
  exists fs', evs; split; [exact Hrun|]; split; [exact Hw'|];
  rewrite Hwr; vm_compute; reflexivity.

Lemma buildBundle_ok backend fs :
  backend ∈ Bundles.Object_keys Bundles.BUNDLES →
  unwritable fs = ∅ →
  ∃ fs' evs,
    Bundles.buildBundle backend fs = mk_outcome (Ok tt) fs' evs ∧
    unwritable fs' = ∅ ∧
    written evs = bundle_writes backend.
Proof.
  intros Hin Hw.
  assert (Hcases : backend = "localstorage" ∨ backend = "convex" ∨
                   backend = "supabase" ∨ backend = "postgres" ∨
                   backend = "mysql").
  { cbn in Hin.
    repeat (apply elem_of_cons in Hin as [Hin|Hin]; [auto 6|]).
    by apply elem_of_nil in Hin. }
  destruct Hcases as [->|[->|[->|[->| ->]]]].
  - run_bundle "localstorage" fs Hw.
  - run_bundle "convex" fs Hw.
  - run_bundle "supabase" fs Hw.
  - run_bundle "postgres" fs Hw.
  - run_bundle "mysql" fs Hw.
Qed.

Lemma for_of_cons {A S} (body : S → A → M S) x xs s fs :
  for_of body (x :: xs) s fs = (body s x ≫= for_of body xs) fs.
Proof. reflexivity. Qed.

Lemma buildBundles_loop l fs :
  (∀ b, b ∈ l → b ∈ Bundles.Object_keys Bundles.BUNDLES) →
  unwritable fs = ∅ →
  ∃ fs' evs,
    for_of (λ _ backend, Bundles.buildBundle backend) l tt fs
    = mk_outcome (Ok tt) fs' evs ∧
    unwritable fs' = ∅ ∧
    written evs = l ≫= bundle_writes.
Proof.
  revert fs. induction l as [|b l IH]; intros fs Hl Hw.
  - exists fs, []. by repeat split.
  - destruct (buildBundle_ok b fs) as (fs1 & evs1 & Hrun & Hw1 & Hwr1);
      [apply Hl; by left|done|].
    destruct (IH fs1) as (fs2 & evs2 & Hrun2 & Hw2 & Hwr2);
      [intros; apply Hl; by right|done|].
    exists fs2, (evs1 ++ evs2).
    rewrite for_of_cons, M_bind_eq, Hrun. cbn [returned disk emitted].
    rewrite Hrun2. cbn [returned disk emitted].
    split; [done|]. split; [done|]. by rewrite written_app, Hwr1, Hwr2.
Qed.

Local Ltac bundle_facts cfg :=
  let deps := eval vm_compute in
    (strings_of (array_elements
       (default JUndefined (assoc "registryDependencies" (own_props cfg))))) in
  let Hnd := fresh "Hnd" in
  let Hdeps := fresh "Hdeps" in
  assert (Hnd : NoDup (own_props cfg).*1) by compute_done;
  assert (Hdeps : get "registryDependencies" cfg = Ok (JArr (JStr <$> deps)))
    by (vm_compute; reflexivity);
  destruct (bundle_item_spec cfg deps Hnd Hdeps) as (_ & ? & ?);
  destruct (bundle_registry_spec "" cfg deps Hnd Hdeps)
    as (entry & _ & ? & ? & ?);
  exists deps, entry;
  split; [exact Hdeps|]; split; [assumption|]; split;
    [apply Forall_fmap, Forall_forall; intros d _; apply rewritten_not_custom|];
  split; [assumption|]; split; [assumption|]; split; assumption.

(** C5. When no write fails, the Bundle Registry Builder ends normally and
    writes, for each of the five backend keys in turn, exactly two files:
    [public/r/<backend>/coderabbit.json] with the item descriptor and
    [public/r/<backend>/registry.json] with the index.  In the item
    descriptor and in the one item of the index, every dependency with the
    prefix [coderabbit-] is in URL form (the list is the rewriting of the
    list of the configuration, and no element keeps the prefix); the index
    holds that one item, the schema tag, and the fixed name and homepage. *)
Theorem bundles_outputs (fs : filesystem) :
  unwritable fs = ∅ →
  returned (Bundles.main fs) = Ok tt ∧
  Bundles.Object_keys Bundles.BUNDLES
    = ["localstorage"; "convex"; "supabase"; "postgres"; "mysql"] ∧
  written (emitted (Bundles.main fs))
    = Bundles.Object_keys Bundles.BUNDLES ≫= bundle_writes ∧
  Forall (λ '(backend, cfg),
    ∃ ds entry,
      get "registryDependencies" cfg = Ok (JArr (JStr <$> ds)) ∧
      get "registryDependencies" (bundle_item cfg)
        = Ok (JArr (JStr <$> (rewritten <$> ds))) ∧
      Forall (λ r, String.prefix "coderabbit-" r = false) (rewritten <$> ds) ∧
      (∀ k, k ≠ "registryDependencies" → k ≠ "$schema" →
            get k (bundle_item cfg) = get k cfg) ∧
      bundle_registry backend cfg
      = JObj [("$schema", JStr "https://ui.shadcn.com/schema/registry.json");
              ("name", JStr "coderabbit");
              ("homepage",
               JStr "https://github.com/RMNCLDYO/coderabbit-shadcn-registry");
              ("items", JArr [entry])] ∧
      get "registryDependencies" entry
        = Ok (JArr (JStr <$> (rewritten <$> ds))) ∧
      (∀ k, k ≠ "registryDependencies" → get k entry = get k cfg))
    Bundles.BUNDLES.
Proof.
  intros Hw. split; [|split; [reflexivity|split]].
  - destruct (buildBundles_loop (Bundles.Object_keys Bundles.BUNDLES) fs)
      as (fs' & evs & Hrun & _ & _); [done|done|].
    unfold Bundles.main, try_catch, Bundles.buildBundles. cbv zeta.
    rewrite M_bind_eq, console_run. cbn [returned disk emitted].
    rewrite M_bind_eq, Hrun. reflexivity.
  - destruct (buildBundles_loop (Bundles.Object_keys Bundles.BUNDLES) fs)
      as (fs' & evs & Hrun & _ & Hwr); [done|done|].
    unfold Bundles.main, try_catch, Bundles.buildBundles. cbv zeta.
    rewrite M_bind_eq, console_run. cbn [returned disk emitted].
    rewrite M_bind_eq, Hrun. cbn [returned disk emitted].
    rewrite console_run. cbn [returned disk emitted app].
    change (written (?e :: ?l)) with (written l).
    by rewrite written_app, Hwr, app_nil_r.
  - unfold Bundles.BUNDLES.
    constructor; [bundle_facts Bundles.localstorage|].
    constructor; [bundle_facts Bundles.convex|].
    constructor; [bundle_facts Bundles.supabase|].
    constructor; [bundle_facts Bundles.postgres|].
    constructor; [bundle_facts Bundles.mysql|].
    constructor.
Qed.

Lemma bundles_outputs_witness :
  returned (Bundles.main (mk_filesystem ∅ ∅ ∅ ∅)) = Ok tt.
Proof. exact (proj1 (bundles_outputs (mk_filesystem ∅ ∅ ∅ ∅) eq_refl)). Defined.

(** ** The Flat Registry Builder *)

Lemma outcome_eta {A} (o : outcome A) :
  mk_outcome (returned o) (disk o) (emitted o) = o.
Proof. by destruct o. Qed.

(** A loop over two lists in a row. *)
Lemma for_of_app {A S} (body : S → A → M S) l1 l2 s fs :
  for_of body (l1 ++ l2) s fs =
  let before := for_of body l1 s fs in
  match returned before with
  | Ok s1 =>
      let rest := for_of body l2 s1 (disk before) in
      mk_outcome (returned rest) (disk rest) (emitted before ++ emitted rest)
  | Throw e => mk_outcome (Throw e) (disk before) (emitted before)
  end.
Proof.
  revert s fs. induction l1 as [|x l1 IH]; intros s fs; cbv zeta.
  - change ([] ++ l2) with l2. cbn [for_of]. unfold mret, M_ret.
    cbn [returned disk emitted app]. by rewrite outcome_eta.
  - rewrite <- app_comm_cons, !for_of_cons, !M_bind_eq.
    destruct (returned (body s x fs)) as [s'|e]; [|done].
    rewrite IH. cbv zeta. cbn [returned disk emitted].
    destruct (returned (for_of body l1 s' _)); cbn [returned disk emitted]; [|done].
    by rewrite app_assoc.
Qed.

Lemma processItem_nameless st item name fs :
  get "name" item = Ok name → truthy name = false →
  Flat.processItem st item fs = mk_outcome (Ok st) fs [Console ItemMissingName].
Proof.
  intros Hname Hfalsy. unfold Flat.processItem.
  rewrite M_bind_eq, lift_run, Hname. cbn [returned disk emitted].
  rewrite Hfalsy. reflexivity.
Qed.

Lemma index_path : path_join OUTPUT_DIR "registry.json" = "public/r/registry.json".
Proof. reflexivity. Qed.

(** The consolidated index that the builder makes of a descriptor. *)
Definition consolidated (registry : value) (transformedItems : list value) : value :=
  JObj (set_prop "items" (JArr transformedItems) (spread_into [] registry)).

(** [buildFrom], stage by stage. *)
Lemma buildFrom_run registry its fs :
  get "items" registry = Ok (JArr its) →
  Flat.buildFrom registry fs =
  let o1 := ensureDir OUTPUT_DIR fs in
  match returned o1 with
  | Throw e => mk_outcome (Throw e) (disk o1) (emitted o1)
  | Ok _ =>
      let o2 := for_of Flat.processItem its (0, []) (disk o1) in
      let evs := emitted o1 ++ Console (ProcessingItems (length its)) :: emitted o2 in
      match returned o2 with
      | Throw e => mk_outcome (Throw e) (disk o2) evs
      | Ok st =>
          match mapM Flat.index_item its with
          | Throw e => mk_outcome (Throw e) (disk o2) evs
          | Ok transformedItems =>
              let index := Json (to_json (consolidated registry transformedItems)) in
              if bool_decide ("public/r/registry.json" ∈ unwritable (disk o2))
              then mk_outcome (Throw (SystemError "EACCES")) (disk o2) evs
              else
                mk_outcome (Ok tt)
                  (store "public/r/registry.json" index (disk o2))
                  (evs ++ [WriteFile "public/r/registry.json" index;
                           Console (FlatSummary (length st.2) st.1)])
          end
      end
  end.
Proof.
  intros Hitems. unfold Flat.buildFrom.
  rewrite M_bind_eq, lift_run, Hitems. cbn [returned disk emitted].
  cbn [truthy Array_isArray negb orb array_elements app].
  rewrite M_bind_eq.
  destruct (ensureDir OUTPUT_DIR fs) as [[[]|e] fs1 evs1];
    cbn [returned disk emitted]; [|done].
  rewrite M_bind_eq, console_run. cbn [returned disk emitted].
  rewrite M_bind_eq.
  destruct (for_of Flat.processItem its (0, []) fs1) as [[st|e] fs2 evs2];
    cbn [returned disk emitted app]; [|done].
  rewrite M_bind_eq, lift_run. cbn [returned disk emitted].
  destruct (mapM Flat.index_item its) as [transformedItems|e];
    cbn [returned disk emitted]; [|by rewrite app_nil_r].
  rewrite M_bind_eq, index_path. unfold consolidated.
  destruct (bool_decide _) eqn:Hw.
  - apply bool_decide_eq_true in Hw. rewrite write_json_fails by done.
    cbn [returned disk emitted]. by rewrite !app_nil_r.
  - apply bool_decide_eq_false in Hw. rewrite write_json_run by done.
    cbn [returned disk emitted]. rewrite console_run.
    cbn [returned disk emitted app]. f_equal.
    rewrite <- !app_assoc. reflexivity.
Qed.

(** The script on a descriptor that can be read and parsed. *)
Lemma flat_main_run registry fs :
  read_file Flat.REGISTRY_FILE fs = Ok (Json registry) →
  let o := Flat.buildFrom registry fs in
  Flat.main fs =
  match returned o with
  | Ok _ | Throw (ProcessExit _) => o
  | Throw e =>
      mk_outcome (Throw (ProcessExit 1)) (disk o)
        (emitted o ++ [Console (BuildFailed e)])
  end.
Proof.
  intros Hread. cbv zeta.
  assert (Hb : Flat.buildFlatRegistry fs = Flat.buildFrom registry fs).
  { unfold Flat.buildFlatRegistry. rewrite M_bind_eq.
    unfold Flat.readRegistryConfig, try_catch.
    rewrite M_bind_eq. unfold fs_readFileSync. cbn [returned disk emitted].
    rewrite Hread. cbn [lift JSON_parse returned disk emitted app].
    apply outcome_eta. }
  unfold Flat.main, try_catch. rewrite Hb.
  destruct (Flat.buildFrom registry fs) as [[[]|[| | |status]] fs' evs];
    reflexivity.
Qed.

Lemma mapM_app_ok {A B} (f : A → result B) l1 l2 :
  is_ok (mapM f (l1 ++ l2)) = is_ok (mapM f l1) && is_ok (mapM f l2).
Proof.
  induction l1 as [|x l1 IH]; [done|].
  rewrite <- app_comm_cons, !mapM_cons.
  destruct (f x) as [y|]; [|done]. cbn [mbind result_bind].
  destruct (mapM f (l1 ++ l2)), (mapM f l1); cbn in *; try done.
Qed.

Lemma mapM_skip_ok {A B} (f : A → result B) l1 x l2 :
  is_ok (f x) = true →
  is_ok (mapM f (l1 ++ x :: l2)) = is_ok (mapM f (l1 ++ l2)).
Proof.
  intros Hx. rewrite !mapM_app_ok, mapM_cons.
  destruct (f x); [|done]. cbn [mbind result_bind].
  by destruct (mapM f l2).
Qed.

(** The loop over the items with an item without a name among them. *)
Lemma processItems_skip item name l1 l2 st fs st1 :
  get "name" item = Ok name → truthy name = false →
  returned (for_of Flat.processItem l1 st fs) = Ok st1 →
  let before := for_of Flat.processItem l1 st fs in
  let rest := for_of Flat.processItem l2 st1 (disk before) in
  for_of Flat.processItem (l1 ++ item :: l2) st fs
  = mk_outcome (returned rest) (disk rest)
      (emitted before ++ Console ItemMissingName :: emitted rest) ∧
  for_of Flat.processItem (l1 ++ l2) st fs
  = mk_outcome (returned rest) (disk rest) (emitted before ++ emitted rest).
Proof.
  intros Hname Hfalsy Hbefore. cbv zeta. rewrite !for_of_app. cbv zeta.
  rewrite Hbefore. split; [|done].
  rewrite for_of_cons, M_bind_eq, (processItem_nameless _ _ _ _ Hname Hfalsy).
  reflexivity.
Qed.

Lemma processItems_skip_failed item l1 l2 st fs e :
  returned (for_of Flat.processItem l1 st fs) = Throw e →
  for_of Flat.processItem (l1 ++ item :: l2) st fs
  = for_of Flat.processItem (l1 ++ l2) st fs.
Proof. intros Hbefore. rewrite !for_of_app. cbv zeta. by rewrite Hbefore. Qed.

(** A descriptor with a complete item and an item without a name, and the
    one source file that the first item names. *)
Definition nameless_item : value := JObj [("title", JStr "nameless")].

Definition form_item : value :=
  JObj [("name", JStr "coderabbit-form");
        ("type", JStr "registry:lib");
        ("registryDependencies", JArr [JStr "button"; JStr "coderabbit-types"]);
        ("files",
         JArr [JObj [("path", JStr "lib/foo.ts");
                     ("content", JStr "export const x=1");
                     ("type", JStr "registry:lib")]])].

Definition flat_sample_disk : filesystem :=
  mk_filesystem
    {[ "registry.json" :=
         Json (JObj [("name", JStr "coderabbit");
                     ("items", JArr [form_item; nameless_item])]);
       "lib/foo.ts" := Text "export const x=1" ]}
    ∅ ∅ ∅.

(** * Further properties of the scripts *)

(** ** The rewriters on arbitrary arrays *)

Definition is_string (v : value) : bool :=
  match v with JStr _ => true | _ => false end.

Lemma strings_of_fmap ds : strings_of (JStr <$> ds) = ds.
Proof. induction ds as [|d ds IH]; [done|]. cbn. f_equal. exact IH. Qed.

Lemma forallb_is_string_fmap ds : forallb is_string (JStr <$> ds) = true.
Proof. induction ds as [|d ds IH]; [done|]. exact IH. Qed.

Lemma forallb_is_string es :
  forallb is_string es = true → es = JStr <$> strings_of es.
Proof.
  induction es as [|e es IH]; [done|]. cbn.
  destruct e; try discriminate. cbn. intros H. f_equal. by apply IH.
Qed.

(** A callback that rewrites a string and raises on any other value, mapped
    over an array. *)
Lemma mapM_strings (f : value → result value) es :
  (∀ d, f (JStr d) = Ok (JStr (rewritten d))) →
  (∀ v, is_string v = false → f v = Throw TypeError) →
  mapM f es
  = if forallb is_string es
    then Ok (JStr <$> (rewritten <$> strings_of es)) else Throw TypeError.
Proof.
  intros Hs Hn. induction es as [|e es IH]; [done|].
  rewrite mapM_cons. destruct (is_string e) eqn:He.
  - destruct e; try discriminate. rewrite Hs, IH. cbn.
    by destruct (forallb is_string es).
  - rewrite Hn by done. cbn. by rewrite He.
Qed.

Lemma builder_callback_other v :
  is_string v = false →
  (custom ← startsWith "coderabbit-" v;
   if custom : bool then registry_url v else Ok v) = Throw TypeError.
Proof. by destruct v. Qed.

Lemma transformer_callback_other v :
  is_string v = false →
  (http ← startsWith "http://" v;
   url ← (if http : bool then Ok true else startsWith "https://" v);
   if url : bool then Ok v
   else
     custom ← startsWith "coderabbit-" v;
     if custom : bool then registry_url v else Ok v) = Throw TypeError.
Proof. by destruct v. Qed.

(** What the rewriters make of an array. *)
Definition rewritten_array (es : list value) : result value :=
  if forallb is_string es
  then Ok (JArr (JStr <$> (rewritten <$> strings_of es)))
  else Throw TypeError.

Lemma bundles_rewriter_array es :
  Bundles.transformRegistryDependencies (JArr es) = rewritten_array es.
Proof.
  unfold Bundles.transformRegistryDependencies, rewritten_array.
  rewrite (mapM_strings _ es builder_callback_string builder_callback_other).
  by destruct (forallb is_string es).
Qed.

Lemma flat_rewriter_array es :
  Flat.transformRegistryDependencies (JArr es) = rewritten_array es.
Proof. exact (bundles_rewriter_array es). Qed.

Lemma transformer_rewriter_array es :
  PostBuild.transformDeps (JArr es) = rewritten_array es.
Proof.
  unfold PostBuild.transformDeps, rewritten_array.
  cbn [truthy Array_isArray negb orb array_elements].
  rewrite (mapM_strings _ es transformer_callback_string
             transformer_callback_other).
  by destruct (forallb is_string es).
Qed.

(** X1. On an array, each of the three rewriters succeeds exactly when every
    element is a string, and then maps the strings; an element that is no
    string (a number, [null], a nested array, an object) makes it raise a
    type error. *)
Theorem rewriter_needs_strings (es : list value) :
  let expected :=
    if forallb is_string es
    then Ok (JArr (JStr <$> (rewritten <$> strings_of es)))
    else Throw TypeError in
  Bundles.transformRegistryDependencies (JArr es) = expected ∧
  Flat.transformRegistryDependencies (JArr es) = expected ∧
  PostBuild.transformDeps (JArr es) = expected.
Proof.
  cbv zeta. split; [apply bundles_rewriter_array|].
  split; [apply flat_rewriter_array|apply transformer_rewriter_array].
Qed.

Lemma rewritten_array_Ok es t :
  rewritten_array es = Ok t →
  ∃ ds, es = JStr <$> ds ∧ t = JArr (JStr <$> (rewritten <$> ds)).
Proof.
  unfold rewritten_array. destruct (forallb is_string es) eqn:E; [|discriminate].
  intros [= <-]. exists (strings_of es). split; [by apply forallb_is_string|done].
Qed.

Lemma rewritten_array_settled ds :
  rewritten_array (JStr <$> (rewritten <$> ds))
  = Ok (JArr (JStr <$> (rewritten <$> ds))).
Proof.
  unfold rewritten_array. rewrite forallb_is_string_fmap, strings_of_fmap.
  do 3 f_equal. rewrite <- list_fmap_compose. apply list_fmap_ext.
  intros _ d _. apply rewritten_idem.
Qed.

(** X2. The rewriters of the two builders are idempotent: applied to what
    they returned, they return it unchanged (a rewritten identifier starts
    with [https://], not with the internal prefix). *)
Theorem builder_rewriters_idempotent :
  (∀ v t : value,
     Bundles.transformRegistryDependencies v = Ok t →
     Bundles.transformRegistryDependencies t = Ok t) ∧
  (∀ v t : value,
     Flat.transformRegistryDependencies v = Ok t →
     Flat.transformRegistryDependencies t = Ok t).
Proof.
  split; intros v t.
  - destruct v as [| | | | |es|]; try discriminate.
    rewrite bundles_rewriter_array.
    intros (ds & -> & ->)%rewritten_array_Ok.
    rewrite bundles_rewriter_array. apply rewritten_array_settled.
  - destruct (Array_isArray v) eqn:Hv.
    + destruct v as [| | | | |es|]; try discriminate.
      rewrite flat_rewriter_array.
      intros (ds & -> & ->)%rewritten_array_Ok.
      rewrite flat_rewriter_array. apply rewritten_array_settled.
    + unfold Flat.transformRegistryDependencies at 1.
      rewrite Hv, orb_true_r. intros [= <-].
      unfold Flat.transformRegistryDependencies. by rewrite Hv, orb_true_r.
Qed.

(** ** The descriptors that the builders make of any item *)

(** The own property [k] of [v], [undefined] when there is none. *)
Definition field (k : string) (v : value) : value :=
  default JUndefined (assoc k (own_props v)).

Definition item_schema : value :=
  JStr "https://ui.shadcn.com/schema/registry-item.json".

Lemma get_object_field k ps : get k (JObj ps) = Ok (field k (JObj ps)).
Proof. reflexivity. Qed.

Lemma assoc_schema_base k :
  assoc k [("$schema", item_schema)]
  = if String.eqb "$schema" k then Some item_schema else None.
Proof. reflexivity. Qed.

(** The fields of [{ $schema: ..., ...item }]. *)
Lemma assoc_item_copy k item :
  NoDup (own_props item).*1 →
  assoc k (spread_into [("$schema", item_schema)] item)
  = match assoc k (own_props item) with
    | Some v => Some v
    | None => if String.eqb "$schema" k then Some item_schema else None
    end.
Proof.
  intros Hnd. unfold spread_into. rewrite assoc_foldl_set_prop by done.
  by rewrite assoc_schema_base.
Qed.

(** Is a list of dependencies one that the rewriters accept? *)
Definition rewritable (deps : value) : bool :=
  match deps with JArr es => forallb is_string es | _ => true end.

Definition nullish (v : value) : bool :=
  match v with JUndefined | JNull => true | _ => false end.

(** Is a list of files one whose entries can be destructured? *)
Definition strippable (files : value) : bool :=
  match files with
  | JArr fs => forallb (λ f, negb (nullish f)) fs
  | _ => true
  end.

Lemma flat_rewriter_cases deps :
  if rewritable deps
  then ∃ t, Flat.transformRegistryDependencies deps = Ok t
  else Flat.transformRegistryDependencies deps = Throw TypeError.
Proof.
  destruct (Array_isArray deps) eqn:Harr.
  2:{ destruct (guarded_rewriters_not_array deps Harr) as [-> _].
      destruct deps; try discriminate; by eexists. }
  destruct deps as [| | | | |es|]; try discriminate.
  cbn [rewritable]. rewrite flat_rewriter_array. unfold rewritten_array.
  destruct (forallb is_string es); [by eexists|done].
Qed.

Lemma without_content_cases fs :
  if forallb (λ f, negb (nullish f)) fs
  then ∃ fs', mapM Flat.without_content fs = Ok fs'
  else mapM Flat.without_content fs = Throw TypeError.
Proof.
  induction fs as [|f fs IH]; [by eexists|].
  rewrite mapM_cons. cbn [forallb].
  destruct (nullish f) eqn:Hf.
  - by destruct f.
  - cbn [negb andb].
    assert (∃ y, Flat.without_content f = Ok y) as [y ->]
      by (destruct f; try discriminate; by eexists).
    cbn. destruct (forallb _ fs).
    + destruct IH as [fs' ->]. by eexists.
    + by rewrite IH.
Qed.

Lemma generateItemJSON_fields (item out : value) :
  NoDup (own_props item).*1 →
  Flat.generateItemJSON item = Ok out →
  get "$schema" out
    = Ok (default (JStr "https://ui.shadcn.com/schema/registry-item.json")
            (assoc "$schema" (own_props item))) ∧
  get "registryDependencies" out
    = Flat.transformRegistryDependencies (field "registryDependencies" item) ∧
  (Array_isArray (field "files" item) = false →
   get "files" out = Ok (field "files" item)) ∧
  (∀ k : string, k ≠ "$schema" → k ≠ "registryDependencies" → k ≠ "files" →
     get k out = Ok (field k item)).
Proof.
  intros Hnd. unfold Flat.generateItemJSON.
  pose proof (λ k, assoc_item_copy k item Hnd) as Hc0. fold item_schema.
  set (c0 := spread_into _ item) in *.
  set (step1 := if truthy _ then _ else _).
  destruct step1 as [c1|] eqn:Hstep1; [|discriminate]. cbn [mbind result_bind].
  assert (Hc1 : ∀ k, k ≠ "registryDependencies" → assoc k c1 = assoc k c0).
  { intros k Hk. unfold step1 in Hstep1. destruct (truthy _); [|by simplify_eq].
    destruct (Flat.transformRegistryDependencies _); [|discriminate].
    cbn in Hstep1. injection Hstep1 as <-. rewrite assoc_set_prop.
    apply not_eq_sym, String.eqb_neq in Hk. by rewrite Hk. }
  assert (Hrd : Ok (default JUndefined (assoc "registryDependencies" c1))
                = Flat.transformRegistryDependencies
                    (field "registryDependencies" item)).
  { unfold step1 in Hstep1.
    assert (default JUndefined (assoc "registryDependencies" c0)
            = field "registryDependencies" item) as Hd.
    { rewrite Hc0. unfold field.
      by destruct (assoc "registryDependencies" (own_props item)). }
    rewrite Hd in Hstep1.
    destruct (truthy (field "registryDependencies" item)) eqn:Ht.
    - destruct (Flat.transformRegistryDependencies
                  (field "registryDependencies" item)) as [t|];
        cbn [mbind result_bind] in Hstep1; [|discriminate].
      injection Hstep1 as <-. by rewrite assoc_set_prop, String.eqb_refl.
    - injection Hstep1 as <-. rewrite Hd.
      unfold Flat.transformRegistryDependencies. by rewrite Ht. }
  assert (Hfiles : default JUndefined (assoc "files" c1) = field "files" item).
  { rewrite Hc1, Hc0 by done. unfold field.
    by destruct (assoc "files" (own_props item)). }
  rewrite Hfiles.
  set (step2 := if truthy _ && _ then _ else _).
  destruct step2 as [c2|] eqn:Hstep2; [|discriminate].
  cbn [mbind result_bind]. intros [= <-].
  assert (Hc2 : ∀ k, k ≠ "files" → assoc k c2 = assoc k c1).
  { intros k Hk. unfold step2 in Hstep2. destruct (truthy _ && _); [|by simplify_eq].
    destruct (mapM _ _); [|discriminate].
    cbn in Hstep2. injection Hstep2 as <-. rewrite assoc_set_prop.
    apply not_eq_sym, String.eqb_neq in Hk. by rewrite Hk. }
  cbn [get]. split; [|split; [|split]].
  - rewrite Hc2, Hc1, Hc0 by done.
    by destruct (assoc "$schema" (own_props item)).
  - by rewrite Hc2.
  - intros Harr. unfold step2 in Hstep2. rewrite Harr, andb_false_r in Hstep2.
    injection Hstep2 as <-. by rewrite Hfiles.
  - intros k Hs Hr Hf. rewrite Hc2, Hc1, Hc0 by done. unfold field.
    destruct (assoc k (own_props item)); [done|].
    apply not_eq_sym, String.eqb_neq in Hs. by rewrite Hs.
Qed.

(** X3. What [generateItemJSON] keeps of an item: the schema tag is only a
    default (an item's own [$schema] wins over it), [registryDependencies]
    is what the rewriter makes of the item's, a [files] property that is no
    array is kept, and every other property is the item's. *)
Theorem generateItemJSON_frame (item out : value) :
  NoDup (own_props item).*1 →
  Flat.generateItemJSON item = Ok out →
  get "$schema" out
    = Ok (default (JStr "https://ui.shadcn.com/schema/registry-item.json")
            (assoc "$schema" (own_props item))) ∧
  get "registryDependencies" out
    = Flat.transformRegistryDependencies (field "registryDependencies" item) ∧
  (Array_isArray (field "files" item) = false →
   get "files" out = Ok (field "files" item)) ∧
  (∀ k : string, k ≠ "$schema" → k ≠ "registryDependencies" → k ≠ "files" →
     get k out = Ok (field k item)).
Proof.
  intros Hnd Hgen.
  destruct (generateItemJSON_fields item out Hnd Hgen)
    as (Hschema & Hdeps & Hfiles & Hrest).
  split; [exact Hschema|]. split; [exact Hdeps|].
  split; [exact Hfiles|exact Hrest].
Qed.

Lemma generateItemJSON_frame_witness :
  ∃ out, Flat.generateItemJSON form_item = Ok out ∧
         get "name" out = Ok (JStr "coderabbit-form").
Proof.
  eexists. split; [vm_compute; reflexivity|].
  refine (proj2 (proj2 (proj2 (generateItemJSON_frame form_item _ _ _))) "name" _ _ _).
  - compute_done.
  - vm_compute. reflexivity.
  - discriminate.
  - discriminate.
  - discriminate.
Defined.

(** X4. [generateItemJSON] fails exactly when the item's
    [registryDependencies] is an array with an element that is no string, or
    its [files] is an array with an entry that is [null]; it then raises a
    type error.  An item without either property, or with one that is no
    array, is accepted. *)
Theorem generateItemJSON_failure (item : value) :
  NoDup (own_props item).*1 →
  if rewritable (field "registryDependencies" item)
     && strippable (field "files" item)
  then ∃ out, Flat.generateItemJSON item = Ok out
  else Flat.generateItemJSON item = Throw TypeError.
Proof.
  intros Hnd. unfold Flat.generateItemJSON.
  pose proof (λ k, assoc_item_copy k item Hnd) as Hc0. fold item_schema.
  set (c0 := spread_into _ item) in *.
  assert (default JUndefined (assoc "registryDependencies" c0)
          = field "registryDependencies" item) as ->.
  { rewrite Hc0. unfold field.
    by destruct (assoc "registryDependencies" (own_props item)). }
  pose proof (flat_rewriter_cases (field "registryDependencies" item)) as Hdeps.
  destruct (rewritable (field "registryDependencies" item)) eqn:Hr; cycle 1.
  { assert (truthy (field "registryDependencies" item) = true) as ->
      by by destruct (field "registryDependencies" item).
    by rewrite Hdeps. }
  destruct Hdeps as [t Ht]. cbn [andb].
  set (step1 := if truthy _ then _ else _).
  assert (∃ c1, step1 = Ok c1 ∧
                default JUndefined (assoc "files" c1) = field "files" item)
    as (c1 & -> & Hfiles).
  { assert (default JUndefined (assoc "files" c0) = field "files" item) as Hf0.
    { rewrite Hc0. unfold field. by destruct (assoc "files" (own_props item)). }
    unfold step1. destruct (truthy _); [|by eexists].
    rewrite Ht. cbn. eexists. split; [done|]. by rewrite assoc_set_prop. }
  cbn [mbind result_bind]. rewrite Hfiles.
  destruct (Array_isArray (field "files" item)) eqn:Harr.
  2:{ rewrite andb_false_r.
      assert (strippable (field "files" item) = true) as ->
        by (by destruct (field "files" item)).
      by eexists. }
  destruct (field "files" item) as [| | | | |fs|] eqn:Hfs; try discriminate.
  cbn [truthy Array_isArray andb array_elements strippable].
  pose proof (without_content_cases fs) as Hstrip.
  destruct (forallb _ fs).
  - destruct Hstrip as [fs' ->]. by eexists.
  - by rewrite Hstrip.
Qed.

Lemma generateItemJSON_failure_witness :
  Flat.generateItemJSON
    (JObj [("name", JStr "broken"); ("files", JArr [JNull])])
  = Throw TypeError.
Proof.
  apply (generateItemJSON_failure
           (JObj [("name", JStr "broken"); ("files", JArr [JNull])])).
  compute_done.
Defined.

(** ** The descriptors of the Bundle Registry Builder, for any configuration *)

Lemma get_strings_inv k v es :
  get k v = Ok (JArr es) → ∃ ps, v = JObj ps ∧ field k v = JArr es.
Proof.
  intros (ps & -> & H)%get_array_inv. exists ps. split; [done|].
  unfold field. cbn. by rewrite H.
Qed.

(** The callback of [items.map] in [createBundleRegistry]. *)
Definition bundle_entry (item : value) : result value :=
  deps ← get "registryDependencies" item;
  deps' ← Bundles.transformRegistryDependencies deps;
  Ok (JObj (set_prop "registryDependencies" deps' (spread_into [] item))).

Lemma bundles_rewriter_Ok deps t :
  Bundles.transformRegistryDependencies deps = Ok t →
  ∃ ds, deps = JArr (JStr <$> ds) ∧ t = JArr (JStr <$> (rewritten <$> ds)).
Proof.
  destruct deps as [| | | | |es|]; try discriminate.
  rewrite bundles_rewriter_array.
  intros (ds & -> & ->)%rewritten_array_Ok. by exists ds.
Qed.

Lemma bundles_rewriter_error deps e :
  Bundles.transformRegistryDependencies deps = Throw e →
  e = TypeError ∧ ∀ ds, deps ≠ JArr (JStr <$> ds).
Proof.
  destruct deps as [| | | | |es|]; try (by intros [= <-]).
  rewrite bundles_rewriter_array. unfold rewritten_array.
  destruct (forallb is_string es) eqn:E; [discriminate|]. intros [= <-].
  split; [done|]. intros ds [= ->]. by rewrite forallb_is_string_fmap in E.
Qed.

Lemma bundle_entry_Ok item x :
  NoDup (own_props item).*1 →
  bundle_entry item = Ok x →
  ∃ ds, get "registryDependencies" item = Ok (JArr (JStr <$> ds)) ∧
        get "registryDependencies" x = Ok (JArr (JStr <$> (rewritten <$> ds))) ∧
        ∀ k, k ≠ "registryDependencies" → get k x = get k item.
Proof.
  intros Hnd. unfold bundle_entry.
  destruct (get "registryDependencies" item) as [deps|] eqn:Hdeps; [|discriminate].
  cbn [mbind result_bind].
  destruct (Bundles.transformRegistryDependencies deps) as [t|] eqn:Ht;
    [|discriminate].
  cbn [mbind result_bind]. intros [= <-].
  apply bundles_rewriter_Ok in Ht as (ds & -> & ->). exists ds.
  split; [done|]. pose proof Hdeps as (ps & -> & _)%get_array_inv.
  cbn [get]. split.
  - by rewrite get_set_spread, String.eqb_refl.
  - intros k Hk. rewrite get_set_spread by done.
    apply not_eq_sym, String.eqb_neq in Hk. rewrite Hk. cbn [own_props].
    by destruct (assoc k ps).
Qed.

Lemma bundle_entry_error item e :
  bundle_entry item = Throw e →
  e = TypeError ∧ ∀ ds, get "registryDependencies" item ≠ Ok (JArr (JStr <$> ds)).
Proof.
  unfold bundle_entry.
  destruct (get "registryDependencies" item) as [deps|e'] eqn:Hdeps;
    cbn [mbind result_bind].
  - destruct (Bundles.transformRegistryDependencies deps) as [t|e'] eqn:Ht;
      cbn [mbind result_bind]; [discriminate|].
    intros [= <-]. apply bundles_rewriter_error in Ht as [-> Hno].
    split; [done|]. intros ds [= ->]. by eapply Hno.
  - intros [= <-]. split; [by eapply get_error|]. discriminate.
Qed.

(** X5. [generateBundleJSON] has no guard: it raises a type error unless the
    configuration is an object whose [registryDependencies] is an array of
    strings.  When it is, the descriptor has the rewritten list, the
    configuration's own [$schema] if it has one and the fixed tag otherwise,
    and every other property of the configuration. *)
Theorem generateBundleJSON_spec (cfg : value) :
  NoDup (own_props cfg).*1 →
  match Bundles.generateBundleJSON cfg with
  | Ok out =>
      ∃ ds : list string,
        get "registryDependencies" cfg = Ok (JArr (JStr <$> ds)) ∧
        get "registryDependencies" out
          = Ok (JArr (JStr <$> (rewritten <$> ds))) ∧
        get "$schema" out
          = Ok (default (JStr "https://ui.shadcn.com/schema/registry-item.json")
                  (assoc "$schema" (own_props cfg))) ∧
        ∀ k : string, k ≠ "registryDependencies" → k ≠ "$schema" →
          get k out = get k cfg
  | Throw e =>
      e = TypeError ∧
      ∀ ds : list string,
        get "registryDependencies" cfg ≠ Ok (JArr (JStr <$> ds))
  end.
Proof.
  intros Hnd. unfold Bundles.generateBundleJSON.
  destruct (get "registryDependencies" cfg) as [deps|e] eqn:Hdeps;
    cbn [mbind result_bind]; [|split; [by eapply get_error|discriminate]].
  destruct (Bundles.transformRegistryDependencies deps) as [t|e] eqn:Ht;
    cbn [mbind result_bind].
  - apply bundles_rewriter_Ok in Ht as (ds & -> & ->). exists ds.
    split; [done|]. pose proof Hdeps as (ps & -> & _)%get_array_inv.
    cbn [get]. split; [by rewrite get_set_spread, String.eqb_refl|].
    split.
    + rewrite get_set_spread by done. cbn [String.eqb Ascii.eqb Bool.eqb].
      cbn [own_props]. by destruct (assoc "$schema" ps).
    + intros k Hk Hs. rewrite get_set_spread by done.
      apply not_eq_sym, String.eqb_neq in Hk. rewrite Hk. cbn [own_props].
      destruct (assoc k ps); [done|]. by rewrite assoc_singleton_ne.
  - apply bundles_rewriter_error in Ht as [-> Hno].
    split; [done|]. intros ds [= ->]. by eapply Hno.
Qed.

Lemma generateBundleJSON_spec_witness :
  ∃ out, Bundles.generateBundleJSON Bundles.convex = Ok out ∧
         get "title" out = Ok (JStr "CodeRabbit with Convex").
Proof.
  pose proof (generateBundleJSON_spec Bundles.convex) as H.
  destruct (Bundles.generateBundleJSON Bundles.convex) as [out|e] eqn:E;
    [|by vm_compute in E].
  destruct H as (ds & _ & _ & _ & Hframe); [compute_done|].
  exists out. split; [done|]. by rewrite Hframe.
Defined.

Lemma createBundleRegistry_eq backend items :
  Bundles.createBundleRegistry backend items
  = transformedItems ← mapM bundle_entry items;
    Ok (JObj [("$schema", JStr "https://ui.shadcn.com/schema/registry.json");
              ("name", JStr "coderabbit");
              ("homepage", JStr "https://github.com/RMNCLDYO/coderabbit-shadcn-registry");
              ("items", JArr transformedItems)]).
Proof. reflexivity. Qed.

(** X6. [createBundleRegistry] of any list of items: the index has the
    fixed schema tag, name and homepage and then the items, as many as were
    given and in their order, each with its list rewritten and its other
    properties kept (no schema tag is added to an item); it raises a type
    error when an item has no [registryDependencies] array of strings. *)
Theorem createBundleRegistry_spec (backend : string) (items : list value) :
  Forall (λ item, NoDup (own_props item).*1) items →
  match Bundles.createBundleRegistry backend items with
  | Ok registry =>
      ∃ entries : list value,
        registry
        = JObj [("$schema", JStr "https://ui.shadcn.com/schema/registry.json");
                ("name", JStr "coderabbit");
                ("homepage",
                 JStr "https://github.com/RMNCLDYO/coderabbit-shadcn-registry");
                ("items", JArr entries)] ∧
        length entries = length items ∧
        ∀ (i : nat) (item : value), items !! i = Some item →
          ∃ (entry : value) (ds : list string),
            entries !! i = Some entry ∧
            get "registryDependencies" item = Ok (JArr (JStr <$> ds)) ∧
            get "registryDependencies" entry
              = Ok (JArr (JStr <$> (rewritten <$> ds))) ∧
            ∀ k : string, k ≠ "registryDependencies" →
              get k entry = get k item
  | Throw e =>
      e = TypeError ∧
      ∃ item, item ∈ items ∧
        ∀ ds : list string,
          get "registryDependencies" item ≠ Ok (JArr (JStr <$> ds))
  end.
Proof.
  intros Hnd. rewrite createBundleRegistry_eq.
  destruct (mapM bundle_entry items) as [entries|e] eqn:Hmap;
    cbn [mbind result_bind].
  - exists entries. split; [done|]. split; [by eapply mapM_length|].
    intros i item Hi.
    destruct (mapM_lookup _ _ _ _ _ Hmap Hi) as (entry & Hentry & Hrun).
    apply bundle_entry_Ok in Hrun as (ds & ? & ? & ?).
    + by exists entry, ds.
    + apply (proj1 (Forall_forall _ _) Hnd). by eapply list_elem_of_lookup_2.
  - apply mapM_error in Hmap as (item & Hin & Hrun).
    apply bundle_entry_error in Hrun as [-> Hno]. split; [done|]. by exists item.
Qed.

Lemma createBundleRegistry_spec_witness :
  ∃ entries,
    Bundles.createBundleRegistry "convex" [Bundles.convex; Bundles.mysql]
    = Ok (JObj [("$schema", JStr "https://ui.shadcn.com/schema/registry.json");
                ("name", JStr "coderabbit");
                ("homepage",
                 JStr "https://github.com/RMNCLDYO/coderabbit-shadcn-registry");
                ("items", JArr entries)]) ∧
    length entries = 2.
Proof.
  pose proof (createBundleRegistry_spec "convex" [Bundles.convex; Bundles.mysql]) as H.
  destruct (Bundles.createBundleRegistry "convex" [Bundles.convex; Bundles.mysql])
    as [registry|e] eqn:E; [|by vm_compute in E].
  destruct H as (entries & -> & Hlen & _).
  - repeat constructor; compute_done.
  - by exists entries.
Defined.

(** ** The Flat Registry Builder without a usable descriptor *)

Lemma readRegistryConfig_run fs :
  Flat.readRegistryConfig fs =
  match read_file Flat.REGISTRY_FILE fs with
  | Ok (Json registry) => mk_outcome (Ok registry) fs []
  | Ok (Text _) =>
      mk_outcome (Throw (ProcessExit 1)) fs
        [Console (FailedToReadRegistry SyntaxError)]
  | Throw e =>
      mk_outcome (Throw (ProcessExit 1)) fs [Console (FailedToReadRegistry e)]
  end.
Proof.
  unfold Flat.readRegistryConfig, try_catch. rewrite M_bind_eq.
  unfold fs_readFileSync. cbn [returned disk emitted].
  destruct (read_file Flat.REGISTRY_FILE fs) as [[registry|t]|e] eqn:Hread;
    try reflexivity.
  apply read_file_error in Hread as [code ->]. reflexivity.
Qed.

Lemma flat_main_unread fs e :
  Flat.readRegistryConfig fs
  = mk_outcome (Throw (ProcessExit 1)) fs [Console (FailedToReadRegistry e)] →
  Flat.main fs
  = mk_outcome (Throw (ProcessExit 1)) fs [Console (FailedToReadRegistry e)].
Proof.
  intros Hread. unfold Flat.main, try_catch, Flat.buildFlatRegistry.
  rewrite M_bind_eq, Hread. reflexivity.
Qed.

(** X7. When the descriptor [registry.json] cannot be read or is no JSON
    text, the Flat Registry Builder prints that one failure and exits with
    status 1: nothing is created or written, and the handler at the top
    does not report a second time. *)
Theorem unreadable_descriptor_is_fatal (fs : filesystem) :
  (∀ registry : value, read_file Flat.REGISTRY_FILE fs ≠ Ok (Json registry)) →
  ∃ e : exn,
    (e = SyntaxError ∨ ∃ code, e = SystemError code) ∧
    Flat.main fs
    = mk_outcome (Throw (ProcessExit 1)) fs
        [Console (FailedToReadRegistry e)] ∧
    run Flat.main fs = (1%Z, fs, [Console (FailedToReadRegistry e)]).
Proof.
  intros Hno. pose proof (readRegistryConfig_run fs) as Hrun.
  destruct (read_file Flat.REGISTRY_FILE fs) as [[registry|t]|e] eqn:Hread.
  - by destruct (Hno registry).
  - exists SyntaxError. split; [by left|].
    apply flat_main_unread in Hrun. unfold run. rewrite Hrun. done.
  - exists e. split; [right; by eapply read_file_error|].
    apply flat_main_unread in Hrun. unfold run. rewrite Hrun. done.
Qed.

Definition malformed_disk : filesystem :=
  mk_filesystem {[ "registry.json" := Text "{ items: " ]} ∅ ∅ ∅.

Lemma unreadable_descriptor_is_fatal_witness :
  ∃ e, run Flat.main malformed_disk
       = (1%Z, malformed_disk, [Console (FailedToReadRegistry e)]).
Proof.
  destruct (unreadable_descriptor_is_fatal malformed_disk) as (e & _ & _ & H).
  - intros registry. vm_compute. discriminate.
  - by exists e.
Defined.

Lemma flat_main_without_items fs registry :
  read_file Flat.REGISTRY_FILE fs = Ok (Json registry) →
  (∀ its : list value, get "items" registry ≠ Ok (JArr its)) →
  Flat.main fs
  = mk_outcome (Throw (ProcessExit 1)) fs
      [Console (match registry with
                | JNull | JUndefined => BuildFailed TypeError
                | _ => NoItemsFound
                end)].
Proof.
  intros Hread Hno. rewrite (flat_main_run registry fs Hread).
  cbv zeta. unfold Flat.buildFrom. rewrite M_bind_eq, lift_run.
  cbn [returned disk emitted].
  destruct (get "items" registry) as [items|e] eqn:Hitems.
  - assert (Array_isArray items = false) as Harr.
    { destruct items; try done. by destruct (Hno elems). }
    rewrite Harr, orb_true_r.
    assert (registry ≠ JNull ∧ registry ≠ JUndefined) as [? ?]
      by (split; intros ->; discriminate).
    by destruct registry.
  - pose proof (get_error _ _ _ Hitems) as ->.
    by destruct registry.
Qed.

(** X8. When the descriptor parses but has no [items] array, the builder
    exits with status 1 before it creates the output directory or writes
    anything: it prints that no items were found, or, when the descriptor
    is [null], the type error that reading [items] of it raises. *)
Theorem descriptor_without_items_is_fatal (fs : filesystem) (registry : value) :
  read_file Flat.REGISTRY_FILE fs = Ok (Json registry) →
  (∀ its : list value, get "items" registry ≠ Ok (JArr its)) →
  run Flat.main fs
  = (1%Z, fs,
     [Console (match registry with
               | JNull | JUndefined => BuildFailed TypeError
               | _ => NoItemsFound
               end)]).
Proof.
  intros Hread Hno. unfold run.
  by rewrite (flat_main_without_items fs registry Hread Hno).
Qed.

Lemma descriptor_without_items_is_fatal_witness :
  let fs := mk_filesystem {[ "registry.json" := Json (JObj [("items", JStr "none")]) ]} ∅ ∅ ∅ in
  run Flat.main fs = (1%Z, fs, [Console NoItemsFound]).
Proof.
  cbv zeta.
  apply (descriptor_without_items_is_fatal _ (JObj [("items", JStr "none")])).
  - vm_compute. reflexivity.
  - intros its. vm_compute. discriminate.
Defined.

(** ** Directories *)

Lemma segments_cons s : ∃ seg segs, segments s = seg :: segs.
Proof.
  induction s as [|c s (seg & segs & IH)]; [by eexists _, _|]. cbn.
  destruct (Ascii.eqb c "/"); [by eexists _, _|]. rewrite IH. by eexists _, _.
Qed.

(** Joining the segments of a path gives the path back. *)
Lemma concat_segments s : String.concat "/" (segments s) = s.
Proof.
  induction s as [|c s IH]; [done|]. cbn [segments].
  destruct (segments_cons s) as (seg & segs & Hs). rewrite Hs in *.
  destruct (Ascii.eqb c "/") eqn:Hc.
  - apply Ascii.eqb_eq in Hc as ->.
    change (String.concat "/" ("" :: seg :: segs))
      with (String "/" (String.concat "/" (seg :: segs))).
    by rewrite IH.
  - destruct segs as [|x r]; [cbn in *; by rewrite IH|].
    change (String.concat "/" (String c seg :: x :: r))
      with (String c (String.concat "/" (seg :: x :: r))).
    by rewrite IH.
Qed.

Lemma app_not_empty (a b : string) : a ≠ "" → a +:+ b ≠ "".
Proof. by destruct a. Qed.

Lemma dir_chain_cons above seg segs :
  above ≠ "" →
  dir_chain above (seg :: segs)
  = (above +:+ "/" +:+ seg) :: dir_chain (above +:+ "/" +:+ seg) segs.
Proof. intros Ha%String.eqb_neq. cbn [dir_chain]. by rewrite Ha. Qed.

Lemma dir_chain_last above seg segs :
  above ≠ "" →
  last (dir_chain above (seg :: segs))
  = Some (above +:+ "/" +:+ String.concat "/" (seg :: segs)).
Proof.
  revert above seg. induction segs as [|x r IH]; intros above seg Ha;
    rewrite dir_chain_cons by done.
  - reflexivity.
  - rewrite last_cons, IH by by apply app_not_empty.
    f_equal. rewrite string_app_assoc.
    change (String.concat "/" (seg :: x :: r))
      with (seg +:+ "/" +:+ String.concat "/" (x :: r)).
    reflexivity.
Qed.

(** [mkdirSync(p, { recursive: true })] makes [p], for a relative [p]. *)
Lemma dir_chain_self p :
  String.prefix "/" p = false → p ∈ dir_chain "" (segments p).
Proof.
  intros Hrel. pose proof (concat_segments p) as Hp.
  destruct p as [|c s]; [by left|].
  rewrite prefix_cons in Hrel.
  destruct (ascii_dec "/" c) as [<-|Hc]; [by destruct s|].
  cbn [segments] in *.
  assert (Ascii.eqb c "/" = false) as Hc' by (apply Ascii.eqb_neq; congruence).
  rewrite Hc' in *. destruct (segments_cons s) as (seg & segs & Hs).
  rewrite Hs in *. cbn [dir_chain String.eqb].
  destruct segs as [|x r]; [cbn in Hp; rewrite Hp; by left|].
  right. apply last_Some_elem_of. rewrite dir_chain_last by done.
  f_equal. exact Hp.
Qed.

Definition is_there (p : string) (fs : filesystem) : bool :=
  bool_decide (is_Some (files fs !! p)) || bool_decide (p ∈ dirs fs).

Lemma fs_existsSync_run p fs :
  fs_existsSync p fs = mk_outcome (Ok (is_there p fs)) fs [].
Proof. reflexivity. Qed.

Lemma ensureDir_eq dir fs :
  ensureDir dir fs =
  if is_there dir fs then mk_outcome (Ok tt) fs []
  else if bool_decide (dir ∈ unwritable fs)
       then mk_outcome (Throw (SystemError "EACCES")) fs []
       else mk_outcome (Ok tt)
              (mk_filesystem (files fs)
                 (list_to_set (dir_chain "" (segments dir)) ∪ dirs fs)
                 (unreadable fs) (unwritable fs))
              [Mkdir dir].
Proof.
  unfold ensureDir. rewrite M_bind_eq, fs_existsSync_run.
  cbn [returned disk emitted]. destruct (is_there dir fs); [done|].
  unfold fs_mkdirSync. by destruct (bool_decide (dir ∈ unwritable fs)).
Qed.

(** X9. [ensureDir] of a relative path that may be created: afterwards the
    path exists, no regular file has changed and no directory is lost; on a
    path that exists already (as a directory or as a file) it does nothing,
    so calling it a second time does nothing. *)
Theorem ensureDir_makes_sure (dir : string) (fs : filesystem) :
  String.prefix "/" dir = false →
  dir ∉ unwritable fs →
  let o := ensureDir dir fs in
  returned o = Ok tt ∧
  fs_existsSync dir (disk o) = mk_outcome (Ok true) (disk o) [] ∧
  files (disk o) = files fs ∧
  dirs fs ⊆ dirs (disk o) ∧
  (is_there dir fs = true → o = mk_outcome (Ok tt) fs []) ∧
  ensureDir dir (disk o) = mk_outcome (Ok tt) (disk o) [].
Proof.
  intros Hrel Hw. cbv zeta. rewrite fs_existsSync_run.
  rewrite (ensureDir_eq dir (disk _)), (ensureDir_eq dir fs).
  destruct (is_there dir fs) eqn:Hthere.
  { cbn [returned disk emitted]. by rewrite Hthere. }
  rewrite bool_decide_eq_false_2 by done. cbn [returned disk emitted].
  assert (is_there dir
            (mk_filesystem (files fs)
               (list_to_set (dir_chain "" (segments dir)) ∪ dirs fs)
               (unreadable fs) (unwritable fs)) = true) as ->.
  { unfold is_there. cbn [files dirs]. apply orb_true_iff. right.
    apply bool_decide_eq_true. apply elem_of_union_l, elem_of_list_to_set.
    by apply dir_chain_self. }
  repeat split; try done. cbn [dirs]. apply union_subseteq_r.
Qed.

Lemma ensureDir_makes_sure_witness :
  let fs := mk_filesystem ∅ ∅ ∅ ∅ in
  ensureDir "public/r/lib" (disk (ensureDir "public/r/lib" fs))
  = mk_outcome (Ok tt) (disk (ensureDir "public/r/lib" fs)) [].
Proof.
  cbv zeta.
  refine (proj2 (proj2 (proj2 (proj2 (proj2
    (ensureDir_makes_sure "public/r/lib" (mk_filesystem ∅ ∅ ∅ ∅) _ _)))))).
  - reflexivity.
  - apply not_elem_of_empty.
Defined.

(** ** Copying the source files *)

Lemma copyFile_run src dest fs :
  Flat.copyFile src dest fs =
  let o1 := ensureDir (path_dirname dest) fs in
  match returned o1 with
  | Throw e => mk_outcome (Throw e) (disk o1) (emitted o1)
  | Ok _ =>
      let o2 := fs_copyFileSync src dest (disk o1) in
      mk_outcome (returned o2) (disk o2) (emitted o1 ++ emitted o2)
  end.
Proof. unfold Flat.copyFile. by rewrite M_bind_eq. Qed.

(** What [ensureDir] leaves as it is, whether it succeeds or not. *)
Lemma ensureDir_frame dir fs :
  let o := ensureDir dir fs in
  files (disk o) = files fs ∧ unreadable (disk o) = unreadable fs ∧
  unwritable (disk o) = unwritable fs ∧ dirs fs ⊆ dirs (disk o) ∧
  (emitted o = [] ∨ emitted o = [Mkdir dir]).
Proof.
  cbv zeta. rewrite ensureDir_eq.
  destruct (is_there dir fs); [by repeat split; auto|].
  destruct (bool_decide (dir ∈ unwritable fs)); [by repeat split; auto|].
  cbn. repeat split; auto. apply union_subseteq_r.
Qed.

Lemma read_file_frame p fs fs' :
  files fs' = files fs → unreadable fs' = unreadable fs → dirs fs ⊆ dirs fs' →
  ∀ d, read_file p fs = Ok d → read_file p fs' = Ok d.
Proof.
  unfold read_file. intros -> -> _ d.
  destruct (bool_decide _); [done|]. by destruct (files fs !! p).
Qed.

(** X10. [copyFile] makes sure of the directory of the destination and then
    copies: when the source can be read and the destination written, the
    destination then holds the content of the source and no other file has
    changed; when the source cannot be read, [copyFile] raises after it has
    made sure of the directory, and no file has changed. *)
Theorem copyFile_copies (src dest : string) (fs : filesystem) :
  path_dirname dest ∉ unwritable fs →
  let o := Flat.copyFile src dest fs in
  dirs fs ⊆ dirs (disk o) ∧
  (∀ d : fdata, read_file src fs = Ok d → dest ∉ unwritable fs →
     returned o = Ok tt ∧
     files (disk o) = <[dest := d]> (files fs) ∧
     (emitted o = [CopyFile src dest] ∨
      emitted o = [Mkdir (path_dirname dest); CopyFile src dest])) ∧
  ((∀ d : fdata, read_file src fs ≠ Ok d) →
     (∃ code, returned o = Throw (SystemError code)) ∧
     files (disk o) = files fs ∧
     (emitted o = [] ∨ emitted o = [Mkdir (path_dirname dest)])).
Proof.
  intros Hw. cbv zeta. rewrite copyFile_run. cbv zeta.
  destruct (ensureDir_frame (path_dirname dest) fs)
    as (Hfiles & Hunr & Hunw & Hdirs & Hevs).
  assert (returned (ensureDir (path_dirname dest) fs) = Ok tt) as Hok.
  { rewrite ensureDir_eq. destruct (is_there _ fs); [done|].
    by rewrite bool_decide_eq_false_2. }
  rewrite Hok. cbn [returned disk emitted]. unfold fs_copyFileSync.
  set (fs1 := disk (ensureDir (path_dirname dest) fs)) in *.
  split; [|split].
  - destruct (read_file src fs1); [|done].
    destruct (bool_decide _); [done|]. done.
  - intros d Hread Hdest.
    rewrite (read_file_frame src fs fs1 Hfiles Hunr Hdirs d Hread).
    rewrite bool_decide_eq_false_2 by by rewrite Hunw.
    cbn [returned disk emitted files store]. split; [done|].
    split; [by rewrite Hfiles|].
    destruct Hevs as [->| ->]; auto.
  - intros Hno.
    destruct (read_file src fs1) as [d|e] eqn:Hread1.
    { exfalso. apply (Hno d). revert Hread1. unfold read_file.
      rewrite Hunr, Hfiles. destruct (bool_decide _); [done|].
      by destruct (files fs !! src). }
    cbn [returned disk emitted]. rewrite app_nil_r.
    apply read_file_error in Hread1 as [code ->].
    split; [by exists code|]. done.
Qed.

Lemma copyFile_copies_witness :
  files (disk (Flat.copyFile "lib/foo.ts" "public/r/lib/foo.ts" flat_sample_disk))
    !! "public/r/lib/foo.ts"
  = Some (Text "export const x=1").
Proof.
  destruct (copyFile_copies "lib/foo.ts" "public/r/lib/foo.ts" flat_sample_disk)
    as (_ & Hcopy & _); [apply not_elem_of_empty|].
  destruct (Hcopy (Text "export const x=1")) as (_ & Hfiles & _).
  - vm_compute. reflexivity.
  - apply not_elem_of_empty.
  - rewrite Hfiles. apply lookup_insert_eq.
Defined.

(** The body of the loop of [copySourceFiles]. *)
Definition copy_step (copiedCount : nat) (file : value) : M nat :=
  p ← lift (get "path" file);
  sourcePath ← lift (Flat.validateString p);
  let destPath := path_join OUTPUT_DIR sourcePath in
  there ← fs_existsSync sourcePath;
  if there : bool then
    Flat.copyFile sourcePath destPath;; mret (S copiedCount)
  else
    console (SourceFileNotFound sourcePath);; mret copiedCount.

Lemma copySourceFiles_eq item :
  Flat.copySourceFiles item
  = files ← lift (get "files" item);
    if negb (truthy files) || negb (Array_isArray files) then mret None
    else
      copiedCount ← for_of copy_step (array_elements files) 0;
      mret (Some copiedCount).
Proof. reflexivity. Qed.

Lemma copy_step_run c file fs :
  copy_step c file fs =
  match get "path" file ≫= Flat.validateString with
  | Throw e => mk_outcome (Throw e) fs []
  | Ok p =>
      if is_there p fs then
        let o := Flat.copyFile p (path_join OUTPUT_DIR p) fs in
        mk_outcome (match returned o with Ok _ => Ok (S c) | Throw e => Throw e end)
          (disk o) (emitted o)
      else mk_outcome (Ok c) fs [Console (SourceFileNotFound p)]
  end.
Proof.
  unfold copy_step. rewrite M_bind_eq, lift_run. cbn [returned disk emitted].
  destruct (get "path" file) as [p|e]; [|done]. cbn [mbind result_bind].
  rewrite M_bind_eq, lift_run. cbn [returned disk emitted].
  destruct (Flat.validateString p) as [sourcePath|e]; [|done]. cbv zeta.
  rewrite M_bind_eq, fs_existsSync_run. cbn [returned disk emitted].
  destruct (is_there sourcePath fs).
  - rewrite M_bind_eq.
    destruct (returned (Flat.copyFile sourcePath _ fs)); [|done].
    cbn. by rewrite app_nil_r.
  - rewrite M_bind_eq, console_run. reflexivity.
Qed.

Lemma copySourceFiles_run item entries fs :
  get "files" item = Ok (JArr entries) →
  Flat.copySourceFiles item fs =
  let o := for_of copy_step entries 0 fs in
  mk_outcome (Some <$> returned o) (disk o) (emitted o).
Proof.
  intros Hfiles. rewrite copySourceFiles_eq, M_bind_eq, lift_run, Hfiles.
  cbn [returned disk emitted truthy Array_isArray negb orb array_elements app].
  rewrite M_bind_eq. cbv zeta.
  destruct (returned (for_of copy_step entries 0 fs)); [|done].
  cbn. by rewrite app_nil_r.
Qed.

Lemma path_of_entry entry p :
  get "path" entry = Ok (JStr p) →
  get "path" entry ≫= Flat.validateString = Ok p.
Proof. by intros ->. Qed.

Lemma copy_loop_missing entries paths c fs :
  Forall2 (λ entry p, get "path" entry = Ok (JStr p)) entries paths →
  Forall (λ p, is_there p fs = false) paths →
  for_of copy_step entries c fs
  = mk_outcome (Ok c) fs ((λ p, Console (SourceFileNotFound p)) <$> paths).
Proof.
  intros Hpaths. induction Hpaths as [|entry p entries paths Hp _ IH];
    intros Hmissing; [done|].
  apply Forall_cons in Hmissing as [Hnone Hmissing].
  rewrite for_of_cons, M_bind_eq, copy_step_run, (path_of_entry _ _ Hp), Hnone.
  cbn [returned disk emitted]. by rewrite IH.
Qed.

(** X11. A source file that does not exist is not fatal: when none of the
    paths that the [files] entries of an item name exists, [copySourceFiles]
    copies nothing and reports 0, leaves the disk as it is, and prints one
    warning per entry, in order. *)
Theorem missing_sources_are_skipped (item : value) (entries : list value)
    (paths : list string) (fs : filesystem) :
  get "files" item = Ok (JArr entries) →
  Forall2 (λ entry p, get "path" entry = Ok (JStr p)) entries paths →
  Forall (λ p, files fs !! p = None ∧ p ∉ dirs fs) paths →
  Flat.copySourceFiles item fs
  = mk_outcome (Ok (Some 0)) fs
      ((λ p, Console (SourceFileNotFound p)) <$> paths).
Proof.
  intros Hfiles Hpaths Hmissing.
  rewrite (copySourceFiles_run _ _ _ Hfiles). cbv zeta.
  rewrite (copy_loop_missing entries paths); [done|done|].
  eapply Forall_impl; [exact Hmissing|]. intros p [Hnone Hdir]. unfold is_there.
  rewrite Hnone, bool_decide_eq_false_2, bool_decide_eq_false_2; [done|done|].
  by intros [? ?].
Qed.

Lemma missing_sources_are_skipped_witness :
  Flat.copySourceFiles form_item (mk_filesystem ∅ ∅ ∅ ∅)
  = mk_outcome (Ok (Some 0)) (mk_filesystem ∅ ∅ ∅ ∅)
      [Console (SourceFileNotFound "lib/foo.ts")].
Proof.
  apply (missing_sources_are_skipped form_item
           (array_elements (field "files" form_item)) ["lib/foo.ts"]).
  - reflexivity.
  - repeat constructor.
  - repeat constructor. apply not_elem_of_empty.
Defined.

(** The copies and the warnings of a run, and the paths that either names,
    in order. *)
Definition copied (evs : list event) : list (string * string) :=
  omap (λ e, match e with CopyFile src dest => Some (src, dest) | _ => None end) evs.

Definition handled (evs : list event) : list string :=
  omap (λ e, match e with
             | CopyFile src _ => Some src
             | Console (SourceFileNotFound p) => Some p
             | _ => None
             end) evs.

Lemma copied_app evs evs' : copied (evs ++ evs') = copied evs ++ copied evs'.
Proof. apply omap_app. Qed.

Lemma handled_app evs evs' : handled (evs ++ evs') = handled evs ++ handled evs'.
Proof. apply omap_app. Qed.

Lemma copyFile_events src dest fs :
  let o := Flat.copyFile src dest fs in
  written (emitted o) = [] ∧
  match returned o with
  | Ok _ => copied (emitted o) = [(src, dest)] ∧ handled (emitted o) = [src]
  | Throw _ => copied (emitted o) = [] ∧ handled (emitted o) = []
  end.
Proof.
  cbv zeta. rewrite copyFile_run. cbv zeta.
  destruct (ensureDir_frame (path_dirname dest) fs) as (_ & _ & _ & _ & Hevs).
  destruct (returned (ensureDir (path_dirname dest) fs));
    cbn [returned disk emitted]; [|by destruct Hevs as [->| ->]].
  unfold fs_copyFileSync. destruct (read_file src _);
    [destruct (bool_decide _)|]; cbn [returned disk emitted];
    by destruct Hevs as [->| ->].
Qed.

Lemma copy_loop_counts entries c fs n :
  returned (for_of copy_step entries c fs) = Ok n →
  let evs := emitted (for_of copy_step entries c fs) in
  n = c + length (copied evs) ∧
  Forall2 (λ entry p, get "path" entry = Ok (JStr p)) entries (handled evs) ∧
  Forall (λ '(src, dest), dest = path_join OUTPUT_DIR src) (copied evs) ∧
  written evs = [].
Proof.
  cbv zeta. revert c fs. induction entries as [|entry entries IH]; intros c fs.
  { intros [= <-]. cbn. repeat split; auto with lia. }
  rewrite for_of_cons, M_bind_eq, copy_step_run.
  destruct (get "path" entry ≫= Flat.validateString) as [p|e] eqn:Hp; [|done].
  assert (get "path" entry = Ok (JStr p)) as Hpath.
  { destruct (get "path" entry) as [v|]; [|done]. by destruct v; simplify_eq/=. }
  destruct (is_there p fs); cbn [returned disk emitted].
  - pose proof (copyFile_events p (path_join OUTPUT_DIR p) fs) as [Hwr Hev].
    cbv zeta in Hev.
    destruct (returned (Flat.copyFile p (path_join OUTPUT_DIR p) fs)); [|done].
    destruct Hev as [Hcp Hh]. cbn [returned disk emitted].
    intros (-> & Hpaths & Hdest & Hwr')%IH.
    rewrite copied_app, handled_app, written_app, Hcp, Hh, Hwr, Hwr'.
    cbn [app length]. split; [lia|]. split; [by constructor|].
    split; [by constructor|done].
  - intros (-> & Hpaths & Hdest & Hwr')%IH. cbn.
    split; [done|]. split; [by constructor|]. done.
Qed.

(** X12. When [copySourceFiles] ends normally on an item with a list of
    files, the number it returns is the number of files it copied; every
    entry of the list was either copied to its own path under the output
    directory or warned about, in the order of the list; and it wrote no
    descriptor.  It returns a number, not [undefined], also for an empty
    list. *)
Theorem copySourceFiles_counts (item : value) (entries : list value)
    (fs : filesystem) (n : option nat) :
  get "files" item = Ok (JArr entries) →
  returned (Flat.copySourceFiles item fs) = Ok n →
  let evs := emitted (Flat.copySourceFiles item fs) in
  n = Some (length (copied evs)) ∧
  Forall2 (λ entry p, get "path" entry = Ok (JStr p)) entries (handled evs) ∧
  Forall (λ '(src, dest), dest = path_join OUTPUT_DIR src) (copied evs) ∧
  written evs = [].
Proof.
  intros Hfiles. rewrite (copySourceFiles_run _ _ _ Hfiles). cbv zeta.
  cbn [returned disk emitted].
  destruct (returned (for_of copy_step entries 0 fs)) as [c|] eqn:Hc; [|done].
  intros [= <-]. by apply copy_loop_counts in Hc as (-> & ? & ? & ?).
Qed.

Lemma copySourceFiles_counts_witness :
  let evs := emitted (Flat.copySourceFiles form_item flat_sample_disk) in
  Some 1 = Some (length (copied evs)) ∧
  Forall2 (λ entry p, get "path" entry = Ok (JStr p))
    (array_elements (field "files" form_item)) (handled evs).
Proof.
  cbv zeta.
  destruct (copySourceFiles_counts form_item
              (array_elements (field "files" form_item)) flat_sample_disk (Some 1))
    as (H1 & H2 & _).
  - reflexivity.
  - vm_compute. reflexivity.
  - by split.
Defined.

(** ** What the enumeration looks at *)

(** Does the enumeration look at an entry: a file with the JSON extension,
    or a directory that is not named [registry]? *)
Definition looked_at (entry : dirent) : bool :=
  match entry with
  | DFile name => endsWith ".json" name
  | DDir name _ => negb (String.eqb name "registry")
  end.

(** A listing without the entries, at any depth, that the enumeration does
    not look at. *)
Fixpoint prune (entry : dirent) : dirent :=
  match entry with
  | DDir name (Some below) =>
      DDir name
        (Some ((fix go (entries : list dirent) : list dirent :=
                  match entries with
                  | [] => []
                  | e :: entries =>
                      if looked_at e then prune e :: go entries else go entries
                  end) below))
  | _ => entry
  end.

Definition prune_all (entries : list dirent) : list dirent :=
  prune <$> filter (λ e, looked_at e = true) entries.

Lemma prune_dir name below :
  prune (DDir name (Some below)) = DDir name (Some (prune_all below)).
Proof.
  cbn [prune]. do 2 f_equal. unfold prune_all.
  induction below as [|e below IH]; [done|].
  rewrite filter_cons. destruct (looked_at e) eqn:He.
  - by rewrite IH.
  - by rewrite IH.
Qed.

Lemma collect_cons {A} (f : A → result (list string)) x l :
  PostBuild.collect f (x :: l)
  = found ← f x; more ← PostBuild.collect f l; Ok (found ++ more).
Proof.
  cbn. destruct (f x); [|done]. cbn. by destruct (PostBuild.collect f l).
Qed.

Lemma visit_not_looked_at dir entry :
  looked_at entry = false → PostBuild.visit dir entry = Ok [].
Proof.
  destruct entry as [name|name sub]; cbn; [by intros ->|].
  by intros ->%negb_false_iff.
Qed.

Lemma collect_prune dir entries :
  Forall (λ entry, ∀ dir, PostBuild.visit dir (prune entry) = PostBuild.visit dir entry)
    entries →
  PostBuild.collect (PostBuild.visit dir) (prune_all entries)
  = PostBuild.collect (PostBuild.visit dir) entries.
Proof.
  unfold prune_all. induction 1 as [|e entries He _ IH]; [done|].
  rewrite filter_cons, (collect_cons _ e).
  destruct (decide (looked_at e = true)) as [Hl|Hl%not_true_is_false].
  - rewrite fmap_cons. by rewrite collect_cons, He, IH.
  - rewrite (visit_not_looked_at _ _ Hl), IH. cbn.
    by destruct (PostBuild.collect _ entries).
Qed.

Lemma visit_prune entry :
  ∀ dir, PostBuild.visit dir (prune entry) = PostBuild.visit dir entry.
Proof.
  induction entry as [name|name|name below IH] using dirent_nested_ind;
    intros dir; [done|done|].
  rewrite prune_dir. cbn [PostBuild.visit].
  destruct (negb (String.eqb name "registry")); [|done].
  by apply collect_prune.
Qed.

(** X13. The enumeration depends only on the entries it looks at: files
    whose name ends in [.json] and directories not named [registry].
    Removing every other entry, at any depth, changes neither the files it
    finds nor whether it fails; in particular a directory named [registry]
    is never listed, so one that cannot be listed does no harm. *)
Theorem enumeration_ignores_the_rest (dir : string) (entries : list dirent) :
  PostBuild.findJsonFiles dir (Some (prune_all entries))
    = PostBuild.findJsonFiles dir (Some entries) ∧
  (∀ (before after : list dirent) (sub : option (list dirent)),
     PostBuild.findJsonFiles dir (Some (before ++ DDir "registry" sub :: after))
     = PostBuild.findJsonFiles dir (Some (before ++ after))) ∧
  (∀ (before after : list dirent) (name : string),
     endsWith ".json" name = false →
     PostBuild.findJsonFiles dir (Some (before ++ DFile name :: after))
     = PostBuild.findJsonFiles dir (Some (before ++ after))).
Proof.
  assert (Hskip : ∀ before after entry, looked_at entry = false →
    PostBuild.collect (PostBuild.visit dir) (before ++ entry :: after)
    = PostBuild.collect (PostBuild.visit dir) (before ++ after)).
  { intros before after entry Hl. induction before as [|e before IH].
    - cbn [app]. rewrite collect_cons, (visit_not_looked_at _ _ Hl). cbn.
      by destruct (PostBuild.collect _ after).
    - cbn [app]. by rewrite !collect_cons, IH. }
  split; [|split].
  - cbn [PostBuild.findJsonFiles]. apply collect_prune.
    apply Forall_forall. intros entry _. apply visit_prune.
  - intros before after sub. by apply Hskip.
  - intros before after name Hname. by apply Hskip.
Qed.

(** ** What a run of the transformer touches *)

(** [fs'] has the files and directories of [fs]: the same paths, a text that
    is no JSON unchanged, a JSON text still a JSON text. *)
Definition same_shape (fs fs' : filesystem) : Prop :=
  dirs fs' = dirs fs ∧ unreadable fs' = unreadable fs ∧
  unwritable fs' = unwritable fs ∧
  ∀ q, match files fs !! q with
       | None => files fs' !! q = None
       | Some (Text t) => files fs' !! q = Some (Text t)
       | Some (Json _) => ∃ d', files fs' !! q = Some (Json d')
       end.

Lemma same_shape_refl fs : same_shape fs fs.
Proof.
  repeat split. intros q. destruct (files fs !! q) as [[d|t]|]; eauto.
Qed.

Lemma same_shape_trans fs1 fs2 fs3 :
  same_shape fs1 fs2 → same_shape fs2 fs3 → same_shape fs1 fs3.
Proof.
  intros (Hd & Hr & Hw & Hf) (Hd' & Hr' & Hw' & Hf').
  split; [congruence|]. split; [congruence|]. split; [congruence|].
  intros q. specialize (Hf q). specialize (Hf' q).
  destruct (files fs1 !! q) as [[d|t]|].
  - destruct Hf as [d' Hf]. by rewrite Hf in Hf'.
  - by rewrite Hf in Hf'.
  - by rewrite Hf in Hf'.
Qed.

Lemma rewrite_for_is_json p fs d' :
  rewrite_for p fs = Some d' → ∃ d, files fs !! p = Some (Json d).
Proof.
  unfold rewrite_for, read_file. destruct (bool_decide (p ∈ unreadable fs)); [done|].
  destruct (files fs !! p) as [[d|t]|]; [by eexists|done|done].
Qed.

Lemma same_shape_store p x fs d' :
  rewrite_for p fs = Some d' → same_shape fs (store p (Json x) fs).
Proof.
  intros [d Hd]%rewrite_for_is_json. repeat split. intros q. cbn [files store].
  destruct (decide (q = p)) as [->|Hne].
  - rewrite Hd, lookup_insert_eq. by eexists.
  - rewrite lookup_insert_ne by done.
    destruct (files fs !! q) as [[?|?]|]; eauto.
Qed.

(** The files that a run reported as transformed, in order. *)
Definition reported (evs : list event) : list string :=
  omap (λ e, match e with Console (FileTransformed p) => Some p | _ => None end) evs.

Lemma reported_app evs evs' : reported (evs ++ evs') = reported evs ++ reported evs'.
Proof. apply omap_app. Qed.

Lemma written_write p d evs : written (WriteFile p d :: evs) = (p, d) :: written evs.
Proof. reflexivity. Qed.

Lemma written_console m evs : written (Console m :: evs) = written evs.
Proof. reflexivity. Qed.

Lemma reported_write p d evs : reported (WriteFile p d :: evs) = reported evs.
Proof. reflexivity. Qed.

Lemma reported_transformed p evs :
  reported (Console (FileTransformed p) :: evs) = p :: reported evs.
Proof. reflexivity. Qed.

Lemma error_logs_only evs :
  Forall is_error_log evs → written evs = [] ∧ reported evs = [].
Proof.
  induction 1 as [|e evs (p & err & ->) _ [IHw IHr]]; [done|]. by cbn.
Qed.

Lemma processFile_quiet p fs :
  rewrite_for p fs = None →
  written (emitted (PostBuild.processFile p fs)) = [] ∧
  reported (emitted (PostBuild.processFile p fs)) = [].
Proof.
  intros Hnone. pose proof (processFile_cases p fs) as H. cbv zeta in H.
  rewrite Hnone in H. destruct H as (_ & _ & H). by apply error_logs_only.
Qed.

Lemma scan_touches l n fs :
  let o := PostBuild.scan l n fs in
  same_shape fs (disk o) ∧
  (∀ q, q ∉ l → files (disk o) !! q = files fs !! q) ∧
  returned o = Ok (n + length (written (emitted o))) ∧
  (written (emitted o)).*1 = reported (emitted o) ∧
  reported (emitted o) `sublist_of` l ∧
  Forall (λ e, match e with Mkdir _ | CopyFile _ _ => False | _ => True end)
    (emitted o).
Proof.
  cbv zeta. revert n fs. induction l as [|p l IH]; intros n fs.
  { rewrite scan_nil. cbn. split; [apply same_shape_refl|].
    repeat split; auto with lia. }
  rewrite scan_cons. destruct (rewrite_for p fs) as [d'|] eqn:Hp; cbv zeta;
    cbn [returned disk emitted].
  - destruct (IH (S n) (store p (Json (to_json d')) fs))
      as (Hshape & Hframe & Hret & Hrep & Hsub & Hevs).
    split; [eapply same_shape_trans; [by eapply same_shape_store|done]|].
    split.
    { intros q [Hqp Hq]%not_elem_of_cons. rewrite Hframe by done.
      cbn [files store]. by rewrite lookup_insert_ne. }
    rewrite written_write, written_console, reported_write, reported_transformed.
    split; [rewrite Hret; cbn [length]; f_equal; lia|].
    split; [cbn [fmap list_fmap fst]; by rewrite <- Hrep|].
    split; [by apply sublist_skip|].
    by repeat constructor.
  - destruct (IH n fs) as (Hshape & Hframe & Hret & Hrep & Hsub & Hevs).
    destruct (processFile_quiet p fs Hp) as [Hw Hr].
    split; [done|]. split.
    { intros q [Hqp Hq]%not_elem_of_cons. by apply Hframe. }
    rewrite written_app, reported_app, Hw, Hr. cbn [app].
    split; [done|]. split; [done|]. split; [by apply sublist_cons|].
    apply Forall_app. split; [|done].
    pose proof (processFile_cases p fs) as H. cbv zeta in H. rewrite Hp in H.
    destruct H as (_ & _ & H). eapply Forall_impl; [exact H|].
    by intros e (? & ? & ->).
Qed.

(** X14. A run of the transformer rewrites in place: it creates and removes
    no file and no directory, leaves every file that is no JSON text as it
    is, and leaves every file that the enumeration did not find as it is.
    It makes no directory and copies nothing. *)
Theorem transformer_rewrites_in_place (tree : option (list dirent))
    (fs : filesystem) :
  let o := PostBuild.main tree fs in
  dirs (disk o) = dirs fs ∧
  (∀ q : string,
     match files fs !! q with
     | None => files (disk o) !! q = None
     | Some (Text t) => files (disk o) !! q = Some (Text t)
     | Some (Json _) => ∃ d', files (disk o) !! q = Some (Json d')
     end) ∧
  (∀ (jsonFiles : list string) (q : string),
     PostBuild.findJsonFiles OUTPUT_DIR tree = Ok jsonFiles → q ∉ jsonFiles →
     files (disk o) !! q = files fs !! q) ∧
  Forall (λ e, match e with Mkdir _ | CopyFile _ _ => False | _ => True end)
    (emitted o).
Proof.
  cbv zeta. rewrite main_run.
  destruct (PostBuild.findJsonFiles OUTPUT_DIR tree) as [jsonFiles|e].
  - cbv zeta.
    destruct (scan_touches jsonFiles 0 fs)
      as ((Hd & _ & _ & Hf) & Hframe & Hret & _ & _ & Hevs).
    rewrite Hret. cbn [returned disk emitted].
    split; [done|]. split; [done|]. split.
    + intros ? q [= <-]. apply Hframe.
    + apply Forall_app. split; [done|]. by repeat constructor.
  - cbn [returned disk emitted]. split; [done|].
    split; [apply same_shape_refl|]. split; [done|constructor].
Qed.

(** X15. The count that the transformer prints at the end is the number of
    files it wrote; the files it reports as transformed are the files it
    wrote, in the order in which the enumeration found them. *)
Theorem transformed_count_is_accurate (tree : option (list dirent))
    (jsonFiles : list string) (fs : filesystem) :
  PostBuild.findJsonFiles OUTPUT_DIR tree = Ok jsonFiles →
  let evs := emitted (PostBuild.main tree fs) in
  last evs = Some (Console (TransformedTotal (length (written evs)))) ∧
  (written evs).*1 = reported evs ∧
  reported evs `sublist_of` jsonFiles.
Proof.
  intros Hfind. cbv zeta. rewrite main_run, Hfind. cbv zeta.
  destruct (scan_touches jsonFiles 0 fs) as (_ & _ & Hret & Hrep & Hsub & _).
  rewrite Hret. cbn [returned disk emitted].
  rewrite last_snoc, written_app, reported_app.
  change (written [Console _]) with (@nil (string * fdata)).
  change (reported [Console _]) with (@nil string).
  by rewrite !app_nil_r.
Qed.

Lemma transformed_count_is_accurate_witness :
  let evs :=
    emitted (PostBuild.main (Some [DFile "registry.json"; DFile "notes.txt"])
               sample_disk) in
  last evs = Some (Console (TransformedTotal (length (written evs)))) ∧
  (written evs).*1 = reported evs.
Proof.
  cbv zeta.
  destruct (transformed_count_is_accurate
              (Some [DFile "registry.json"; DFile "notes.txt"])
              ["public/r/registry.json"] sample_disk) as (H1 & H2 & _).
  - reflexivity.
  - by split.
Defined.

(** ** How the builders can end *)

(** The errors that a pure computation, and a computation with effects, can
    raise. *)
Section raises.
Context (E : exn → Prop).

Definition fails_only {A} (r : result A) : Prop := ∀ e, r = Throw e → E e.

Definition raises_only {A} (m : M A) : Prop :=
  ∀ fs e, returned (m fs) = Throw e → E e.

Lemma fails_only_Ok {A} (a : A) : fails_only (Ok a).
Proof. intros e [=]. Qed.

Lemma fails_only_bind {A B} (r : result A) (f : A → result B) :
  fails_only r → (∀ a, r = Ok a → fails_only (f a)) → fails_only (r ≫= f).
Proof.
  intros Hr Hf e. destruct r as [a|e']; cbn.
  - by apply Hf.
  - intros [= <-]. by apply Hr.
Qed.

Lemma fails_only_fmap {A B} (r : result A) (f : A → B) :
  fails_only r → fails_only (f <$> r).
Proof. intros Hr e. destruct r as [a|e']; cbn; [done|]. intros [= <-]. by apply Hr. Qed.

Lemma fails_only_mapM {A B} (f : A → result B) l :
  (∀ x, fails_only (f x)) → fails_only (mapM f l).
Proof. intros Hf e (x & _ & Hx)%mapM_error. by eapply Hf. Qed.

Lemma raises_only_ret {A} (a : A) : raises_only (mret a).
Proof. intros fs e [=]. Qed.

Lemma raises_only_bind {A B} (m : M A) (f : A → M B) :
  raises_only m → (∀ a, raises_only (f a)) → raises_only (m ≫= f).
Proof.
  intros Hm Hf fs e. rewrite M_bind_eq.
  destruct (returned (m fs)) as [a|e'] eqn:Hr; cbn [returned].
  - apply Hf.
  - intros [= <-]. by eapply Hm.
Qed.

Lemma raises_only_lift {A} (r : result A) : fails_only r → raises_only (lift r).
Proof. intros Hr fs e. apply Hr. Qed.

Lemma raises_only_lift_bind {A B} (r : result A) (f : A → M B) :
  fails_only r → (∀ a, r = Ok a → raises_only (f a)) →
  raises_only (lift r ≫= f).
Proof.
  intros Hr Hf fs e. rewrite M_bind_eq, lift_run. cbn [returned disk emitted].
  destruct r as [a|e']; cbn [returned].
  - by apply Hf.
  - intros [= <-]. by apply Hr.
Qed.

Lemma raises_only_console m : raises_only (console m).
Proof. intros fs e [=]. Qed.

Lemma raises_only_for_of {A S} (body : S → A → M S) xs s :
  (∀ s x, raises_only (body s x)) → raises_only (for_of body xs s).
Proof.
  intros Hbody. revert s. induction xs as [|x xs IH]; intros s.
  - apply raises_only_ret.
  - apply raises_only_bind; [apply Hbody|apply IH].
Qed.

Hypothesis system_errors : ∀ code, E (SystemError code).

Lemma raises_only_exists p : raises_only (fs_existsSync p).
Proof. intros fs e [=]. Qed.

Lemma raises_only_ensureDir dir : raises_only (ensureDir dir).
Proof.
  intros fs e. rewrite ensureDir_eq. destruct (is_there dir fs); [done|].
  destruct (bool_decide _); [|done]. intros [= <-]. apply system_errors.
Qed.

Lemma raises_only_write_object p ps : raises_only (write_json p (JObj ps)).
Proof.
  intros fs e. unfold write_json, fs_writeFileSync.
  destruct (bool_decide _); [|done]. intros [= <-]. apply system_errors.
Qed.

Lemma raises_only_copyFile src dest : raises_only (Flat.copyFile src dest).
Proof.
  apply raises_only_bind; [apply raises_only_ensureDir|]. intros _ fs e.
  unfold fs_copyFileSync. destruct (read_file src fs) as [d|e'] eqn:Hread.
  - destruct (bool_decide _); [|done]. intros [= <-]. apply system_errors.
  - intros [= <-]. apply read_file_error in Hread as [code ->].
    apply system_errors.
Qed.
End raises.

Definition type_error (e : exn) : Prop := e = TypeError.

(** An exception, as opposed to [process.exit]. *)
Definition exception (e : exn) : Prop :=
  match e with ProcessExit _ => False | _ => True end.

Lemma type_error_exception {A} (r : result A) :
  fails_only type_error r → fails_only exception r.
Proof. intros Hr e He. by rewrite (Hr e He). Qed.

Lemma get_type_error k v : fails_only type_error (get k v).
Proof. intros e. apply get_error. Qed.

Lemma to_string_type_error v : fails_only type_error (to_string v).
Proof.
  induction v as [| | | | |es IH|ps IH] using value_nested_ind;
    try (intros e; discriminate).
  - cbn [to_string]. apply fails_only_fmap. intros e (x & Hin & Hx)%mapM_error.
    pose proof (proj1 (Forall_forall _ _) IH x Hin) as Hrec.
    destruct x; try discriminate; by apply Hrec.
  - intros e. cbn. destruct (assoc "toString" ps); [by intros [= <-]|discriminate].
Qed.

Lemma flat_rewriter_type_error deps :
  fails_only type_error (Flat.transformRegistryDependencies deps).
Proof.
  intros e. destruct (Array_isArray deps) eqn:Harr.
  - destruct deps; try discriminate. rewrite flat_rewriter_array.
    unfold rewritten_array. destruct (forallb _ _); [done|]. by intros [= <-].
  - by destruct (guarded_rewriters_not_array deps Harr) as [-> _].
Qed.

Lemma without_content_type_error file :
  fails_only type_error (Flat.without_content file).
Proof. intros e. destruct file; cbn; by intros [= <-]. Qed.

Lemma generateItemJSON_type_error item :
  fails_only type_error (Flat.generateItemJSON item).
Proof.
  unfold Flat.generateItemJSON.
  apply fails_only_bind.
  { destruct (truthy _); [|apply fails_only_Ok].
    apply fails_only_bind; [apply flat_rewriter_type_error|].
    intros; apply fails_only_Ok. }
  intros c1 _. apply fails_only_bind; [|intros; apply fails_only_Ok].
  destruct (truthy _ && _); [|apply fails_only_Ok].
  apply fails_only_bind; [|intros; apply fails_only_Ok].
  apply fails_only_mapM, without_content_type_error.
Qed.

Lemma index_item_type_error item : fails_only type_error (Flat.index_item item).
Proof.
  apply fails_only_bind; [apply get_type_error|]. intros deps _.
  apply fails_only_bind; [apply flat_rewriter_type_error|].
  intros; apply fails_only_Ok.
Qed.

Lemma validateString_type_error p : fails_only type_error (Flat.validateString p).
Proof. intros e. destruct p; cbn; by intros [= <-]. Qed.

Lemma exception_system code : exception (SystemError code).
Proof. exact I. Qed.

Lemma copy_step_raises c file : raises_only exception (copy_step c file).
Proof.
  apply raises_only_lift_bind; [apply type_error_exception, get_type_error|].
  intros p _.
  apply raises_only_lift_bind;
    [apply type_error_exception, validateString_type_error|].
  intros sourcePath _. cbv zeta.
  apply raises_only_bind; [apply raises_only_exists|]. intros [].
  - apply raises_only_bind;
      [apply raises_only_copyFile, exception_system|intros; apply raises_only_ret].
  - apply raises_only_bind; [apply raises_only_console|intros; apply raises_only_ret].
Qed.

Lemma copySourceFiles_raises item : raises_only exception (Flat.copySourceFiles item).
Proof.
  rewrite copySourceFiles_eq.
  apply raises_only_lift_bind; [apply type_error_exception, get_type_error|].
  intros files _. destruct (negb _ || negb _); [apply raises_only_ret|].
  apply raises_only_bind; [|intros; apply raises_only_ret].
  apply raises_only_for_of. intros. apply copy_step_raises.
Qed.

Lemma generateItemJSON_object item out :
  Flat.generateItemJSON item = Ok out → ∃ ps, out = JObj ps.
Proof.
  unfold Flat.generateItemJSON.
  destruct (if truthy _ then _ else _) as [c1|]; [|discriminate].
  cbn [mbind result_bind].
  destruct (if truthy _ && _ then _ else _) as [c2|]; [|discriminate].
  cbn [mbind result_bind]. intros [= <-]. by eexists.
Qed.

Lemma processItem_raises st item : raises_only exception (Flat.processItem st item).
Proof.
  unfold Flat.processItem.
  apply raises_only_lift_bind; [apply type_error_exception, get_type_error|].
  intros name _. destruct (negb (truthy name)).
  { apply raises_only_bind; [apply raises_only_console|intros; apply raises_only_ret]. }
  apply raises_only_lift_bind;
    [apply type_error_exception, generateItemJSON_type_error|].
  intros itemJSON [ps ->]%generateItemJSON_object.
  apply raises_only_lift_bind;
    [apply type_error_exception, to_string_type_error|].
  intros fileName _.
  apply raises_only_bind; [apply raises_only_write_object, exception_system|].
  intros _. apply raises_only_bind; [apply copySourceFiles_raises|].
  intros filesCopied.
  apply raises_only_lift_bind; [apply type_error_exception, get_type_error|].
  intros type _.
  apply raises_only_bind; [apply raises_only_console|]. intros _.
  apply raises_only_lift_bind;
    [apply type_error_exception, to_string_type_error|].
  intros typeName _.
  apply raises_only_bind; [apply raises_only_console|]. intros _.
  apply raises_only_bind; [|intros; apply raises_only_ret].
  destruct (bool_decide _); [apply raises_only_console|apply raises_only_ret].
Qed.

(** What [buildFlatRegistry] does once it has found the list of items. *)
Lemma buildFrom_items registry its fs e :
  get "items" registry = Ok (JArr its) →
  returned (Flat.buildFrom registry fs) = Throw e → exception e.
Proof.
  intros Hitems. unfold Flat.buildFrom.
  rewrite M_bind_eq, lift_run, Hitems.
  cbn [returned disk emitted truthy Array_isArray negb orb array_elements app].
  intros He.
  assert (Hrest : raises_only exception
    (ensureDir OUTPUT_DIR;;
     console (ProcessingItems (length its));;
     st ← for_of Flat.processItem its (0, []);
     transformedItems ← lift (mapM Flat.index_item its);
     write_json (path_join OUTPUT_DIR "registry.json")
       (JObj (set_prop "items" (JArr transformedItems)
                (spread_into [] registry)));;
     console (FlatSummary (length st.2) st.1))).
  { apply raises_only_bind; [apply raises_only_ensureDir, exception_system|].
    intros _. apply raises_only_bind; [apply raises_only_console|]. intros _.
    apply raises_only_bind;
      [apply raises_only_for_of; intros; apply processItem_raises|].
    intros st. apply raises_only_lift_bind.
    { apply type_error_exception, fails_only_mapM. intros x.
      apply index_item_type_error. }
    intros transformedItems _.
    apply raises_only_bind; [apply raises_only_write_object, exception_system|].
    intros _. apply raises_only_console. }
  exact (Hrest fs e He).
Qed.

Lemma from_get_items registry :
  (∃ its, get "items" registry = Ok (JArr its)) ∨
  (∀ its, get "items" registry ≠ Ok (JArr its)).
Proof.
  destruct (get "items" registry) as [[| | | | |its|]|]; eauto; right; done.
Qed.

(** X16. However the Flat Registry Builder ends, it ends with status 0 or
    with status 1, and never by an exception that nobody caught; before it
    exits with status 1, the last thing it prints is the report of the
    failure. *)
Theorem flat_builder_ends_with_0_or_1 (fs : filesystem) :
  let o := Flat.main fs in
  returned o = Ok tt ∨
  returned o = Throw (ProcessExit 1) ∧
  ∃ (evs : list event) (m : message),
    emitted o = evs ++ [Console m] ∧
    (m = NoItemsFound ∨
     ∃ e : exn, exception e ∧ (m = FailedToReadRegistry e ∨ m = BuildFailed e)).
Proof.
  cbv zeta. pose proof (readRegistryConfig_run fs) as Hconfig.
  destruct (read_file Flat.REGISTRY_FILE fs) as [[registry|t]|e] eqn:Hread.
  - destruct (from_get_items registry) as [[its Hitems]|Hno].
    + rewrite (flat_main_run registry fs Hread). cbv zeta.
      pose proof (buildFrom_items registry its fs) as Hexn.
      destruct (returned (Flat.buildFrom registry fs)) as [[]|e] eqn:Hret;
        [by left|].
      specialize (Hexn e Hitems eq_refl). right.
      destruct e; try done; cbn [returned emitted];
        (split; [done|]; eexists _, _; split; [done|]; right; eexists;
         split; [|right; reflexivity]; exact I).
    + rewrite (flat_main_without_items fs registry Hread Hno). right.
      split; [done|]. eexists [], _. split; [done|].
      destruct registry; try (by left);
        right; exists TypeError; (split; [exact I|by right]).
  - rewrite (flat_main_unread fs _ Hconfig). right. split; [done|].
    eexists [], _. split; [done|]. right. exists SyntaxError. split; [exact I|by left].
  - rewrite (flat_main_unread fs _ Hconfig). right. split; [done|].
    eexists [], _. split; [done|]. right. exists e. split; [|by left].
    by apply read_file_error in Hread as [code ->].
Qed.

(** An error of the file system. *)
Definition system_error (e : exn) : Prop := ∃ code, e = SystemError code.

Lemma system_error_system code : system_error (SystemError code).
Proof. by exists code. Qed.

Lemma raises_only_for_of_in (E : exn → Prop) {A S} (body : S → A → M S) xs s :
  Forall (λ x, ∀ s, raises_only E (body s x)) xs →
  raises_only E (for_of body xs s).
Proof.
  intros Hbody. revert s. induction Hbody as [|x xs Hx _ IH]; intros s.
  - apply raises_only_ret.
  - apply raises_only_bind; [apply Hx|apply IH].
Qed.

Lemma buildBundle_raises backend cfg item registry title label count :
  default JUndefined (assoc backend Bundles.BUNDLES) = cfg →
  Bundles.generateBundleJSON cfg = Ok (JObj item) →
  Bundles.createBundleRegistry backend [cfg] = Ok (JObj registry) →
  (t ← get "title" cfg; to_string t) = Ok title →
  (meta ← get "meta" cfg; b ← get "backend" meta; to_string b) = Ok label →
  (deps ← get "registryDependencies" cfg; n ← get_length deps; to_string n)
    = Ok count →
  raises_only system_error (Bundles.buildBundle backend).
Proof.
  intros Hcfg Hitem Hreg Htitle Hlabel Hcount.
  unfold Bundles.buildBundle. rewrite Hcfg. cbv zeta.
  apply raises_only_bind;
    [apply raises_only_ensureDir, system_error_system|intros _].
  apply raises_only_lift_bind; [rewrite Hitem; apply fails_only_Ok|].
  intros ?. rewrite Hitem. intros [= <-].
  apply raises_only_bind;
    [apply raises_only_write_object, system_error_system|intros _].
  apply raises_only_lift_bind; [rewrite Hreg; apply fails_only_Ok|].
  intros ?. rewrite Hreg. intros [= <-].
  apply raises_only_bind;
    [apply raises_only_write_object, system_error_system|intros _].
  apply raises_only_bind; [apply raises_only_console|intros _].
  apply raises_only_lift_bind; [rewrite Htitle; apply fails_only_Ok|].
  intros ? _.
  apply raises_only_bind; [apply raises_only_console|intros _].
  apply raises_only_lift_bind; [rewrite Hlabel; apply fails_only_Ok|].
  intros ? _.
  apply raises_only_bind; [apply raises_only_console|intros _].
  apply raises_only_lift_bind; [rewrite Hcount; apply fails_only_Ok|].
  intros ? _. apply raises_only_console.
Qed.

Lemma buildBundles_raises : raises_only system_error Bundles.buildBundles.
Proof.
  unfold Bundles.buildBundles. cbv zeta.
  apply raises_only_bind; [apply raises_only_console|intros _].
  apply raises_only_bind; [|intros; apply raises_only_console].
  apply raises_only_for_of_in.
  repeat (constructor;
    [intros _; eapply buildBundle_raises;
       [reflexivity | vm_compute; reflexivity | vm_compute; reflexivity
       | vm_compute; reflexivity | vm_compute; reflexivity
       | vm_compute; reflexivity]|]).
  constructor.
Qed.

(** X17. The Bundle Registry Builder can only fail on the file system: its
    table of configurations is well formed, so a run either ends normally or
    meets an error of a file-system call, which the handler at the top
    reports last, before it exits with status 1. *)
Theorem bundles_builder_ends_with_0_or_1 (fs : filesystem) :
  let o := Bundles.main fs in
  returned o = Ok tt ∨
  returned o = Throw (ProcessExit 1) ∧
  ∃ (evs : list event) (code : string),
    emitted o = evs ++ [Console (BuildFailed (SystemError code))].
Proof.
  cbv zeta. unfold Bundles.main, try_catch.
  pose proof (buildBundles_raises fs) as Hexn.
  destruct (returned (Bundles.buildBundles fs)) as [[]|e] eqn:Hret; [by left|].
  destruct (Hexn e eq_refl) as [code ->]. right.
  cbn [returned emitted]. split; [done|]. by eexists _, _.
Qed.

(** ** What the Flat Registry Builder writes and counts *)

Lemma copySourceFiles_events item fs n :
  returned (Flat.copySourceFiles item fs) = Ok n →
  written (emitted (Flat.copySourceFiles item fs)) = [] ∧
  default 0 n = length (copied (emitted (Flat.copySourceFiles item fs))).
Proof.
  destruct (get "files" item) as [files|e] eqn:Hfiles.
  - destruct (Array_isArray files) eqn:Harr.
    + destruct files as [| | | | |entries|]; try discriminate.
      rewrite (copySourceFiles_run _ _ _ Hfiles). cbv zeta.
      cbn [returned disk emitted].
      destruct (returned (for_of copy_step entries 0 fs)) as [c|] eqn:Hc; [|done].
      intros [= <-]. by apply copy_loop_counts in Hc as (-> & _ & _ & ->).
    + rewrite copySourceFiles_eq, M_bind_eq, lift_run, Hfiles.
      cbn [returned disk emitted]. rewrite Harr, orb_true_r. by intros [= <-].
  - rewrite copySourceFiles_eq, M_bind_eq, lift_run, Hfiles. done.
Qed.

(** The descriptor file of an item: its path and its content. *)
Definition descriptor_of (item : value) (file : string * fdata) : Prop :=
  ∃ name fileName itemJSON,
    get "name" item = Ok name ∧ to_string name = Ok fileName ∧
    Flat.generateItemJSON item = Ok itemJSON ∧
    file = (path_join OUTPUT_DIR (fileName +:+ ".json"),
            Json (to_json itemJSON)).

Lemma copied_console m evs : copied (Console m :: evs) = copied evs.
Proof. reflexivity. Qed.

Lemma write_object_run p ps fs :
  write_json p (JObj ps) fs
  = if bool_decide (p ∈ unwritable fs)
    then mk_outcome (Throw (SystemError "EACCES")) fs []
    else mk_outcome (Ok tt) (store p (Json (to_json (JObj ps))) fs)
           [WriteFile p (Json (to_json (JObj ps)))].
Proof. reflexivity. Qed.

Lemma processItem_named st item name fs st' :
  get "name" item = Ok name → truthy name = true →
  returned (Flat.processItem st item fs) = Ok st' →
  ∃ file rest,
    descriptor_of item file ∧
    emitted (Flat.processItem st item fs) = WriteFile file.1 file.2 :: rest ∧
    written rest = [] ∧
    st'.1 = st.1 + length (copied rest) ∧
    length st'.2 = S (length st.2).
Proof.
  intros Hname Htruthy. unfold Flat.processItem.
  rewrite M_bind_eq, lift_run, Hname. cbn [returned disk emitted app].
  rewrite Htruthy. cbn [negb].
  rewrite M_bind_eq, lift_run. cbn [returned disk emitted app].
  destruct (Flat.generateItemJSON item) as [itemJSON|] eqn:Hgen; [|done].
  destruct (generateItemJSON_object _ _ Hgen) as [ps ->].
  rewrite M_bind_eq, lift_run. cbn [returned disk emitted app].
  destruct (to_string name) as [fileName|] eqn:Hfile; [|done].
  rewrite M_bind_eq, write_object_run.
  destruct (bool_decide _); [done|]. cbn [returned disk emitted app].
  rewrite M_bind_eq.
  pose proof (copySourceFiles_events item
    (store (path_join OUTPUT_DIR (fileName +:+ ".json"))
       (Json (to_json (JObj ps))) fs)) as Hcopy.
  destruct (returned (Flat.copySourceFiles item _)) as [filesCopied|]; [|done].
  destruct (Hcopy filesCopied eq_refl) as [Hwr Hcount].
  cbn [returned disk emitted app].
  rewrite M_bind_eq, lift_run. cbn [returned disk emitted app].
  destruct (get "type" item) as [type|]; [|done].
  rewrite M_bind_eq, console_run. cbn [returned disk emitted app].
  rewrite M_bind_eq, lift_run. cbn [returned disk emitted app].
  destruct (to_string type) as [typeName|]; [|done].
  rewrite M_bind_eq, console_run. cbn [returned disk emitted app].
  rewrite M_bind_eq.
  set (report := if bool_decide _ then _ else _).
  assert (∃ evs, report = (λ fs, mk_outcome (Ok tt) fs evs) ∧
                 written evs = [] ∧ copied evs = []) as (evs & -> & Hw & Hc).
  { unfold report. destruct (bool_decide _); by eexists. }
  cbn [returned disk emitted app]. intros [= <-].
  eexists (_, _), _. split; [by eexists _, _, _|]. split; [reflexivity|].
  change (emitted (mret (M:=M) _ _)) with (@nil event). rewrite app_nil_r.
  rewrite written_app, copied_app, !written_console, !copied_console.
  rewrite Hwr, Hw, Hc, !app_nil_r, <- Hcount. cbn [fst snd].
  rewrite length_app. cbn [length]. split; [done|]. split; [done|lia].
Qed.

(** Does the builder take an item for one with a name? *)
Definition has_name (item : value) : bool :=
  match get "name" item with Ok name => truthy name | Throw _ => false end.

Definition named (items : list value) : list value :=
  filter (λ item, has_name item = true) items.

Lemma processItems_counts items st fs st' :
  returned (for_of Flat.processItem items st fs) = Ok st' →
  let evs := emitted (for_of Flat.processItem items st fs) in
  Forall2 descriptor_of (named items) (written evs) ∧
  st'.1 = st.1 + length (copied evs) ∧
  length st'.2 = length st.2 + length (named items).
Proof.
  cbv zeta. revert st fs. induction items as [|item items IH]; intros st fs.
  { intros [= <-]. cbn. split; [constructor|]. split; lia. }
  rewrite for_of_cons, M_bind_eq. unfold named. rewrite filter_cons.
  fold (named items).
  destruct (returned (Flat.processItem st item fs)) as [st1|] eqn:Hitem; [|done].
  cbn [returned disk emitted]. intros Hrest.
  destruct (IH _ _ Hrest) as (Hfiles & Hcopies & Hstats).
  rewrite written_app, copied_app, length_app.
  destruct (get "name" item) as [name|] eqn:Hname.
  2:{ exfalso. revert Hitem. unfold Flat.processItem.
      by rewrite M_bind_eq, lift_run, Hname. }
  destruct (truthy name) eqn:Htruthy.
  - rewrite decide_True by (unfold has_name; by rewrite Hname).
    destruct (processItem_named _ _ _ _ _ Hname Htruthy Hitem)
      as ([p d] & rest & Hdesc & -> & Hwr & Hc & Hs).
    rewrite written_write, Hwr. cbn [app length fst snd].
    change (copied (WriteFile p d :: rest)) with (copied rest).
    split; [by constructor|]. split; lia.
  - rewrite decide_False by (unfold has_name; by rewrite Hname, Htruthy).
    rewrite (processItem_nameless _ _ _ _ Hname Htruthy) in *.
    cbn [returned disk emitted] in *. injection Hitem as <-.
    cbn. split; [done|]. split; lia.
Qed.

(** X18. When the loop over the items ends normally, the descriptor files
    it wrote are those of the items with a name, one each and in their
    order: the file of an item is [<name>.json] in the output directory and
    holds what [generateItemJSON] makes of the item. *)
Theorem descriptors_of_the_named_items (items : list value)
    (st st' : nat * list Flat.stat) (fs : filesystem) :
  returned (for_of Flat.processItem items st fs) = Ok st' →
  Forall2 descriptor_of (named items)
    (written (emitted (for_of Flat.processItem items st fs))).
Proof. intros Hret. by apply processItems_counts in Hret as (? & _ & _). Qed.

Lemma descriptors_of_the_named_items_witness :
  Forall2 descriptor_of (named [form_item; nameless_item])
    (written (emitted (for_of Flat.processItem [form_item; nameless_item]
                         (0, []) flat_sample_disk))).
Proof.
  apply (descriptors_of_the_named_items _ (0, [])
           (1, [Flat.mk_stat (JStr "coderabbit-form") (JStr "registry:lib") 1])).
  vm_compute. reflexivity.
Defined.

(** X19. When the Flat Registry Builder ends normally, the summary it prints
    is accurate: the number of registry items is the number of items with a
    name, which is the number of descriptor files written besides the
    index, and the number of source files copied is the number of copies
    made. *)
Theorem flat_summary_is_accurate (fs : filesystem) (registry : value)
    (its : list value) :
  read_file Flat.REGISTRY_FILE fs = Ok (Json registry) →
  get "items" registry = Ok (JArr its) →
  returned (Flat.main fs) = Ok tt →
  ∃ (evs : list event) (index : fdata),
    emitted (Flat.main fs)
    = evs ++ [WriteFile "public/r/registry.json" index;
              Console (FlatSummary
                         (length (named its)) (length (copied evs)))] ∧
    length (written evs) = length (named its).
Proof.
  intros Hread Hitems. rewrite (flat_main_run registry fs Hread). cbv zeta.
  rewrite (buildFrom_run registry its fs Hitems). cbv zeta.
  destruct (ensureDir_frame OUTPUT_DIR fs) as (_ & _ & _ & _ & Hdir).
  destruct (returned (ensureDir OUTPUT_DIR fs)) as [[]|e]; cbn [returned];
    [|by destruct e].
  pose proof (processItems_counts its (0, []) (disk (ensureDir OUTPUT_DIR fs)))
    as Hloop.
  destruct (returned (for_of Flat.processItem its (0, []) _)) as [st|e];
    cbn [returned]; [|by destruct e].
  destruct (Hloop st eq_refl) as (Hfiles & Hcopies & Hstats).
  destruct (mapM Flat.index_item its) as [transformedItems|e];
    cbn [returned]; [|by destruct e].
  destruct (bool_decide _); cbn [returned emitted]; [done|]. intros _.
  set (evs := emitted (ensureDir OUTPUT_DIR fs) ++ _ :: _).
  assert (copied evs
          = copied (emitted (for_of Flat.processItem its (0, [])
                               (disk (ensureDir OUTPUT_DIR fs)))) ∧
          written evs
          = written (emitted (for_of Flat.processItem its (0, [])
                                (disk (ensureDir OUTPUT_DIR fs)))))
    as [Hc Hw].
  { unfold evs. rewrite copied_app, written_app, copied_console, written_console.
    by destruct Hdir as [->| ->]. }
  exists evs, (Json (to_json (consolidated registry transformedItems))).
  split.
  - cbn [fst snd length] in Hstats, Hcopies.
    rewrite Hstats, Hc, Hcopies. reflexivity.
  - rewrite Hw. symmetry. by eapply Forall2_length.
Qed.

Lemma flat_summary_is_accurate_witness :
  ∃ evs index,
    emitted (Flat.main flat_sample_disk)
    = evs ++ [WriteFile "public/r/registry.json" index;
              Console (FlatSummary 1 (length (copied evs)))].
Proof.
  destruct (flat_summary_is_accurate flat_sample_disk
              (JObj [("name", JStr "coderabbit");
                     ("items", JArr [form_item; nameless_item])])
              [form_item; nameless_item]) as (evs & index & H & _).
  - vm_compute. reflexivity.
  - reflexivity.
  - vm_compute. reflexivity.
  - by exists evs, index.
Defined.

(** ** The transformer after the builders *)

(** What a rewriter of a builder returned is settled, also once it has been
    written and read again. *)
Lemma flat_rewriter_settled deps t :
  Flat.transformRegistryDependencies deps = Ok t → settled (to_json t).
Proof.
  destruct (Array_isArray deps) eqn:Harr.
  - destruct deps; try discriminate. rewrite flat_rewriter_array.
    intros (ds & -> & ->)%rewritten_array_Ok.
    rewrite to_json_strings. apply settled_rewritten.
  - destruct (guarded_rewriters_not_array deps Harr) as [-> _]. intros [= <-].
    apply settled_not_array. by rewrite to_json_array.
Qed.

Lemma bundles_rewriter_settled deps t :
  Bundles.transformRegistryDependencies deps = Ok t → settled (to_json t).
Proof.
  intros (ds & -> & ->)%bundles_rewriter_Ok.
  rewrite to_json_strings. apply settled_rewritten.
Qed.

Lemma NoDup_schema_base : NoDup [("$schema", item_schema)].*1.
Proof. apply NoDup_singleton. Qed.

Lemma generateItemJSON_keys item out :
  Flat.generateItemJSON item = Ok out → NoDup (own_props out).*1.
Proof.
  unfold Flat.generateItemJSON. fold item_schema.
  pose proof (NoDup_spread _ item NoDup_schema_base) as Hc0.
  set (c0 := spread_into _ item) in *.
  set (step1 := if truthy _ then _ else _).
  assert (∀ c1, step1 = Ok c1 → NoDup c1.*1) as Hc1.
  { intros c1. unfold step1. destruct (truthy _); [|by intros [= <-]].
    destruct (Flat.transformRegistryDependencies _); [|done].
    cbn. intros [= <-]. by apply NoDup_set_prop. }
  destruct step1 as [c1|]; [|done]. specialize (Hc1 c1 eq_refl).
  cbn [mbind result_bind].
  set (step2 := if truthy _ && _ then _ else _).
  assert (∀ c2, step2 = Ok c2 → NoDup c2.*1) as Hc2.
  { intros c2. unfold step2. destruct (truthy _ && _); [|by intros [= <-]].
    destruct (mapM _ _); [|done]. cbn. intros [= <-]. by apply NoDup_set_prop. }
  destruct step2 as [c2|]; [|done]. cbn [mbind result_bind].
  intros [= <-]. by apply Hc2.
Qed.

(** X20. The transformer leaves a descriptor of the Flat Registry Builder
    alone: the document that [generateItemJSON] makes of an item (one that
    has no [items] list of its own) is, once written, reported as
    unmodified by the transformation of the transformer, so a file that
    holds it is neither rewritten nor reported. *)
Theorem flat_descriptor_is_settled (item out : value) (p : string)
    (fs : filesystem) :
  NoDup (own_props item).*1 →
  Array_isArray (field "items" item) = false →
  Flat.generateItemJSON item = Ok out →
  PostBuild.transformData (to_json out) = Ok (to_json out, false) ∧
  (read_file p fs = Ok (Json (to_json out)) →
   PostBuild.processFile p fs = mk_outcome (Ok false) fs []).
Proof.
  intros Hnd Hitems Hgen.
  assert (PostBuild.transformData (to_json out) = Ok (to_json out, false)) as Ht.
  { pose proof (generateItemJSON_keys _ _ Hgen) as Hkeys.
    destruct (generateItemJSON_fields _ _ Hnd Hgen) as (_ & Hrd & _ & Hframe).
    destruct (generateItemJSON_object _ _ Hgen) as [ps ->].
    eapply transformData_settled.
    - rewrite get_to_json by done. reflexivity.
    - eapply flat_rewriter_settled. symmetry. exact Hrd.
    - rewrite get_to_json, Hframe by done. reflexivity.
    - left. by rewrite to_json_array. }
  split; [done|]. intros Hread. by rewrite processFile_run, Hread, Ht.
Qed.

Lemma flat_descriptor_is_settled_witness :
  ∃ out, Flat.generateItemJSON form_item = Ok out ∧
         PostBuild.transformData (to_json out) = Ok (to_json out, false).
Proof.
  destruct (Flat.generateItemJSON form_item) as [out|] eqn:Hgen;
    [|by vm_compute in Hgen].
  exists out. split; [done|].
  refine (proj1 (flat_descriptor_is_settled form_item out ""
                   (mk_filesystem ∅ ∅ ∅ ∅) _ _ Hgen)).
  - compute_done.
  - reflexivity.
Defined.

Lemma to_json_objects (xs : list value) :
  Forall (λ x, ∃ ps, x = JObj ps) xs →
  to_json (JArr xs) = JArr (to_json <$> xs).
Proof.
  intros Hxs. cbn [to_json]. f_equal. apply list_fmap_ext.
  intros i x Hx. apply list_elem_of_lookup_2 in Hx.
  by destruct (proj1 (Forall_forall _ _) Hxs x Hx) as [ps ->].
Qed.

(** An entry of an index: [{ ...item, registryDependencies: deps' }]. *)
Lemma entry_settled item deps' :
  settled (to_json deps') →
  PostBuild.transformItem
    (to_json (JObj (set_prop "registryDependencies" deps' (spread_into [] item))))
  = Ok (to_json (JObj (set_prop "registryDependencies" deps'
                         (spread_into [] item))), false).
Proof.
  intros Hs. eapply transformItem_settled; [|exact Hs].
  rewrite get_to_json by (by apply NoDup_set_prop, NoDup_spread, NoDup_nil).
  cbn [get fmap result_fmap]. by rewrite assoc_set_prop, String.eqb_refl.
Qed.

Lemma index_item_settled item x :
  Flat.index_item item = Ok x →
  (∃ ps, x = JObj ps) ∧
  PostBuild.transformItem (to_json x) = Ok (to_json x, false).
Proof.
  unfold Flat.index_item.
  destruct (get "registryDependencies" item) as [deps|]; [|done].
  cbn [mbind result_bind].
  destruct (Flat.transformRegistryDependencies deps) as [t|] eqn:Ht; [|done].
  cbn [mbind result_bind]. intros [= <-]. split; [by eexists|].
  apply entry_settled. by eapply flat_rewriter_settled.
Qed.

Lemma bundle_entry_settled item x :
  bundle_entry item = Ok x →
  (∃ ps, x = JObj ps) ∧
  PostBuild.transformItem (to_json x) = Ok (to_json x, false).
Proof.
  unfold bundle_entry.
  destruct (get "registryDependencies" item) as [deps|]; [|done].
  cbn [mbind result_bind].
  destruct (Bundles.transformRegistryDependencies deps) as [t|] eqn:Ht; [|done].
  cbn [mbind result_bind]. intros [= <-]. split; [by eexists|].
  apply entry_settled. by eapply bundles_rewriter_settled.
Qed.

Lemma entries_settled (f : value → result value) its xs :
  (∀ item x, f item = Ok x →
     (∃ ps, x = JObj ps) ∧
     PostBuild.transformItem (to_json x) = Ok (to_json x, false)) →
  mapM f its = Ok xs →
  to_json (JArr xs) = JArr (to_json <$> xs) ∧
  Forall (λ it, PostBuild.transformItem it = Ok (it, false)) (to_json <$> xs).
Proof.
  intros Hf Hmap.
  assert (Forall (λ x, (∃ ps, x = JObj ps) ∧
                       PostBuild.transformItem (to_json x) = Ok (to_json x, false))
            xs) as Hxs.
  { apply Forall_forall. intros x [i Hi]%list_elem_of_lookup_1.
    assert (length xs = length its) as Hlen by by eapply mapM_length.
    assert (is_Some (its !! i)) as [item Hitem].
    { apply lookup_lt_is_Some. rewrite <- Hlen. by eapply lookup_lt_Some. }
    destruct (mapM_lookup _ _ _ _ _ Hmap Hitem) as (y & Hy & Hrun).
    rewrite Hi in Hy. injection Hy as <-. by eapply Hf. }
  split.
  - apply to_json_objects. eapply Forall_impl; [exact Hxs|]. by intros x [? _].
  - apply Forall_fmap. eapply Forall_impl; [exact Hxs|]. by intros x [_ ?].
Qed.

(** X21. The transformer leaves the consolidated index of the Flat Registry
    Builder alone, when the descriptor itself has no dependencies of its own
    left to rewrite: every item of the index has its list rewritten
    already. *)
Theorem flat_index_is_settled (registry : value) (its transformedItems : list value) :
  is_json registry = true →
  get "items" registry = Ok (JArr its) →
  settled (field "registryDependencies" registry) →
  mapM Flat.index_item its = Ok transformedItems →
  PostBuild.transformData (to_json (consolidated registry transformedItems))
  = Ok (to_json (consolidated registry transformedItems), false).
Proof.
  intros Hjson Hitems Hroot Hmap.
  pose proof (is_json_well_keyed _ Hjson) as Hkeys.
  pose proof Hitems as (ps & -> & _)%get_array_inv.
  assert (NoDup (own_props (consolidated (JObj ps) transformedItems)).*1) as Hnd
    by (by apply NoDup_set_prop, NoDup_spread, NoDup_nil).
  destruct (entries_settled _ _ _ index_item_settled Hmap) as [Harr Hsettled].
  assert (get "registryDependencies"
            (to_json (consolidated (JObj ps) transformedItems))
          = Ok (to_json (field "registryDependencies" (JObj ps)))) as Hrd.
  { unfold consolidated. rewrite get_to_json by exact Hnd.
    cbn [get fmap result_fmap].
    rewrite get_set_spread by done. cbn [String.eqb Ascii.eqb Bool.eqb].
    unfold field. cbn [own_props assoc get]. f_equal.
    by destruct (assoc "registryDependencies" ps). }
  assert (get "items" (to_json (consolidated (JObj ps) transformedItems))
          = Ok (JArr (to_json <$> transformedItems))) as Hentries.
  { unfold consolidated. rewrite get_to_json by exact Hnd.
    cbn [get fmap result_fmap].
    rewrite assoc_set_prop, String.eqb_refl. f_equal. exact Harr. }
  eapply transformData_settled;
    [exact Hrd|by apply settled_to_json|exact Hentries|].
  right. eexists. split; [reflexivity|exact Hsettled].
Qed.

Lemma flat_index_is_settled_witness :
  ∃ transformedItems,
    mapM Flat.index_item [form_item; nameless_item] = Ok transformedItems ∧
    PostBuild.transformData
      (to_json (consolidated (JObj [("name", JStr "coderabbit");
                                    ("items", JArr [form_item; nameless_item])])
                  transformedItems))
    = Ok (to_json (consolidated (JObj [("name", JStr "coderabbit");
                                       ("items", JArr [form_item; nameless_item])])
                     transformedItems), false).
Proof.
  destruct (mapM Flat.index_item [form_item; nameless_item])
    as [transformedItems|] eqn:Hmap; [|by vm_compute in Hmap].
  exists transformedItems. split; [done|].
  apply (flat_index_is_settled _ [form_item; nameless_item]).
  - vm_compute. reflexivity.
  - reflexivity.
  - by left.
  - exact Hmap.
Defined.

(** X22. The transformer leaves the two documents of the Bundle Registry
    Builder alone: the descriptor that [generateBundleJSON] makes of a
    configuration (one without an [items] list), and the index that
    [createBundleRegistry] makes of any items. *)
Theorem bundle_documents_are_settled (backend : string) (cfg : value)
    (items : list value) :
  NoDup (own_props cfg).*1 →
  Array_isArray (field "items" cfg) = false →
  (∀ out, Bundles.generateBundleJSON cfg = Ok out →
     PostBuild.transformData (to_json out) = Ok (to_json out, false)) ∧
  (∀ registry, Bundles.createBundleRegistry backend items = Ok registry →
     PostBuild.transformData (to_json registry) = Ok (to_json registry, false)).
Proof.
  intros Hnd Hitems. split.
  - intros out. unfold Bundles.generateBundleJSON.
    destruct (get "registryDependencies" cfg) as [deps|] eqn:Hdeps; [|done].
    cbn [mbind result_bind].
    destruct (Bundles.transformRegistryDependencies deps) as [t|] eqn:Ht; [|done].
    cbn [mbind result_bind]. intros [= <-].
    assert (NoDup (set_prop "registryDependencies" t
                     (spread_into [("$schema", item_schema)] cfg)).*1) as Hkeys
      by (by apply NoDup_set_prop, NoDup_spread, NoDup_schema_base).
    fold item_schema. eapply transformData_settled.
    + rewrite get_to_json by done. cbn [get fmap result_fmap].
      by rewrite assoc_set_prop, String.eqb_refl.
    + by eapply bundles_rewriter_settled.
    + rewrite get_to_json by done. cbn [get fmap result_fmap].
      rewrite get_set_spread by done. reflexivity.
    + left. rewrite to_json_array. cbn [String.eqb Ascii.eqb Bool.eqb].
      unfold field in Hitems. by destruct (assoc "items" (own_props cfg)).
  - intros registry. rewrite createBundleRegistry_eq.
    destruct (mapM bundle_entry items) as [entries|] eqn:Hmap; [|done].
    cbn [mbind result_bind]. intros [= <-].
    destruct (entries_settled _ _ _ bundle_entry_settled Hmap) as [Harr Hsettled].
    eapply (transformData_settled _ JUndefined (JArr (to_json <$> entries))).
    + rewrite get_to_json by compute_done. reflexivity.
    + by left.
    + rewrite get_to_json by compute_done. cbn [get fmap result_fmap].
      f_equal. exact Harr.
    + right. eexists. split; [reflexivity|exact Hsettled].
Qed.

Lemma bundle_documents_are_settled_witness :
  ∃ out, Bundles.generateBundleJSON Bundles.postgres = Ok out ∧
         PostBuild.transformData (to_json out) = Ok (to_json out, false).
Proof.
  destruct (Bundles.generateBundleJSON Bundles.postgres) as [out|] eqn:Hgen;
    [|by vm_compute in Hgen].
  exists out. split; [done|].
  refine (proj1 (bundle_documents_are_settled "postgres" Bundles.postgres [] _ _)
            out Hgen).
  - compute_done.
  - reflexivity.
Defined.

(** ** The disk after a run of the Bundle Registry Builder *)

(** A map of files after the writes [W], in order. *)
Definition apply_writes (W : list (string * fdata)) (m : gmap string fdata)
  : gmap string fdata :=
  foldl (λ m w, <[w.1 := w.2]> m) m W.

(** The content that the last write of [W] to the path [q] left. *)
Definition last_write (q : string) (W : list (string * fdata)) : option fdata :=
  foldl (λ acc w, if decide (w.1 = q) then Some w.2 else acc) None W.

Lemma apply_writes_app W W' m :
  apply_writes (W ++ W') m = apply_writes W' (apply_writes W m).
Proof. apply foldl_app. Qed.

Lemma apply_writes_lookup W m q :
  apply_writes W m !! q
  = match last_write q W with Some d => Some d | None => m !! q end.
Proof.
  induction W as [|[p d] W IH] using rev_ind; [done|].
  unfold last_write. rewrite apply_writes_app, foldl_app. cbn.
  destruct (decide (p = q)) as [->|Hne].
  - by rewrite lookup_insert_eq.
  - by rewrite lookup_insert_ne.
Qed.

Lemma last_write_None q W : q ∉ W.*1 → last_write q W = None.
Proof.
  induction W as [|[p d] W IH] using rev_ind; [done|].
  rewrite fmap_app, not_elem_of_app. cbn. intros [HW Hq%not_elem_of_cons].
  unfold last_write. rewrite foldl_app. cbn.
  rewrite decide_False by (intros ->; by destruct Hq). by apply IH.
Qed.

(** Writing the same files again changes nothing. *)
Lemma apply_writes_idem W m : apply_writes W (apply_writes W m) = apply_writes W m.
Proof.
  apply map_eq. intros q. rewrite !apply_writes_lookup.
  by destruct (last_write q W).
Qed.

(** The directories that a run made. *)
Definition made (evs : list event) : list string :=
  omap (λ e, match e with Mkdir d => Some d | _ => None end) evs.

Lemma made_app evs evs' : made (evs ++ evs') = made evs ++ made evs'.
Proof. apply omap_app. Qed.

(** The disk [fs'] is the disk [fs] after the writes that [evs] reports, with
    more directories at most. *)
Definition journal (fs : filesystem) (evs : list event) (fs' : filesystem) : Prop :=
  files fs' = apply_writes (written evs) (files fs) ∧
  unreadable fs' = unreadable fs ∧ unwritable fs' = unwritable fs ∧
  dirs fs ⊆ dirs fs' ∧ (made evs = [] → dirs fs' = dirs fs).

Lemma journal_nil fs : journal fs [] fs.
Proof. by repeat split. Qed.

Lemma journal_app fs evs fs' evs' fs'' :
  journal fs evs fs' → journal fs' evs' fs'' → journal fs (evs ++ evs') fs''.
Proof.
  intros (Hf & Hr & Hw & Hd & Hm) (Hf' & Hr' & Hw' & Hd' & Hm').
  split; [by rewrite written_app, apply_writes_app, <- Hf|].
  split; [congruence|]. split; [congruence|]. split; [by etrans|].
  rewrite made_app. intros [H1 H2]%app_eq_nil. rewrite Hm', Hm; done.
Qed.

(** Computations that keep a relation between the disk before, the events
    and the disk after, where the relation composes. *)
Section keeps.
Context (R : filesystem → list event → filesystem → Prop).
Hypothesis R_nil : ∀ fs, R fs [] fs.
Hypothesis R_app : ∀ fs evs fs' evs' fs'',
  R fs evs fs' → R fs' evs' fs'' → R fs (evs ++ evs') fs''.

Definition keeps {A} (m : M A) : Prop :=
  ∀ fs, R fs (emitted (m fs)) (disk (m fs)).

Lemma keeps_ret {A} (a : A) : keeps (mret a).
Proof. intros fs. apply R_nil. Qed.

Lemma keeps_lift {A} (r : result A) : keeps (lift r).
Proof. intros fs. apply R_nil. Qed.

Lemma keeps_exists p : keeps (fs_existsSync p).
Proof. intros fs. apply R_nil. Qed.

Lemma keeps_read p : keeps (fs_readFileSync p).
Proof. intros fs. apply R_nil. Qed.

Lemma keeps_bind {A B} (m : M A) (f : A → M B) :
  keeps m → (∀ a, keeps (f a)) → keeps (m ≫= f).
Proof.
  intros Hm Hf fs. rewrite M_bind_eq.
  destruct (returned (m fs)) as [a|e]; cbn [disk emitted]; [|apply Hm].
  eapply R_app; [apply Hm|apply Hf].
Qed.

Lemma keeps_for_of {A S} (body : S → A → M S) xs s :
  (∀ s x, keeps (body s x)) → keeps (for_of body xs s).
Proof.
  intros Hbody. revert s. induction xs as [|x xs IH]; intros s.
  - apply keeps_ret.
  - apply keeps_bind; [apply Hbody|apply IH].
Qed.

Lemma keeps_try_catch {A} (body : M A) (handler : exn → M A) :
  keeps body → (∀ e, keeps (handler e)) → keeps (try_catch body handler).
Proof.
  intros Hb Hh fs. unfold try_catch.
  destruct (returned (body fs)) as [a|[]]; try apply Hb;
    (eapply R_app; [apply Hb|apply Hh]).
Qed.
End keeps.

Definition keeps_journal {A} (m : M A) : Prop := keeps journal m.

Lemma keeps_journal_ret {A} (a : A) : keeps_journal (mret a).
Proof. apply keeps_ret, journal_nil. Qed.

Lemma keeps_journal_lift {A} (r : result A) : keeps_journal (lift r).
Proof. apply keeps_lift, journal_nil. Qed.

Lemma keeps_journal_console m : keeps_journal (console m).
Proof. intros fs. by repeat split. Qed.

Lemma keeps_journal_bind {A B} (m : M A) (f : A → M B) :
  keeps_journal m → (∀ a, keeps_journal (f a)) → keeps_journal (m ≫= f).
Proof. apply keeps_bind, journal_app. Qed.

Lemma keeps_journal_for_of {A S} (body : S → A → M S) xs s :
  (∀ s x, keeps_journal (body s x)) → keeps_journal (for_of body xs s).
Proof. apply keeps_for_of; [apply journal_nil|apply journal_app]. Qed.

Lemma keeps_journal_try_catch {A} (body : M A) (handler : exn → M A) :
  keeps_journal body → (∀ e, keeps_journal (handler e)) →
  keeps_journal (try_catch body handler).
Proof. apply keeps_try_catch, journal_app. Qed.

Lemma keeps_journal_ensureDir dir : keeps_journal (ensureDir dir).
Proof.
  intros fs. rewrite ensureDir_eq. destruct (is_there dir fs); [apply journal_nil|].
  destruct (bool_decide _); [apply journal_nil|].
  repeat split; [cbn; apply union_subseteq_r|done].
Qed.

Lemma keeps_journal_write p v : keeps_journal (write_json p v).
Proof.
  intros fs. unfold write_json, fs_writeFileSync.
  destruct v; try apply journal_nil;
    (destruct (bool_decide _); [apply journal_nil|by repeat split]).
Qed.

Lemma buildBundle_keeps_journal backend :
  keeps_journal (Bundles.buildBundle backend).
Proof.
  unfold Bundles.buildBundle. cbv zeta.
  repeat first
    [ apply keeps_journal_console | apply keeps_journal_lift
    | apply keeps_journal_ensureDir | apply keeps_journal_write
    | apply keeps_journal_bind; [|intros ?] ].
Qed.

Lemma bundles_main_keeps_journal : keeps_journal Bundles.main.
Proof.
  apply keeps_journal_try_catch.
  - unfold Bundles.buildBundles. cbv zeta.
    apply keeps_journal_bind; [apply keeps_journal_console|intros _].
    apply keeps_journal_bind; [|intros; apply keeps_journal_console].
    apply keeps_journal_for_of. intros _ b. apply buildBundle_keeps_journal.
  - intros e. apply keeps_journal_bind; [apply keeps_journal_console|].
    intros _. apply keeps_journal_lift.
Qed.

(** X23. However a run of the Bundle Registry Builder ends, it only adds to
    the disk: a file that it did not report writing is as it was, no file
    and no directory is removed, and a path that it wrote to holds what it
    wrote there last. *)
Theorem bundles_builder_only_adds (fs : filesystem) :
  let o := Bundles.main fs in
  (∀ q : string, q ∉ (written (emitted o)).*1 →
     files (disk o) !! q = files fs !! q) ∧
  (∀ q : string, is_Some (files fs !! q) → is_Some (files (disk o) !! q)) ∧
  (∀ (q : string) (d : fdata),
     last_write q (written (emitted o)) = Some d →
     files (disk o) !! q = Some d) ∧
  dirs fs ⊆ dirs (disk o).
Proof.
  cbv zeta. destruct (bundles_main_keeps_journal fs) as (Hf & _ & _ & Hd & _).
  split; [|split; [|split]].
  - intros q Hq. by rewrite Hf, apply_writes_lookup, last_write_None.
  - intros q Hq. rewrite Hf, apply_writes_lookup. by destruct (last_write q _).
  - intros q d Hq. by rewrite Hf, apply_writes_lookup, Hq.
  - done.
Qed.

(** *** Running the builder a second time *)

Lemma is_there_journal p fs evs fs' :
  journal fs evs fs' → is_there p fs = true → is_there p fs' = true.
Proof.
  intros (Hf & _ & _ & Hd & _). unfold is_there.
  rewrite !orb_true_iff, !bool_decide_eq_true. intros [Hp|Hp]; [left|right].
  - rewrite Hf, apply_writes_lookup. by destruct (last_write p _).
  - by apply Hd.
Qed.

Lemma is_there_ensureDir dir fs :
  String.prefix "/" dir = false → returned (ensureDir dir fs) = Ok tt →
  is_there dir (disk (ensureDir dir fs)) = true.
Proof.
  intros Hrel. rewrite ensureDir_eq. destruct (is_there dir fs) eqn:Hthere; [done|].
  destruct (bool_decide _); [done|]. intros _. cbn [disk]. unfold is_there.
  apply orb_true_iff. right. apply bool_decide_eq_true. cbn [dirs].
  apply elem_of_union_l, elem_of_list_to_set. by apply dir_chain_self.
Qed.

Lemma bundle_dirs_relative :
  Forall (λ b, String.prefix "/" (path_join OUTPUT_DIR b) = false)
    (Bundles.Object_keys Bundles.BUNDLES).
Proof. repeat constructor. Qed.

(** The events that a computation can emit. *)
Section emits.
Context (P : event → Prop).
Hypothesis P_console : ∀ m, P (Console m).
Hypothesis P_write : ∀ p d, P (WriteFile p d).

Definition emits_only {A} (m : M A) : Prop := ∀ fs, Forall P (emitted (m fs)).

Lemma emits_only_ret {A} (a : A) : emits_only (mret a).
Proof. intros fs. constructor. Qed.

Lemma emits_only_lift {A} (r : result A) : emits_only (lift r).
Proof. intros fs. constructor. Qed.

Lemma emits_only_console m : emits_only (console m).
Proof. intros fs. by repeat constructor. Qed.

Lemma emits_only_write p v : emits_only (write_json p v).
Proof.
  intros fs. unfold write_json, fs_writeFileSync.
  destruct v; try constructor;
    (destruct (bool_decide _); by repeat constructor).
Qed.

Lemma emits_only_bind {A B} (m : M A) (f : A → M B) :
  emits_only m → (∀ a, emits_only (f a)) → emits_only (m ≫= f).
Proof.
  intros Hm Hf fs. rewrite M_bind_eq.
  destruct (returned (m fs)) as [a|e]; cbn [emitted]; [|apply Hm].
  apply Forall_app. split; [apply Hm|apply Hf].
Qed.
End emits.

Definition no_mkdir (e : event) : Prop :=
  match e with Mkdir _ => False | _ => True end.

Lemma no_mkdir_made evs : Forall no_mkdir evs → made evs = [].
Proof. induction 1 as [|e evs He _ IH]; [done|]. by destruct e. Qed.

(** The part of [buildBundle] after [ensureDir]. *)
Lemma buildBundle_parts backend :
  ∃ rest : M unit,
    Bundles.buildBundle backend
    = (ensureDir (path_join OUTPUT_DIR backend) ≫= λ _, rest) ∧
    keeps_journal rest ∧ emits_only no_mkdir rest.
Proof.
  eexists. split; [reflexivity|]. split.
  - repeat first
      [ apply keeps_journal_console | apply keeps_journal_lift
      | apply keeps_journal_write | apply keeps_journal_bind; [|intros ?] ].
  - repeat first
      [ apply emits_only_console | apply emits_only_lift
      | apply emits_only_write | apply emits_only_bind; [|intros ?] ]; done.
Qed.

(** After [buildBundle], the directory of the backend is there. *)
Lemma buildBundle_there backend fs :
  String.prefix "/" (path_join OUTPUT_DIR backend) = false →
  returned (Bundles.buildBundle backend fs) = Ok tt →
  is_there (path_join OUTPUT_DIR backend) (disk (Bundles.buildBundle backend fs))
  = true.
Proof.
  intros Hrel. destruct (buildBundle_parts backend) as (rest & -> & Hj & _).
  rewrite M_bind_eq.
  destruct (returned (ensureDir _ fs)) as [[]|] eqn:Hdir; [|done].
  cbn [returned disk]. intros _.
  eapply is_there_journal; [apply Hj|]. by apply is_there_ensureDir.
Qed.

(** Where the directory is there already, [buildBundle] makes none. *)
Lemma buildBundle_makes_none backend fs :
  is_there (path_join OUTPUT_DIR backend) fs = true →
  made (emitted (Bundles.buildBundle backend fs)) = [].
Proof.
  intros Hthere. destruct (buildBundle_parts backend) as (rest & -> & _ & He).
  rewrite M_bind_eq, ensureDir_eq, Hthere. cbn [returned disk emitted app].
  by apply no_mkdir_made.
Qed.

Definition bundle_loop (l : list string) : M unit :=
  for_of (λ _ backend, Bundles.buildBundle backend) l tt.

Lemma bundle_loop_keeps_journal l : keeps_journal (bundle_loop l).
Proof. apply keeps_journal_for_of. intros _ b. apply buildBundle_keeps_journal. Qed.

Lemma bundle_loop_there l fs :
  Forall (λ b, String.prefix "/" (path_join OUTPUT_DIR b) = false) l →
  returned (bundle_loop l fs) = Ok tt →
  Forall (λ b, is_there (path_join OUTPUT_DIR b) (disk (bundle_loop l fs)) = true) l.
Proof.
  intros Hrel. revert fs. induction Hrel as [|b l Hb _ IH]; intros fs; [constructor|].
  unfold bundle_loop. rewrite for_of_cons, M_bind_eq.
  destruct (returned (Bundles.buildBundle b fs)) as [[]|] eqn:Hrun; [|done].
  cbn [returned disk]. intros Hrest. constructor; [|by apply IH].
  eapply is_there_journal; [apply (bundle_loop_keeps_journal l)|].
  by apply buildBundle_there.
Qed.

Lemma bundle_loop_makes_none l fs :
  Forall (λ b, is_there (path_join OUTPUT_DIR b) fs = true) l →
  made (emitted (bundle_loop l fs)) = [].
Proof.
  revert fs. induction l as [|b l IH]; intros fs Hthere; [done|].
  apply Forall_cons in Hthere as [Hb Hl].
  unfold bundle_loop. rewrite for_of_cons, M_bind_eq.
  destruct (returned (Bundles.buildBundle b fs)) as [[]|]; cbn [emitted];
    [|by apply buildBundle_makes_none].
  rewrite made_app, buildBundle_makes_none by done. apply (IH _).
  eapply Forall_impl; [exact Hl|]. intros b' Hb'.
  eapply is_there_journal; [apply buildBundle_keeps_journal|done].
Qed.

Lemma bundles_main_run fs :
  unwritable fs = ∅ →
  let keys := Bundles.Object_keys Bundles.BUNDLES in
  Bundles.main fs
  = mk_outcome (Ok tt) (disk (bundle_loop keys fs))
      (Console (ProcessingBundles (length keys))
         :: emitted (bundle_loop keys fs) ++ [Console (BundleSummary (length keys))]) ∧
  returned (bundle_loop keys fs) = Ok tt ∧
  written (emitted (bundle_loop keys fs)) = keys ≫= bundle_writes.
Proof.
  intros Hw. cbv zeta.
  destruct (buildBundles_loop (Bundles.Object_keys Bundles.BUNDLES) fs)
    as (fs' & evs & Hrun & _ & Hwr); [done|done|].
  unfold Bundles.main, try_catch, Bundles.buildBundles. cbv zeta.
  rewrite M_bind_eq, console_run. cbn [returned disk emitted].
  fold (bundle_loop (Bundles.Object_keys Bundles.BUNDLES)) in *.
  rewrite M_bind_eq, Hrun. cbn [returned disk emitted]. rewrite console_run.
  done.
Qed.

Lemma filesystem_eq fs fs' :
  files fs' = files fs → dirs fs' = dirs fs → unreadable fs' = unreadable fs →
  unwritable fs' = unwritable fs → fs' = fs.
Proof. destruct fs, fs'. cbn. by intros -> -> -> ->. Qed.

(** X24. Running the Bundle Registry Builder again on its own output changes
    nothing: on a disk where every write is allowed, a second run ends
    normally, writes the same files with the same content, makes no
    directory, and leaves the disk exactly as the first run left it. *)
Theorem bundles_rerun_changes_nothing (fs : filesystem) :
  unwritable fs = ∅ →
  let first := Bundles.main fs in
  let second := Bundles.main (disk first) in
  returned second = Ok tt ∧
  disk second = disk first ∧
  written (emitted second) = written (emitted first) ∧
  made (emitted second) = [].
Proof.
  intros Hw. cbv zeta.
  destruct (bundles_main_run fs Hw) as (Hfirst & Hret1 & Hwr1). cbv zeta in *.
  set (keys := Bundles.Object_keys Bundles.BUNDLES) in *.
  destruct (bundle_loop_keeps_journal keys fs) as (Hf1 & Hr1 & Hw1 & Hd1 & _).
  rewrite Hfirst. cbn [disk emitted]. set (fs1 := disk (bundle_loop keys fs)) in *.
  assert (unwritable fs1 = ∅) as Hwfs1 by congruence.
  destruct (bundles_main_run fs1 Hwfs1) as (Hsecond & Hret2 & Hwr2).
  cbv zeta in *. fold keys in Hsecond, Hret2, Hwr2.
  destruct (bundle_loop_keeps_journal keys fs1) as (Hf2 & Hr2 & Hw2 & Hd2 & Hm2).
  assert (made (emitted (bundle_loop keys fs1)) = []) as Hmade.
  { apply bundle_loop_makes_none.
    apply (bundle_loop_there keys fs bundle_dirs_relative Hret1). }
  rewrite Hsecond. cbn [returned disk emitted]. split; [done|]. split; [|split].
  - apply filesystem_eq; [|by apply Hm2|done|done].
    by rewrite Hf2, Hwr2, Hf1, Hwr1, apply_writes_idem.
  - change (written (Console ?m :: ?l)) with (written l).
    by rewrite !written_app, Hwr1, Hwr2.
  - change (made (Console ?m :: ?l)) with (made l).
    by rewrite made_app, Hmade.
Qed.

Lemma bundles_rerun_changes_nothing_witness :
  let first := Bundles.main (mk_filesystem ∅ ∅ ∅ ∅) in
  disk (Bundles.main (disk first)) = disk first.
Proof.
  cbv zeta.
  exact (proj1 (proj2 (bundles_rerun_changes_nothing (mk_filesystem ∅ ∅ ∅ ∅)
                         eq_refl))).
Defined.

(** ** The disk after a run of the Flat Registry Builder *)

(** What an event does to the files. *)
Definition apply_event (m : gmap string fdata) (e : event) : gmap string fdata :=
  match e with
  | WriteFile p d => <[p := d]> m
  | CopyFile src dest =>
      match m !! src with Some d => <[dest := d]> m | None => m end
  | _ => m
  end.

Definition replay (evs : list event) (m : gmap string fdata) : gmap string fdata :=
  foldl apply_event m evs.

(** The paths that a run wrote or copied to. *)
Definition targets (evs : list event) : list string :=
  omap (λ e, match e with
             | WriteFile p _ => Some p
             | CopyFile _ dest => Some dest
             | _ => None
             end) evs.

Lemma replay_lookup_other evs m q :
  q ∉ targets evs → replay evs m !! q = m !! q.
Proof.
  induction evs as [|e evs IH] using rev_ind; [done|].
  unfold targets, replay. rewrite omap_app, foldl_app, not_elem_of_app.
  fold (targets evs) (replay evs m). intros [Hevs He]. cbn [foldl].
  destruct e as [d|p d|src dest|msg]; cbn in *; try by apply IH.
  - apply not_elem_of_cons in He as [Hne _].
    rewrite lookup_insert_ne by done. by apply IH.
  - apply not_elem_of_cons in He as [Hne _].
    destruct (replay evs m !! src); [|by apply IH].
    rewrite lookup_insert_ne by done. by apply IH.
Qed.

Lemma replay_is_Some evs m q :
  is_Some (m !! q) → is_Some (replay evs m !! q).
Proof.
  intros Hq. induction evs as [|e evs IH] using rev_ind; [done|].
  unfold replay. rewrite foldl_app. fold (replay evs m). cbn [foldl].
  destruct e as [d|p d|src dest|msg]; cbn; try done.
  - apply lookup_insert_is_Some'. by right.
  - destruct (replay evs m !! src); [|done].
    apply lookup_insert_is_Some'. by right.
Qed.

(** The disk [fs'] is the disk [fs] after the writes and copies of [evs],
    with more directories at most. *)
Definition log (fs : filesystem) (evs : list event) (fs' : filesystem) : Prop :=
  files fs' = replay evs (files fs) ∧
  unreadable fs' = unreadable fs ∧ unwritable fs' = unwritable fs ∧
  dirs fs ⊆ dirs fs'.

Lemma log_nil fs : log fs [] fs.
Proof. by repeat split. Qed.

Lemma log_app fs evs fs' evs' fs'' :
  log fs evs fs' → log fs' evs' fs'' → log fs (evs ++ evs') fs''.
Proof.
  intros (Hf & Hr & Hw & Hd) (Hf' & Hr' & Hw' & Hd').
  split; [unfold replay in *; by rewrite foldl_app, <- Hf|].
  split; [congruence|]. split; [congruence|]. by etrans.
Qed.

Definition keeps_log {A} (m : M A) : Prop := keeps log m.

Lemma keeps_log_console m : keeps_log (console m).
Proof. intros fs. by repeat split. Qed.

Lemma keeps_log_ensureDir dir : keeps_log (ensureDir dir).
Proof.
  intros fs. rewrite ensureDir_eq. destruct (is_there dir fs); [apply log_nil|].
  destruct (bool_decide _); [apply log_nil|].
  repeat split. cbn. apply union_subseteq_r.
Qed.

Lemma keeps_log_write p v : keeps_log (write_json p v).
Proof.
  intros fs. unfold write_json, fs_writeFileSync.
  destruct v; try apply log_nil;
    (destruct (bool_decide _); [apply log_nil|by repeat split]).
Qed.

Lemma read_file_lookup p fs d : read_file p fs = Ok d → files fs !! p = Some d.
Proof.
  unfold read_file. destruct (bool_decide _); [done|].
  destruct (files fs !! p); [by intros [= ->]|done].
Qed.

Lemma keeps_log_copy src dest : keeps_log (fs_copyFileSync src dest).
Proof.
  intros fs. unfold fs_copyFileSync.
  destruct (read_file src fs) as [d|] eqn:Hread; [|apply log_nil].
  destruct (bool_decide _); [apply log_nil|].
  split; [|done]. cbn. by rewrite (read_file_lookup _ _ _ Hread).
Qed.

Local Ltac keeps_log_steps :=
  repeat first
    [ apply keeps_log_console | apply keeps_log_ensureDir
    | apply keeps_log_write | apply keeps_log_copy
    | apply (keeps_lift log log_nil) | apply (keeps_ret log log_nil)
    | apply (keeps_exists log log_nil) | apply (keeps_read log log_nil)
    | apply (keeps_for_of log log_nil log_app); intros ? ?
    | apply (keeps_try_catch log log_app); [|intros ?]
    | apply (keeps_bind log log_app); [|intros ?]
    | match goal with |- keeps log (if ?b then _ else _) => destruct b end
    | match goal with |- keeps_log (if ?b then _ else _) => destruct b end ].

Lemma copySourceFiles_keeps_log item : keeps_log (Flat.copySourceFiles item).
Proof.
  unfold keeps_log, Flat.copySourceFiles, Flat.copyFile. keeps_log_steps.
Qed.

Lemma processItem_keeps_log st item : keeps_log (Flat.processItem st item).
Proof.
  unfold keeps_log, Flat.processItem.
  repeat first
    [ apply copySourceFiles_keeps_log | progress keeps_log_steps ].
Qed.

Lemma flat_main_keeps_log : keeps_log Flat.main.
Proof.
  unfold keeps_log, Flat.main, Flat.buildFlatRegistry, Flat.readRegistryConfig,
    Flat.buildFrom, process_exit.
  repeat first
    [ apply processItem_keeps_log | progress keeps_log_steps ].
Qed.

(** X25. However a run of the Flat Registry Builder ends, it only adds to
    the disk: a file that is neither a descriptor it wrote nor the
    destination of a copy it made is as it was (a source file is never
    changed unless an output path falls on it), and no file and no directory
    is removed. *)
Theorem flat_builder_only_adds (fs : filesystem) :
  let o := Flat.main fs in
  (∀ q : string, q ∉ targets (emitted o) →
     files (disk o) !! q = files fs !! q) ∧
  (∀ q : string, is_Some (files fs !! q) → is_Some (files (disk o) !! q)) ∧
  dirs fs ⊆ dirs (disk o).
Proof.
  cbv zeta. destruct (flat_main_keeps_log fs) as (Hf & _ & _ & Hd).
  split; [|split; [|done]].
  - intros q Hq. rewrite Hf. by apply replay_lookup_other.
  - intros q Hq. rewrite Hf. by apply replay_is_Some.
Qed.

(** * Items without a name, and the consolidated index *)

(** ** An item without a name *)

Lemma buildFrom_skip item name l1 l2 registry registry' fs :
  get "name" item = Ok name → truthy name = false →
  is_ok (Flat.index_item item) = true →
  get "items" registry = Ok (JArr (l1 ++ item :: l2)) →
  get "items" registry' = Ok (JArr (l1 ++ l2)) →
  returned (Flat.buildFrom registry fs) = Ok tt ↔
  returned (Flat.buildFrom registry' fs) = Ok tt.
Proof.
  intros Hname Hfalsy Hindex Hitems Hitems'.
  rewrite (buildFrom_run _ _ _ Hitems), (buildFrom_run _ _ _ Hitems'). cbv zeta.
  destruct (ensureDir OUTPUT_DIR fs) as [[[]|e] fs1 evs1];
    cbn [returned disk emitted]; [|done].
  destruct (returned (for_of Flat.processItem l1 (0, []) fs1)) as [st1|e] eqn:Hb.
  - destruct (processItems_skip _ _ l1 l2 _ _ _ Hname Hfalsy Hb) as [-> ->].
    cbn [returned disk emitted].
    destruct (returned (for_of Flat.processItem l2 st1 _)) as [st2|e]; [|done].
    pose proof (mapM_skip_ok Flat.index_item l1 item l2 Hindex) as Hok.
    destruct (mapM Flat.index_item (l1 ++ item :: l2)),
             (mapM Flat.index_item (l1 ++ l2)); try discriminate Hok; [|done].
    by destruct (bool_decide _).
  - rewrite (processItems_skip_failed item l1 l2 _ _ _ Hb).
    rewrite for_of_app. cbv zeta. rewrite Hb. done.
Qed.

(** An item can be put in the index exactly when the rewriter accepts its
    dependencies. *)
Lemma index_item_ok item deps :
  get "registryDependencies" item = Ok deps →
  is_ok (Flat.index_item item) = rewritable deps.
Proof.
  intros Hdeps. unfold Flat.index_item. rewrite Hdeps. cbn [mbind result_bind].
  pose proof (flat_rewriter_cases deps) as H.
  destruct (rewritable deps); [by destruct H as [t ->]|by rewrite H].
Qed.

Lemma mapM_fails_at {A B} (f : A → result B) l1 x l2 :
  is_ok (f x) = false → is_ok (mapM f (l1 ++ x :: l2)) = false.
Proof.
  intros Hx. rewrite mapM_app_ok, mapM_cons. destruct (f x); [done|].
  apply andb_false_r.
Qed.

(** The build fails when an item of the descriptor cannot be put in the
    index. *)
Lemma buildFrom_index_fails registry its fs :
  get "items" registry = Ok (JArr its) →
  is_ok (mapM Flat.index_item its) = false →
  ∃ e, returned (Flat.buildFrom registry fs) = Throw e ∧ exception e.
Proof.
  intros Hitems Hno.
  destruct (returned (Flat.buildFrom registry fs)) as [[]|e] eqn:Hret.
  - exfalso. revert Hret. rewrite (buildFrom_run _ _ _ Hitems). cbv zeta.
    destruct (returned (ensureDir OUTPUT_DIR fs)) as [[]|]; [|done].
    destruct (returned (for_of Flat.processItem its (0, []) _)); [|done].
    destruct (mapM Flat.index_item its); [done|done].
  - exists e. split; [done|]. by eapply buildFrom_items.
Qed.

Lemma get_name_not_nullish item name :
  get "name" item = Ok name → ∃ deps, get "registryDependencies" item = Ok deps.
Proof. destruct item; try discriminate; intros _; by eexists. Qed.


(** An item without a name whose list of dependencies holds a number, after
    an item with a name, and the descriptors with and without it. *)
Definition named_item : value :=
  JObj [("name", JStr "a"); ("type", JStr "t")].

Definition unnamed_item : value :=
  JObj [("registryDependencies", JArr [JNum "5"])].

Definition descriptor_disk (its : list value) : filesystem :=
  mk_filesystem {[ "registry.json" := Json (JObj [("items", JArr its)]) ]}
    ∅ ∅ ∅.



(** ** The consolidated index *)

Lemma rewritten_array_strings ds :
  rewritten_array (JStr <$> ds) = Ok (JArr (JStr <$> (rewritten <$> ds))).
Proof.
  unfold rewritten_array. by rewrite forallb_is_string_fmap, strings_of_fmap.
Qed.

Lemma get_spread_only k v :
  NoDup (own_props v).*1 →
  assoc k (spread_into [] v) = assoc k (own_props v).
Proof.
  intros Hnd. unfold spread_into. rewrite assoc_foldl_set_prop by done.
  by destruct (assoc k (own_props v)).
Qed.

(** A property of a parsed value is a parsed value, or there is none. *)
Lemma field_json k v :
  is_json v = true → field k v = JUndefined ∨ is_json (field k v) = true.
Proof.
  intros Hj. unfold field. destruct (assoc k (own_props v)) as [e|] eqn:E;
    [right|by left].
  by eapply own_props_values_json.
Qed.

Lemma field_finite k v :
  finite_numbers v = true → finite_numbers (field k v) = true.
Proof.
  intros H%finite_props_own. unfold field.
  induction H as [|[k0 e0] ps H0 H IH]; [done|]. cbn.
  by destruct (String.eqb k0 k).
Qed.

Lemma to_json_field k v :
  is_json v = true → finite_numbers v = true →
  to_json (field k v) = field k v.
Proof.
  intros Hj Hf. apply to_json_id_or_undefined;
    [by apply field_json|by apply field_finite].
Qed.

(** An item of the index as it is read from the file: its dependencies are
    those that the rewriter returned, every other property is the property
    of the item, each as it is printed. *)
Lemma index_item_written item x :
  NoDup (own_props item).*1 →
  Flat.index_item item = Ok x →
  ∃ deps deps',
    get "registryDependencies" item = Ok deps ∧
    Flat.transformRegistryDependencies deps = Ok deps' ∧
    get "registryDependencies" (to_json x) = Ok (to_json deps') ∧
    ∀ k, k ≠ "registryDependencies" →
         get k (to_json x) = Ok (to_json (field k item)).
Proof.
  intros Hkeys. unfold Flat.index_item.
  destruct (get "registryDependencies" item) as [deps|] eqn:Hdeps; [|discriminate].
  cbn [mbind result_bind].
  destruct (Flat.transformRegistryDependencies deps) as [deps'|] eqn:Ht;
    [|discriminate].
  cbn [mbind result_bind]. intros [= <-]. exists deps, deps'.
  split; [done|]. split; [done|].
  assert (Hnd : NoDup (set_prop "registryDependencies" deps'
                         (spread_into [] item)).*1).
  { apply NoDup_set_prop, NoDup_spread, NoDup_nil_2. }
  split.
  - rewrite get_to_json by done. cbn [get fmap result_fmap].
    by rewrite assoc_set_prop, String.eqb_refl.
  - intros k Hk. rewrite get_to_json by done. cbn [get fmap result_fmap].
    rewrite get_set_spread by done.
    apply not_eq_sym, String.eqb_neq in Hk. rewrite Hk. unfold field.
    by destruct (assoc k (own_props item)).
Qed.

(** What is read of the [content] of a file of an item. *)
Lemma content_written f c :
  is_json f = true →
  get "content" f = Ok c → c ≠ JUndefined →
  get "content" (to_json f) = Ok (to_json c).
Proof.
  destruct f as [| | | | | |ps]; try discriminate;
    try (by intros _ [= <-] ?).
  intros [Hnd _]%is_json_object Hc _. by rewrite get_to_json, Hc.
Qed.


